(** * VOC case-management platform: a shallow embedding and its properties

    The development follows the layout of the repository.  The first part
    embeds the Python sources as Rocq functions, one module per source file
    ([models.py], [utils/validation.py], [routes/evaluator.py], ...); the
    second part states and proves the properties of these functions.

    Conventions of the embedding.
    - A Python [str] is a Rocq [string] holding its UTF-8 encoding, so the
      accented status names are ordinary literals and string equality is
      exact.  [len], [strip], [upper] and [lower] work on the characters
      (code points) of the string, with the tables of the interpreter's
      Unicode database.
    - A Python [float] is a binary64 [PrimFloat.float].
    - A table of the database is the list of its rows in insertion order; a
      handler takes the database and returns the new one together with the
      HTTP response and the flashed messages.  A handler's [try] block is
      modelled on the path where the storage layer does not raise, unless
      stated otherwise.
    - The clock is an argument: [utcnow] for [datetime.utcnow()], [today]
      for [date.today()], [now] for [datetime.now()]. *)

From Stdlib Require Import ZArith List String Ascii Bool Lia Floats Sorted.
Import ListNotations.
Local Open Scope string_scope.
Local Open Scope Z_scope.

(** ** The Unicode character database of the interpreter

    The tables that [str.upper], [str.lower], [str.isspace] and
    [str.strip] read, for the code points 0 .. 0x10FFFF (Unicode 14.0, the
    database of CPython 3.11).  A run [(first, last, step, delta)] maps
    every code point [first + k * step <= last] to itself plus [delta];
    the full mappings give the characters that map to several code
    points ([U+00DF] to "SS"); a code point in no table maps to itself. *)
Module Unicode.

Definition UPPER : list (Z * Z * Z * Z) :=
  [
    (97, 122, 1, -32); (181, 181, 1, 743); (224, 246, 1, -32);
    (248, 254, 1, -32); (255, 255, 1, 121); (257, 303, 2, -1);
    (305, 305, 1, -232); (307, 311, 2, -1); (314, 328, 2, -1);
    (331, 375, 2, -1); (378, 382, 2, -1); (383, 383, 1, -300);
    (384, 384, 1, 195); (387, 389, 2, -1); (392, 392, 1, -1);
    (396, 396, 1, -1); (402, 402, 1, -1); (405, 405, 1, 97);
    (409, 409, 1, -1); (410, 410, 1, 163); (414, 414, 1, 130);
    (417, 421, 2, -1); (424, 424, 1, -1); (429, 429, 1, -1);
    (432, 432, 1, -1); (436, 438, 2, -1); (441, 441, 1, -1);
    (445, 445, 1, -1); (447, 447, 1, 56); (453, 453, 1, -1);
    (454, 454, 1, -2); (456, 456, 1, -1); (457, 457, 1, -2);
    (459, 459, 1, -1); (460, 460, 1, -2); (462, 476, 2, -1);
    (477, 477, 1, -79); (479, 495, 2, -1); (498, 498, 1, -1);
    (499, 499, 1, -2); (501, 501, 1, -1); (505, 543, 2, -1);
    (547, 563, 2, -1); (572, 572, 1, -1); (575, 576, 1, 10815);
    (578, 578, 1, -1); (583, 591, 2, -1); (592, 592, 1, 10783);
    (593, 593, 1, 10780); (594, 594, 1, 10782); (595, 595, 1, -210);
    (596, 596, 1, -206); (598, 599, 1, -205); (601, 601, 1, -202);
    (603, 603, 1, -203); (604, 604, 1, 42319); (608, 608, 1, -205);
    (609, 609, 1, 42315); (611, 611, 1, -207); (613, 613, 1, 42280);
    (614, 614, 1, 42308); (616, 616, 1, -209); (617, 617, 1, -211);
    (618, 618, 1, 42308); (619, 619, 1, 10743); (620, 620, 1, 42305);
    (623, 623, 1, -211); (625, 625, 1, 10749); (626, 626, 1, -213);
    (629, 629, 1, -214); (637, 637, 1, 10727); (640, 640, 1, -218);
    (642, 642, 1, 42307); (643, 643, 1, -218); (647, 647, 1, 42282);
    (648, 648, 1, -218); (649, 649, 1, -69); (650, 651, 1, -217);
    (652, 652, 1, -71); (658, 658, 1, -219); (669, 669, 1, 42261);
    (670, 670, 1, 42258); (837, 837, 1, 84); (881, 883, 2, -1);
    (887, 887, 1, -1); (891, 893, 1, 130); (940, 940, 1, -38);
    (941, 943, 1, -37); (945, 961, 1, -32); (962, 962, 1, -31);
    (963, 971, 1, -32); (972, 972, 1, -64); (973, 974, 1, -63);
    (976, 976, 1, -62); (977, 977, 1, -57); (981, 981, 1, -47);
    (982, 982, 1, -54); (983, 983, 1, -8); (985, 1007, 2, -1);
    (1008, 1008, 1, -86); (1009, 1009, 1, -80); (1010, 1010, 1, 7);
    (1011, 1011, 1, -116); (1013, 1013, 1, -96); (1016, 1016, 1, -1);
    (1019, 1019, 1, -1); (1072, 1103, 1, -32); (1104, 1119, 1, -80);
    (1121, 1153, 2, -1); (1163, 1215, 2, -1); (1218, 1230, 2, -1);
    (1231, 1231, 1, -15); (1233, 1327, 2, -1); (1377, 1414, 1, -48);
    (4304, 4346, 1, 3008); (4349, 4351, 1, 3008); (5112, 5117, 1, -8);
    (7296, 7296, 1, -6254); (7297, 7297, 1, -6253); (7298, 7298, 1, -6244);
    (7299, 7300, 1, -6242); (7301, 7301, 1, -6243); (7302, 7302, 1, -6236);
    (7303, 7303, 1, -6181); (7304, 7304, 1, 35266); (7545, 7545, 1, 35332);
    (7549, 7549, 1, 3814); (7566, 7566, 1, 35384); (7681, 7829, 2, -1);
    (7835, 7835, 1, -59); (7841, 7935, 2, -1); (7936, 7943, 1, 8);
    (7952, 7957, 1, 8); (7968, 7975, 1, 8); (7984, 7991, 1, 8);
    (8000, 8005, 1, 8); (8017, 8023, 2, 8); (8032, 8039, 1, 8);
    (8048, 8049, 1, 74); (8050, 8053, 1, 86); (8054, 8055, 1, 100);
    (8056, 8057, 1, 128); (8058, 8059, 1, 112); (8060, 8061, 1, 126);
    (8112, 8113, 1, 8); (8126, 8126, 1, -7205); (8144, 8145, 1, 8);
    (8160, 8161, 1, 8); (8165, 8165, 1, 7); (8526, 8526, 1, -28);
    (8560, 8575, 1, -16); (8580, 8580, 1, -1); (9424, 9449, 1, -26);
    (11312, 11359, 1, -48); (11361, 11361, 1, -1); (11365, 11365, 1, -10795);
    (11366, 11366, 1, -10792); (11368, 11372, 2, -1); (11379, 11379, 1, -1);
    (11382, 11382, 1, -1); (11393, 11491, 2, -1); (11500, 11502, 2, -1);
    (11507, 11507, 1, -1); (11520, 11557, 1, -7264);
    (11559, 11559, 1, -7264); (11565, 11565, 1, -7264);
    (42561, 42605, 2, -1); (42625, 42651, 2, -1); (42787, 42799, 2, -1);
    (42803, 42863, 2, -1); (42874, 42876, 2, -1); (42879, 42887, 2, -1);
    (42892, 42892, 1, -1); (42897, 42899, 2, -1); (42900, 42900, 1, 48);
    (42903, 42921, 2, -1); (42933, 42947, 2, -1); (42952, 42954, 2, -1);
    (42961, 42961, 1, -1); (42967, 42969, 2, -1); (42998, 42998, 1, -1);
    (43859, 43859, 1, -928); (43888, 43967, 1, -38864);
    (65345, 65370, 1, -32); (66600, 66639, 1, -40); (66776, 66811, 1, -40);
    (66967, 66977, 1, -39); (66979, 66993, 1, -39); (66995, 67001, 1, -39);
    (67003, 67004, 1, -39); (68800, 68850, 1, -64); (71872, 71903, 1, -32);
    (93792, 93823, 1, -32); (125218, 125251, 1, -34) ].

Definition UPPER_FULL : list (Z * list Z) :=
  [
    (223, [83; 83]); (329, [700; 78]); (496, [74; 780]);
    (912, [921; 776; 769]); (944, [933; 776; 769]); (1415, [1333; 1362]);
    (7830, [72; 817]); (7831, [84; 776]); (7832, [87; 778]);
    (7833, [89; 778]); (7834, [65; 702]); (8016, [933; 787]);
    (8018, [933; 787; 768]); (8020, [933; 787; 769]);
    (8022, [933; 787; 834]); (8064, [7944; 921]); (8065, [7945; 921]);
    (8066, [7946; 921]); (8067, [7947; 921]); (8068, [7948; 921]);
    (8069, [7949; 921]); (8070, [7950; 921]); (8071, [7951; 921]);
    (8072, [7944; 921]); (8073, [7945; 921]); (8074, [7946; 921]);
    (8075, [7947; 921]); (8076, [7948; 921]); (8077, [7949; 921]);
    (8078, [7950; 921]); (8079, [7951; 921]); (8080, [7976; 921]);
    (8081, [7977; 921]); (8082, [7978; 921]); (8083, [7979; 921]);
    (8084, [7980; 921]); (8085, [7981; 921]); (8086, [7982; 921]);
    (8087, [7983; 921]); (8088, [7976; 921]); (8089, [7977; 921]);
    (8090, [7978; 921]); (8091, [7979; 921]); (8092, [7980; 921]);
    (8093, [7981; 921]); (8094, [7982; 921]); (8095, [7983; 921]);
    (8096, [8040; 921]); (8097, [8041; 921]); (8098, [8042; 921]);
    (8099, [8043; 921]); (8100, [8044; 921]); (8101, [8045; 921]);
    (8102, [8046; 921]); (8103, [8047; 921]); (8104, [8040; 921]);
    (8105, [8041; 921]); (8106, [8042; 921]); (8107, [8043; 921]);
    (8108, [8044; 921]); (8109, [8045; 921]); (8110, [8046; 921]);
    (8111, [8047; 921]); (8114, [8122; 921]); (8115, [913; 921]);
    (8116, [902; 921]); (8118, [913; 834]); (8119, [913; 834; 921]);
    (8124, [913; 921]); (8130, [8138; 921]); (8131, [919; 921]);
    (8132, [905; 921]); (8134, [919; 834]); (8135, [919; 834; 921]);
    (8140, [919; 921]); (8146, [921; 776; 768]); (8147, [921; 776; 769]);
    (8150, [921; 834]); (8151, [921; 776; 834]); (8162, [933; 776; 768]);
    (8163, [933; 776; 769]); (8164, [929; 787]); (8166, [933; 834]);
    (8167, [933; 776; 834]); (8178, [8186; 921]); (8179, [937; 921]);
    (8180, [911; 921]); (8182, [937; 834]); (8183, [937; 834; 921]);
    (8188, [937; 921]); (64256, [70; 70]); (64257, [70; 73]);
    (64258, [70; 76]); (64259, [70; 70; 73]); (64260, [70; 70; 76]);
    (64261, [83; 84]); (64262, [83; 84]); (64275, [1348; 1350]);
    (64276, [1348; 1333]); (64277, [1348; 1339]); (64278, [1358; 1350]);
    (64279, [1348; 1341]) ].

Definition LOWER : list (Z * Z * Z * Z) :=
  [
    (65, 90, 1, 32); (192, 214, 1, 32); (216, 222, 1, 32); (256, 302, 2, 1);
    (306, 310, 2, 1); (313, 327, 2, 1); (330, 374, 2, 1);
    (376, 376, 1, -121); (377, 381, 2, 1); (385, 385, 1, 210);
    (386, 388, 2, 1); (390, 390, 1, 206); (391, 391, 1, 1);
    (393, 394, 1, 205); (395, 395, 1, 1); (398, 398, 1, 79);
    (399, 399, 1, 202); (400, 400, 1, 203); (401, 401, 1, 1);
    (403, 403, 1, 205); (404, 404, 1, 207); (406, 406, 1, 211);
    (407, 407, 1, 209); (408, 408, 1, 1); (412, 412, 1, 211);
    (413, 413, 1, 213); (415, 415, 1, 214); (416, 420, 2, 1);
    (422, 422, 1, 218); (423, 423, 1, 1); (425, 425, 1, 218);
    (428, 428, 1, 1); (430, 430, 1, 218); (431, 431, 1, 1);
    (433, 434, 1, 217); (435, 437, 2, 1); (439, 439, 1, 219);
    (440, 440, 1, 1); (444, 444, 1, 1); (452, 452, 1, 2); (453, 453, 1, 1);
    (455, 455, 1, 2); (456, 456, 1, 1); (458, 458, 1, 2); (459, 475, 2, 1);
    (478, 494, 2, 1); (497, 497, 1, 2); (498, 500, 2, 1); (502, 502, 1, -97);
    (503, 503, 1, -56); (504, 542, 2, 1); (544, 544, 1, -130);
    (546, 562, 2, 1); (570, 570, 1, 10795); (571, 571, 1, 1);
    (573, 573, 1, -163); (574, 574, 1, 10792); (577, 577, 1, 1);
    (579, 579, 1, -195); (580, 580, 1, 69); (581, 581, 1, 71);
    (582, 590, 2, 1); (880, 882, 2, 1); (886, 886, 1, 1); (895, 895, 1, 116);
    (902, 902, 1, 38); (904, 906, 1, 37); (908, 908, 1, 64);
    (910, 911, 1, 63); (913, 929, 1, 32); (931, 939, 1, 32);
    (975, 975, 1, 8); (984, 1006, 2, 1); (1012, 1012, 1, -60);
    (1015, 1015, 1, 1); (1017, 1017, 1, -7); (1018, 1018, 1, 1);
    (1021, 1023, 1, -130); (1024, 1039, 1, 80); (1040, 1071, 1, 32);
    (1120, 1152, 2, 1); (1162, 1214, 2, 1); (1216, 1216, 1, 15);
    (1217, 1229, 2, 1); (1232, 1326, 2, 1); (1329, 1366, 1, 48);
    (4256, 4293, 1, 7264); (4295, 4295, 1, 7264); (4301, 4301, 1, 7264);
    (5024, 5103, 1, 38864); (5104, 5109, 1, 8); (7312, 7354, 1, -3008);
    (7357, 7359, 1, -3008); (7680, 7828, 2, 1); (7838, 7838, 1, -7615);
    (7840, 7934, 2, 1); (7944, 7951, 1, -8); (7960, 7965, 1, -8);
    (7976, 7983, 1, -8); (7992, 7999, 1, -8); (8008, 8013, 1, -8);
    (8025, 8031, 2, -8); (8040, 8047, 1, -8); (8072, 8079, 1, -8);
    (8088, 8095, 1, -8); (8104, 8111, 1, -8); (8120, 8121, 1, -8);
    (8122, 8123, 1, -74); (8124, 8124, 1, -9); (8136, 8139, 1, -86);
    (8140, 8140, 1, -9); (8152, 8153, 1, -8); (8154, 8155, 1, -100);
    (8168, 8169, 1, -8); (8170, 8171, 1, -112); (8172, 8172, 1, -7);
    (8184, 8185, 1, -128); (8186, 8187, 1, -126); (8188, 8188, 1, -9);
    (8486, 8486, 1, -7517); (8490, 8490, 1, -8383); (8491, 8491, 1, -8262);
    (8498, 8498, 1, 28); (8544, 8559, 1, 16); (8579, 8579, 1, 1);
    (9398, 9423, 1, 26); (11264, 11311, 1, 48); (11360, 11360, 1, 1);
    (11362, 11362, 1, -10743); (11363, 11363, 1, -3814);
    (11364, 11364, 1, -10727); (11367, 11371, 2, 1);
    (11373, 11373, 1, -10780); (11374, 11374, 1, -10749);
    (11375, 11375, 1, -10783); (11376, 11376, 1, -10782);
    (11378, 11378, 1, 1); (11381, 11381, 1, 1); (11390, 11391, 1, -10815);
    (11392, 11490, 2, 1); (11499, 11501, 2, 1); (11506, 11506, 1, 1);
    (42560, 42604, 2, 1); (42624, 42650, 2, 1); (42786, 42798, 2, 1);
    (42802, 42862, 2, 1); (42873, 42875, 2, 1); (42877, 42877, 1, -35332);
    (42878, 42886, 2, 1); (42891, 42891, 1, 1); (42893, 42893, 1, -42280);
    (42896, 42898, 2, 1); (42902, 42920, 2, 1); (42922, 42922, 1, -42308);
    (42923, 42923, 1, -42319); (42924, 42924, 1, -42315);
    (42925, 42925, 1, -42305); (42926, 42926, 1, -42308);
    (42928, 42928, 1, -42258); (42929, 42929, 1, -42282);
    (42930, 42930, 1, -42261); (42931, 42931, 1, 928); (42932, 42946, 2, 1);
    (42948, 42948, 1, -48); (42949, 42949, 1, -42307);
    (42950, 42950, 1, -35384); (42951, 42953, 2, 1); (42960, 42960, 1, 1);
    (42966, 42968, 2, 1); (42997, 42997, 1, 1); (65313, 65338, 1, 32);
    (66560, 66599, 1, 40); (66736, 66771, 1, 40); (66928, 66938, 1, 39);
    (66940, 66954, 1, 39); (66956, 66962, 1, 39); (66964, 66965, 1, 39);
    (68736, 68786, 1, 64); (71840, 71871, 1, 32); (93760, 93791, 1, 32);
    (125184, 125217, 1, 34) ].

Definition LOWER_FULL : list (Z * list Z) :=
  [
    (304, [105; 775]) ].

Definition CASED : list (Z * Z) :=
  [
    (65, 90); (97, 122); (170, 170); (181, 181); (186, 186); (192, 214);
    (216, 246); (248, 442); (444, 447); (452, 659); (661, 696); (704, 705);
    (736, 740); (837, 837); (880, 883); (886, 887); (890, 893); (895, 895);
    (902, 902); (904, 906); (908, 908); (910, 929); (931, 1013);
    (1015, 1153); (1162, 1327); (1329, 1366); (1376, 1416); (4256, 4293);
    (4295, 4295); (4301, 4301); (4304, 4346); (4349, 4351); (5024, 5109);
    (5112, 5117); (7296, 7304); (7312, 7354); (7357, 7359); (7424, 7615);
    (7680, 7957); (7960, 7965); (7968, 8005); (8008, 8013); (8016, 8023);
    (8025, 8025); (8027, 8027); (8029, 8029); (8031, 8061); (8064, 8116);
    (8118, 8124); (8126, 8126); (8130, 8132); (8134, 8140); (8144, 8147);
    (8150, 8155); (8160, 8172); (8178, 8180); (8182, 8188); (8305, 8305);
    (8319, 8319); (8336, 8348); (8450, 8450); (8455, 8455); (8458, 8467);
    (8469, 8469); (8473, 8477); (8484, 8484); (8486, 8486); (8488, 8488);
    (8490, 8493); (8495, 8500); (8505, 8505); (8508, 8511); (8517, 8521);
    (8526, 8526); (8544, 8575); (8579, 8580); (9398, 9449); (11264, 11492);
    (11499, 11502); (11506, 11507); (11520, 11557); (11559, 11559);
    (11565, 11565); (42560, 42605); (42624, 42653); (42786, 42887);
    (42891, 42894); (42896, 42954); (42960, 42961); (42963, 42963);
    (42965, 42969); (42997, 42998); (43000, 43002); (43824, 43866);
    (43868, 43880); (43888, 43967); (64256, 64262); (64275, 64279);
    (65313, 65338); (65345, 65370); (66560, 66639); (66736, 66771);
    (66776, 66811); (66928, 66938); (66940, 66954); (66956, 66962);
    (66964, 66965); (66967, 66977); (66979, 66993); (66995, 67001);
    (67003, 67004); (67456, 67456); (67459, 67461); (67463, 67504);
    (67506, 67514); (68736, 68786); (68800, 68850); (71840, 71903);
    (93760, 93823); (119808, 119892); (119894, 119964); (119966, 119967);
    (119970, 119970); (119973, 119974); (119977, 119980); (119982, 119993);
    (119995, 119995); (119997, 120003); (120005, 120069); (120071, 120074);
    (120077, 120084); (120086, 120092); (120094, 120121); (120123, 120126);
    (120128, 120132); (120134, 120134); (120138, 120144); (120146, 120485);
    (120488, 120512); (120514, 120538); (120540, 120570); (120572, 120596);
    (120598, 120628); (120630, 120654); (120656, 120686); (120688, 120712);
    (120714, 120744); (120746, 120770); (120772, 120779); (122624, 122633);
    (122635, 122654); (125184, 125251); (127280, 127305); (127312, 127337);
    (127344, 127369) ].

Definition CASE_IGNORABLE : list (Z * Z) :=
  [
    (39, 39); (46, 46); (58, 58); (94, 94); (96, 96); (168, 168); (173, 173);
    (175, 175); (180, 180); (183, 184); (688, 879); (884, 885); (890, 890);
    (900, 901); (903, 903); (1155, 1161); (1369, 1369); (1375, 1375);
    (1425, 1469); (1471, 1471); (1473, 1474); (1476, 1477); (1479, 1479);
    (1524, 1524); (1536, 1541); (1552, 1562); (1564, 1564); (1600, 1600);
    (1611, 1631); (1648, 1648); (1750, 1757); (1759, 1768); (1770, 1773);
    (1807, 1807); (1809, 1809); (1840, 1866); (1958, 1968); (2027, 2037);
    (2042, 2042); (2045, 2045); (2070, 2093); (2137, 2139); (2184, 2184);
    (2192, 2193); (2200, 2207); (2249, 2306); (2362, 2362); (2364, 2364);
    (2369, 2376); (2381, 2381); (2385, 2391); (2402, 2403); (2417, 2417);
    (2433, 2433); (2492, 2492); (2497, 2500); (2509, 2509); (2530, 2531);
    (2558, 2558); (2561, 2562); (2620, 2620); (2625, 2626); (2631, 2632);
    (2635, 2637); (2641, 2641); (2672, 2673); (2677, 2677); (2689, 2690);
    (2748, 2748); (2753, 2757); (2759, 2760); (2765, 2765); (2786, 2787);
    (2810, 2815); (2817, 2817); (2876, 2876); (2879, 2879); (2881, 2884);
    (2893, 2893); (2901, 2902); (2914, 2915); (2946, 2946); (3008, 3008);
    (3021, 3021); (3072, 3072); (3076, 3076); (3132, 3132); (3134, 3136);
    (3142, 3144); (3146, 3149); (3157, 3158); (3170, 3171); (3201, 3201);
    (3260, 3260); (3263, 3263); (3270, 3270); (3276, 3277); (3298, 3299);
    (3328, 3329); (3387, 3388); (3393, 3396); (3405, 3405); (3426, 3427);
    (3457, 3457); (3530, 3530); (3538, 3540); (3542, 3542); (3633, 3633);
    (3636, 3642); (3654, 3662); (3761, 3761); (3764, 3772); (3782, 3782);
    (3784, 3789); (3864, 3865); (3893, 3893); (3895, 3895); (3897, 3897);
    (3953, 3966); (3968, 3972); (3974, 3975); (3981, 3991); (3993, 4028);
    (4038, 4038); (4141, 4144); (4146, 4151); (4153, 4154); (4157, 4158);
    (4184, 4185); (4190, 4192); (4209, 4212); (4226, 4226); (4229, 4230);
    (4237, 4237); (4253, 4253); (4348, 4348); (4957, 4959); (5906, 5908);
    (5938, 5939); (5970, 5971); (6002, 6003); (6068, 6069); (6071, 6077);
    (6086, 6086); (6089, 6099); (6103, 6103); (6109, 6109); (6155, 6159);
    (6211, 6211); (6277, 6278); (6313, 6313); (6432, 6434); (6439, 6440);
    (6450, 6450); (6457, 6459); (6679, 6680); (6683, 6683); (6742, 6742);
    (6744, 6750); (6752, 6752); (6754, 6754); (6757, 6764); (6771, 6780);
    (6783, 6783); (6823, 6823); (6832, 6862); (6912, 6915); (6964, 6964);
    (6966, 6970); (6972, 6972); (6978, 6978); (7019, 7027); (7040, 7041);
    (7074, 7077); (7080, 7081); (7083, 7085); (7142, 7142); (7144, 7145);
    (7149, 7149); (7151, 7153); (7212, 7219); (7222, 7223); (7288, 7293);
    (7376, 7378); (7380, 7392); (7394, 7400); (7405, 7405); (7412, 7412);
    (7416, 7417); (7468, 7530); (7544, 7544); (7579, 7679); (8125, 8125);
    (8127, 8129); (8141, 8143); (8157, 8159); (8173, 8175); (8189, 8190);
    (8203, 8207); (8216, 8217); (8228, 8228); (8231, 8231); (8234, 8238);
    (8288, 8292); (8294, 8303); (8305, 8305); (8319, 8319); (8336, 8348);
    (8400, 8432); (11388, 11389); (11503, 11505); (11631, 11631);
    (11647, 11647); (11744, 11775); (11823, 11823); (12293, 12293);
    (12330, 12333); (12337, 12341); (12347, 12347); (12441, 12446);
    (12540, 12542); (40981, 40981); (42232, 42237); (42508, 42508);
    (42607, 42610); (42612, 42621); (42623, 42623); (42652, 42655);
    (42736, 42737); (42752, 42785); (42864, 42864); (42888, 42890);
    (42994, 42996); (43000, 43001); (43010, 43010); (43014, 43014);
    (43019, 43019); (43045, 43046); (43052, 43052); (43204, 43205);
    (43232, 43249); (43263, 43263); (43302, 43309); (43335, 43345);
    (43392, 43394); (43443, 43443); (43446, 43449); (43452, 43453);
    (43471, 43471); (43493, 43494); (43561, 43566); (43569, 43570);
    (43573, 43574); (43587, 43587); (43596, 43596); (43632, 43632);
    (43644, 43644); (43696, 43696); (43698, 43700); (43703, 43704);
    (43710, 43711); (43713, 43713); (43741, 43741); (43756, 43757);
    (43763, 43764); (43766, 43766); (43867, 43871); (43881, 43883);
    (44005, 44005); (44008, 44008); (44013, 44013); (64286, 64286);
    (64434, 64450); (65024, 65039); (65043, 65043); (65056, 65071);
    (65106, 65106); (65109, 65109); (65279, 65279); (65287, 65287);
    (65294, 65294); (65306, 65306); (65342, 65342); (65344, 65344);
    (65392, 65392); (65438, 65439); (65507, 65507); (65529, 65531);
    (66045, 66045); (66272, 66272); (66422, 66426); (67456, 67461);
    (67463, 67504); (67506, 67514); (68097, 68099); (68101, 68102);
    (68108, 68111); (68152, 68154); (68159, 68159); (68325, 68326);
    (68900, 68903); (69291, 69292); (69446, 69456); (69506, 69509);
    (69633, 69633); (69688, 69702); (69744, 69744); (69747, 69748);
    (69759, 69761); (69811, 69814); (69817, 69818); (69821, 69821);
    (69826, 69826); (69837, 69837); (69888, 69890); (69927, 69931);
    (69933, 69940); (70003, 70003); (70016, 70017); (70070, 70078);
    (70089, 70092); (70095, 70095); (70191, 70193); (70196, 70196);
    (70198, 70199); (70206, 70206); (70367, 70367); (70371, 70378);
    (70400, 70401); (70459, 70460); (70464, 70464); (70502, 70508);
    (70512, 70516); (70712, 70719); (70722, 70724); (70726, 70726);
    (70750, 70750); (70835, 70840); (70842, 70842); (70847, 70848);
    (70850, 70851); (71090, 71093); (71100, 71101); (71103, 71104);
    (71132, 71133); (71219, 71226); (71229, 71229); (71231, 71232);
    (71339, 71339); (71341, 71341); (71344, 71349); (71351, 71351);
    (71453, 71455); (71458, 71461); (71463, 71467); (71727, 71735);
    (71737, 71738); (71995, 71996); (71998, 71998); (72003, 72003);
    (72148, 72151); (72154, 72155); (72160, 72160); (72193, 72202);
    (72243, 72248); (72251, 72254); (72263, 72263); (72273, 72278);
    (72281, 72283); (72330, 72342); (72344, 72345); (72752, 72758);
    (72760, 72765); (72767, 72767); (72850, 72871); (72874, 72880);
    (72882, 72883); (72885, 72886); (73009, 73014); (73018, 73018);
    (73020, 73021); (73023, 73029); (73031, 73031); (73104, 73105);
    (73109, 73109); (73111, 73111); (73459, 73460); (78896, 78904);
    (92912, 92916); (92976, 92982); (92992, 92995); (94031, 94031);
    (94095, 94111); (94176, 94177); (94179, 94180); (110576, 110579);
    (110581, 110587); (110589, 110590); (113821, 113822); (113824, 113827);
    (118528, 118573); (118576, 118598); (119143, 119145); (119155, 119170);
    (119173, 119179); (119210, 119213); (119362, 119364); (121344, 121398);
    (121403, 121452); (121461, 121461); (121476, 121476); (121499, 121503);
    (121505, 121519); (122880, 122886); (122888, 122904); (122907, 122913);
    (122915, 122916); (122918, 122922); (123184, 123197); (123566, 123566);
    (123628, 123631); (125136, 125142); (125252, 125259); (127995, 127999);
    (917505, 917505); (917536, 917631); (917760, 917999) ].

Definition SPACE : list (Z * Z) :=
  [
    (9, 13); (28, 32); (133, 133); (160, 160); (5760, 5760); (8192, 8202);
    (8232, 8233); (8239, 8239); (8287, 8287); (12288, 12288) ].

Definition in_run (n : Z) (r : Z * Z * Z * Z) : bool :=
  let '(first, last, step, _) := r in
  (first <=? n) && (n <=? last) && ((n - first) mod step =? 0).

Definition in_range (n : Z) (r : Z * Z) : bool :=
  (fst r <=? n) && (n <=? snd r).

(** The simple mapping of a table of runs. *)
Definition simple (runs : list (Z * Z * Z * Z)) (n : Z) : Z :=
  match find (in_run n) runs with
  | Some (_, _, _, delta) => n + delta
  | None => n
  end.

(** The full mapping: the code points that replace [n]. *)
Definition full (runs : list (Z * Z * Z * Z)) (special : list (Z * list Z))
    (n : Z) : list Z :=
  match find (fun p => fst p =? n) special with
  | Some (_, l) => l
  | None => [simple runs n]
  end.

Definition to_upper : Z -> list Z := full UPPER UPPER_FULL.
Definition to_lower : Z -> list Z := full LOWER LOWER_FULL.

Definition is_space (n : Z) : bool := existsb (in_range n) SPACE.
Definition is_cased (n : Z) : bool := existsb (in_range n) CASED.
Definition is_case_ignorable (n : Z) : bool := existsb (in_range n) CASE_IGNORABLE.

(** The capital sigma. *)
Definition SIGMA : Z := 931.

Fixpoint skip_ignorable (l : list Z) : list Z :=
  match l with
  | n :: rest => if is_case_ignorable n then skip_ignorable rest else l
  | [] => []
  end.

(** The lower case of a capital sigma, from the code points before it
    (nearest first) and after it: the final form when a cased character
    precedes it and none follows, case-ignorable characters being skipped
    on both sides. *)
Definition lower_sigma (before after : list Z) : Z :=
  let final_sigma :=
    match skip_ignorable before with
    | c :: _ =>
        is_cased c
        && match skip_ignorable after with
           | c' :: _ => negb (is_cased c')
           | [] => true
           end
    | [] => false
    end in
  if final_sigma then 962 else 963.

End Unicode.

(** ** Python built-ins used by the sources *)
Module Py.

(** *** Characters

    A [str] is held as the bytes of its UTF-8 encoding.  [chars] cuts it
    into its characters: a lead byte with the continuation bytes its
    width asks for; a byte that starts no well-formed sequence stands
    alone. *)

Definition byte (c : ascii) : Z := Z.of_nat (nat_of_ascii c).

Definition is_cont (c : ascii) : bool := (128 <=? byte c) && (byte c <? 192).

(** The length of the sequence a lead byte announces. *)
Definition width (c : ascii) : nat :=
  let n := byte c in
  if n <? 192 then 1
  else if n <? 224 then 2
  else if n <? 240 then 3
  else if n <? 248 then 4
  else 1.

Fixpoint chars (s : string) : list string :=
  match s with
  | EmptyString => []
  | String a r1 =>
      match width a, r1 with
      | 2%nat, String b r2 =>
          if is_cont b then String a (String b EmptyString) :: chars r2
          else String a EmptyString :: chars r1
      | 3%nat, String b (String c r3) =>
          if is_cont b && is_cont c
          then String a (String b (String c EmptyString)) :: chars r3
          else String a EmptyString :: chars r1
      | 4%nat, String b (String c (String d r4)) =>
          if is_cont b && is_cont c && is_cont d
          then String a (String b (String c (String d EmptyString))) :: chars r4
          else String a EmptyString :: chars r1
      | _, _ => String a EmptyString :: chars r1
      end
  end.

(** [ord(c)] for one character, [-1] for bytes that encode none. *)
Definition ord (c : string) : Z :=
  match c with
  | String a EmptyString => if byte a <? 128 then byte a else -1
  | String a (String b EmptyString) =>
      let n := (byte a - 192) * 64 + (byte b - 128) in
      if (192 <=? byte a) && (byte a <? 224) && is_cont b && (128 <=? n)
      then n else -1
  | String a (String b (String c EmptyString)) =>
      let n := (byte a - 224) * 4096 + (byte b - 128) * 64 + (byte c - 128) in
      if (224 <=? byte a) && (byte a <? 240) && is_cont b && is_cont c
         && (2048 <=? n)
      then n else -1
  | String a (String b (String c (String d EmptyString))) =>
      let n := (byte a - 240) * 262144 + (byte b - 128) * 4096
               + (byte c - 128) * 64 + (byte d - 128) in
      if (240 <=? byte a) && (byte a <? 248) && is_cont b && is_cont c
         && is_cont d && (65536 <=? n) && (n <=? 1114111)
      then n else -1
  | _ => -1
  end.

Definition of_byte (n : Z) : ascii := ascii_of_nat (Z.to_nat n).

(** [chr(n)], encoded. *)
Definition chr (n : Z) : string :=
  if n <? 128 then String (of_byte n) EmptyString
  else if n <? 2048 then
    String (of_byte (192 + n / 64)) (String (of_byte (128 + n mod 64)) EmptyString)
  else if n <? 65536 then
    String (of_byte (224 + n / 4096))
      (String (of_byte (128 + (n / 64) mod 64))
         (String (of_byte (128 + n mod 64)) EmptyString))
  else
    String (of_byte (240 + n / 262144))
      (String (of_byte (128 + (n / 4096) mod 64))
         (String (of_byte (128 + (n / 64) mod 64))
            (String (of_byte (128 + n mod 64)) EmptyString))).

(** [len(s)]: the number of characters. *)
Definition len (s : string) : Z := Z.of_nat (List.length (chars s)).

(** *** [strip] *)

(** [c.isspace()] *)
Definition is_space (c : string) : bool := Unicode.is_space (ord c).

Fixpoint drop_space (cs : list string) : list string :=
  match cs with
  | c :: rest => if is_space c then drop_space rest else cs
  | [] => []
  end.

(** [s.lstrip()], [s.rstrip()] and [s.strip()] *)
Definition lstrip (s : string) : string :=
  String.concat "" (drop_space (chars s)).

Definition rstrip (s : string) : string :=
  String.concat "" (rev (drop_space (rev (chars s)))).

Definition strip (s : string) : string :=
  String.concat "" (rev (drop_space (rev (drop_space (chars s))))).

(** *** [upper] and [lower] *)

Definition encode (l : list Z) : string := String.concat "" (map chr l).

Definition upper_char (c : string) : string :=
  if ord c <? 0 then c else encode (Unicode.to_upper (ord c)).

Definition lower_char (c : string) : string :=
  if ord c <? 0 then c else encode (Unicode.to_lower (ord c)).

(** [s.upper()] *)
Definition upper (s : string) : string :=
  String.concat "" (map upper_char (chars s)).

(** The loop of [s.lower()]: [before] holds the code points already
    read, nearest first. *)
Fixpoint lower_from (before : list Z) (cs : list string) : list string :=
  match cs with
  | [] => []
  | c :: rest =>
      (if ord c =? Unicode.SIGMA
       then chr (Unicode.lower_sigma before (map ord rest))
       else lower_char c)
      :: lower_from (ord c :: before) rest
  end.

(** [s.lower()] *)
Definition lower (s : string) : string :=
  String.concat "" (lower_from [] (chars s)).

(** Truth value of a string ([if s:]) and of an optional string, where
    [None] stands for Python's [None]. *)
Definition truthy (s : string) : bool := negb (s =? "")%string.

Definition truthy_opt (o : option string) : bool :=
  match o with Some s => truthy s | None => false end.

(** [x in xs] for a list of strings *)
Definition str_in (x : string) (xs : list string) : bool :=
  existsb (String.eqb x) xs.

(** [c in s] for a character *)
Fixpoint char_in (c : ascii) (s : string) : bool :=
  match s with
  | String d s' => Ascii.eqb c d || char_in c s'
  | EmptyString => false
  end.

(** [sep.join(xs)] *)
Fixpoint join (sep : string) (xs : list string) : string :=
  match xs with
  | [] => ""
  | [x] => x
  | x :: rest => x ++ sep ++ join sep rest
  end.

(** The double quote, as a one-character string. *)
Definition dquote : string := String (ascii_of_nat 34) EmptyString.

(** *** Decimal rendering of integers *)

Definition digit_char (d : Z) : ascii := ascii_of_nat (48 + Z.to_nat d).

Fixpoint digits_onto (fuel : nat) (n : Z) (acc : string) : string :=
  match fuel with
  | O => acc
  | S fuel' =>
      let acc' := String (digit_char (n mod 10)) acc in
      if n / 10 =? 0 then acc' else digits_onto fuel' (n / 10) acc'
  end.

(** Decimal digits of a natural number [0 <= n]; the fuel is the bit
    length, which bounds the number of decimal digits. *)
Definition str_nat (n : Z) : string :=
  digits_onto (S (Z.to_nat (Z.log2 n))) n EmptyString.

(** [str(n)] for an [int] *)
Definition str_int (n : Z) : string :=
  if n <? 0 then "-" ++ str_nat (- n) else str_nat n.

(** Zero padding to a width, as [%02d] and [%04d] do. *)
Definition zfill (width : nat) (s : string) : string :=
  string_of_list_ascii (repeat "0"%char (width - String.length s)) ++ s.

Definition pad2 (n : Z) : string := zfill 2 (str_int n).
Definition pad4 (n : Z) : string := zfill 4 (str_int n).
Definition pad6 (n : Z) : string := zfill 6 (str_int n).

Definition is_digit (c : ascii) : bool :=
  let n := nat_of_ascii c in ((48 <=? n) && (n <=? 57))%nat.

Definition digit_val (c : ascii) : Z := Z.of_nat (nat_of_ascii c) - 48.

End Py.

(** ** The [datetime] module: calendar dates and timestamps

    The proleptic Gregorian calendar of Python's [datetime.py]: a date is
    its three fields, its ordinal counts the days from 0001-01-01 (day 1),
    and date arithmetic goes through the ordinal. *)
Module date.

Record t := make { year : Z; month : Z; day : Z }.

Definition is_leap (y : Z) : bool :=
  (y mod 4 =? 0) && (negb (y mod 100 =? 0) || (y mod 400 =? 0)).

Definition days_before_year (y : Z) : Z :=
  let p := y - 1 in p * 365 + p / 4 - p / 100 + p / 400.

Definition DAYS_IN_MONTH : list Z := [31; 28; 31; 30; 31; 30; 31; 31; 30; 31; 30; 31].

Definition DAYS_BEFORE_MONTH : list Z :=
  [0; 31; 59; 90; 120; 151; 181; 212; 243; 273; 304; 334].

Definition days_in_month (y m : Z) : Z :=
  if (m =? 2) && is_leap y then 29
  else nth (Z.to_nat (m - 1)) DAYS_IN_MONTH 0.

Definition days_before_month (y m : Z) : Z :=
  nth (Z.to_nat (m - 1)) DAYS_BEFORE_MONTH 0
  + (if (2 <? m) && is_leap y then 1 else 0).

(** The fields denote a day of the calendar ([date(y, m, d)] does not
    raise). *)
Definition valid (d : t) : bool :=
  (1 <=? year d) && (year d <=? 9999) && (1 <=? month d) && (month d <=? 12)
  && (1 <=? day d) && (day d <=? days_in_month (year d) (month d)).

(** [d.toordinal()] *)
Definition toordinal (d : t) : Z :=
  days_before_year (year d) + days_before_month (year d) (month d) + day d.

(** [date.fromordinal(n)], the algorithm of [_ord2ymd]. *)
Definition fromordinal (n : Z) : t :=
  let n0 := n - 1 in
  let n400 := n0 / 146097 in
  let r400 := n0 mod 146097 in
  let n100 := r400 / 36524 in
  let r100 := r400 mod 36524 in
  let n4 := r100 / 1461 in
  let r4 := r100 mod 1461 in
  let n1 := r4 / 365 in
  let r := r4 mod 365 in
  let y := n400 * 400 + 1 + n100 * 100 + n4 * 4 + n1 in
  if (n1 =? 4) || (n100 =? 4) then make (y - 1) 12 31
  else
    let leapyear := (n1 =? 3) && (negb (n4 =? 24) || (n100 =? 3)) in
    let m := Z.shiftr (r + 50) 5 in
    let preceding :=
      nth (Z.to_nat (m - 1)) DAYS_BEFORE_MONTH 0
      + (if (2 <? m) && leapyear then 1 else 0) in
    if r <? preceding then
      let m' := m - 1 in
      let preceding' :=
        preceding
        - (nth (Z.to_nat (m' - 1)) DAYS_IN_MONTH 0
           + (if (m' =? 2) && leapyear then 1 else 0)) in
      make y m' (r - preceding' + 1)
    else make y m (r - preceding + 1).

(** The ordinal of [date.max], 9999-12-31. *)
Definition MAXORDINAL : Z := 3652059.

(** [d - timedelta(days=n)]; [None] is the [OverflowError] raised when
    the result is not a day of the years 1 .. 9999 (a number of days that
    [timedelta] itself refuses, beyond 999999999, is such a case). *)
Definition sub_days (d : t) (n : Z) : option t :=
  let o := toordinal d - n in
  if (1 <=? o) && (o <=? MAXORDINAL) then Some (fromordinal o) else None.

(** Python compares dates as the tuples (year, month, day). *)
Definition key (d : t) : list Z := [year d; month d; day d].

End date.

(** Lexicographic comparison of integer tuples, the order of Python's
    tuples of ints. *)
Fixpoint lex_compare (a b : list Z) : comparison :=
  match a, b with
  | [], [] => Eq
  | [], _ :: _ => Lt
  | _ :: _, [] => Gt
  | x :: a', y :: b' =>
      match x ?= y with
      | Eq => lex_compare a' b'
      | c => c
      end
  end.

Definition lex_leb (a b : list Z) : bool :=
  match lex_compare a b with Gt => false | _ => true end.

Definition lex_ltb (a b : list Z) : bool :=
  match lex_compare a b with Lt => true | _ => false end.

Definition date_leb (a b : date.t) : bool := lex_leb (date.key a) (date.key b).
Definition date_ltb (a b : date.t) : bool := lex_ltb (date.key a) (date.key b).

Module datetime.

Record t := make {
  year : Z; month : Z; day : Z;
  hour : Z; minute : Z; second : Z; microsecond : Z
}.

(** [dt.date()] *)
Definition date_of (x : t) : date.t := date.make (year x) (month x) (day x).

(** A date used where a timestamp is expected (a [date] bound to a
    [DateTime] column): midnight of that day. *)
Definition of_date (d : date.t) : t :=
  make (date.year d) (date.month d) (date.day d) 0 0 0 0.

Definition key (x : t) : list Z :=
  [year x; month x; day x; hour x; minute x; second x; microsecond x].

Definition leb (a b : t) : bool := lex_leb (key a) (key b).
Definition ltb (a b : t) : bool := lex_ltb (key a) (key b).

(** [(a - b)] as a [timedelta], in microseconds: the difference of the
    ordinals, of the seconds of the day and of the microseconds. *)
Definition sub_micros (a b : t) : Z :=
  let days := date.toordinal (date_of a) - date.toordinal (date_of b) in
  let secs := (second a + minute a * 60 + hour a * 3600)
              - (second b + minute b * 60 + hour b * 3600) in
  (days * 86400 + secs) * 1000000 + (microsecond a - microsecond b).

(** [x.strftime(fmt)] for the directives the sources use: [%d %m %Y %H %M
    %S]; any other character is copied.  The directives are those of the
    C library of a Linux host: two digits for [%d %m %H %M %S], and for
    [%Y] the year in decimal without padding (four digits from the year
    1000 on). *)
Fixpoint strftime (fmt : string) (x : t) : string :=
  match fmt with
  | String "%" (String c rest) =>
      (if Ascii.eqb c "d" then Py.pad2 (day x)
       else if Ascii.eqb c "m" then Py.pad2 (month x)
       else if Ascii.eqb c "Y" then Py.str_int (year x)
       else if Ascii.eqb c "H" then Py.pad2 (hour x)
       else if Ascii.eqb c "M" then Py.pad2 (minute x)
       else if Ascii.eqb c "S" then Py.pad2 (second x)
       else String "%" (String c EmptyString))
      ++ strftime rest x
  | String c rest => String c (strftime rest x)
  | EmptyString => EmptyString
  end.

(** [str(x)]: ISO format with a blank separator, microseconds when not 0. *)
Definition str (x : t) : string :=
  Py.pad4 (year x) ++ "-" ++ Py.pad2 (month x) ++ "-" ++ Py.pad2 (day x)
  ++ " " ++ Py.pad2 (hour x) ++ ":" ++ Py.pad2 (minute x) ++ ":"
  ++ Py.pad2 (second x)
  ++ (if microsecond x =? 0 then "" else "." ++ Py.pad6 (microsecond x)).

End datetime.

(** [d.strftime(fmt)] for a date: the time fields are zero. *)
Definition date_strftime (fmt : string) (d : date.t) : string :=
  datetime.strftime fmt (datetime.of_date d).

(** [datetime.strptime(s, '%Y-%m-%d').date()]: four digits, a month of one
    or two digits, a day of one or two digits, nothing after; [None] is
    [ValueError]. *)
Definition strptime_Y_m_d (s : string) : option date.t :=
  let digits2 (cs : list ascii) : option (Z * list ascii) :=
    match cs with
    | a :: b :: rest =>
        if Py.is_digit a && Py.is_digit b
        then Some (Py.digit_val a * 10 + Py.digit_val b, rest)
        else if Py.is_digit a then Some (Py.digit_val a, b :: rest)
        else None
    | [a] => if Py.is_digit a then Some (Py.digit_val a, []) else None
    | [] => None
    end in
  match list_ascii_of_string s with
  | y1 :: y2 :: y3 :: y4 :: dash :: rest =>
      if Py.is_digit y1 && Py.is_digit y2 && Py.is_digit y3 && Py.is_digit y4
         && Ascii.eqb dash "-"
      then
        let y := ((Py.digit_val y1 * 10 + Py.digit_val y2) * 10
                  + Py.digit_val y3) * 10 + Py.digit_val y4 in
        match digits2 rest with
        | Some (m, dash2 :: rest2) =>
            if Ascii.eqb dash2 "-" then
              match digits2 rest2 with
              | Some (d, []) =>
                  let r := date.make y m d in
                  if date.valid r then Some r else None
              | _ => None
              end
            else None
        | _ => None
        end
      else None
  | _ => None
  end.

(** ** Binary64 arithmetic of the interpreter

    [float_of_int] is the conversion of an [int] (round to nearest, ties
    to even); [format_1f] is [format(x, '.1f')] and [round1] is
    [round(x, 1)]: both round the exact binary value of [x] to one decimal,
    ties to even, as the correctly rounded conversions of CPython do. *)
Module PyFloat.

Definition float_of_int (z : Z) : float :=
  SF2Prim (binary_normalize prec emax z 0 false).

(** [num / den] rounded to the nearest integer, ties to even, for
    [0 <= num] and [0 < den]. *)
Definition div_half_even (num den : Z) : Z :=
  let q := num / den in
  let r := num mod den in
  if 2 * r <? den then q
  else if den <? 2 * r then q + 1
  else if Z.even q then q else q + 1.

(** For a finite [x], its sign and [|x|] in tenths, rounded half-even from
    the exact value [m * 2^e]. *)
Definition tenths (x : float) : option (bool * Z) :=
  match Prim2SF x with
  | S754_zero s => Some (s, 0)
  | S754_finite s m e =>
      Some (s, if 0 <=? e then Zpos m * 2 ^ e * 10
               else div_half_even (Zpos m * 10) (2 ^ (- e)))
  | S754_infinity _ | S754_nan => None
  end.

(** [f"{x:.1f}"] *)
Definition format_1f (x : float) : string :=
  match tenths x with
  | Some (s, n) =>
      (if s then "-" else "") ++ Py.str_nat (n / 10) ++ "." ++ Py.str_nat (n mod 10)
  | None =>
      match Prim2SF x with
      | S754_infinity true => "-inf"
      | S754_infinity false => "inf"
      | _ => "nan"
      end
  end.

(** [round(x, 1)].  From [2^49] on a binary64 number is a multiple of 1/8
    and is its own nearest neighbour of its decimal rounding; below, the
    tenths fit in 53 bits, so one correctly rounded division by ten gives
    the float nearest to the decimal. *)
Definition round1 (x : float) : float :=
  match tenths x with
  | Some (s, n) =>
      if PrimFloat.leb 562949953421312%float (PrimFloat.abs x) then x
      else
        let r := PrimFloat.div (float_of_int n) 10%float in
        if s then PrimFloat.opp r else r
  | None => x
  end.

(** [td.total_seconds()] of a [timedelta] given in microseconds: the true
    division of two ints. *)
Definition total_seconds (micros : Z) : float :=
  PrimFloat.div (float_of_int micros) 1000000%float.

End PyFloat.

(** ** [models.py]: the tables *)

Module User.
Record t := make {
  id : Z;
  username : string;
  email : string;
  password_hash : string;
  role : string;
  created_at : datetime.t;
  is_active : bool
}.

(** [User.is_admin] *)
Definition is_admin (u : t) : bool := (role u =? "admin")%string.
End User.

Module File.
Record t := make {
  id : Z;
  file_number : string;
  receipt_date : date.t;
  importer : string;
  exporter : string;
  country : string;
  route : string;
  sor_number : option string;
  sol_number : option string;
  status : string;
  montant_facture : option float;
  evaluation_reason : option string;
  completion_description : option string;
  completion_date : option datetime.t;
  recall_date : option date.t;
  mar_number : option string;
  proforma_number : option string;
  payment_justification_path : option string;
  invoiced_at : option datetime.t;
  invoiced_by : option Z;
  created_at : datetime.t;
  updated_at : datetime.t;
  user_id : option Z
}.

(** [File.can_add_coc] *)
Definition can_add_coc (f : t) : bool := (status f =? "Finalized")%string.

(** [File.can_be_invoiced] *)
Definition can_be_invoiced (f : t) : bool := (status f =? "ready to invoice")%string.

(** [File.is_invoiced], as a truth value *)
Definition is_invoiced (f : t) : bool :=
  (status f =? "payed")%string
  && Py.truthy_opt (mar_number f) && Py.truthy_opt (proforma_number f).

(** [File.is_overdue], given [datetime.utcnow().date()] *)
Definition is_overdue (utc_today : date.t) (f : t) : bool :=
  match recall_date f with
  | Some d => date_leb d utc_today
  | None => false
  end.
End File.

Module CoCDetails.
Record t := make {
  id : Z;
  coc_date : date.t;
  coc_number : string;
  invoice_number : string;
  created_at : datetime.t;
  file_id : Z
}.
End CoCDetails.

Module Notification.
Record t := make {
  id : Z;
  message : string;
  read_status : bool;
  notification_type : string;
  created_at : datetime.t;
  user_id : Z;
  file_id : option Z
}.
End Notification.

Module StatusHistory.
Record t := make {
  id : Z;
  file_id : Z;
  old_status : option string;
  new_status : string;
  changed_at : datetime.t;
  changed_by : option Z
}.
End StatusHistory.

(** The database: every table in insertion order. *)
Module DB.
Record t := make {
  users : list User.t;
  files : list File.t;
  coc_details : list CoCDetails.t;
  notifications : list Notification.t;
  status_history : list StatusHistory.t
}.

Definition with_files (fs : list File.t) (d : t) : t :=
  make (users d) fs (coc_details d) (notifications d) (status_history d).

Definition with_notifications (ns : list Notification.t) (d : t) : t :=
  make (users d) (files d) (coc_details d) ns (status_history d).

Definition with_status_history (hs : list StatusHistory.t) (d : t) : t :=
  make (users d) (files d) (coc_details d) (notifications d) hs.

(** [File.query.get(file_id)] *)
Definition get_file (file_id : Z) (d : t) : option File.t :=
  find (fun f => File.id f =? file_id) (files d).

(** [User.query.get(user_id)]; [file.owner] is this row for the file's
    [user_id]. *)
Definition get_user (user_id : Z) (d : t) : option User.t :=
  find (fun u => User.id u =? user_id) (users d).

Definition owner (f : File.t) (d : t) : option User.t :=
  match File.user_id f with
  | Some uid => get_user uid d
  | None => None
  end.

(** [file.coc_details]: the one-to-one row of the file, if any. *)
Definition coc_of (f : File.t) (d : t) : option CoCDetails.t :=
  find (fun c => CoCDetails.file_id c =? File.id f) (coc_details d).

(** [User.query.filter_by(role=r).all()] *)
Definition users_with_role (r : string) (d : t) : list User.t :=
  filter (fun u => (User.role u =? r)%string) (users d).

(** Writing back a modified row of [files] (the UPDATE of a commit). *)
Definition update_file (f : File.t) (d : t) : t :=
  with_files
    (map (fun g => if File.id g =? File.id f then f else g) (files d)) d.

(** The next primary key of a table: one more than the largest in use. *)
Definition next_id (ids : list Z) : Z := 1 + fold_right Z.max 0 ids.

(** [db.session.add(Notification(...))] followed by a commit: the row gets
    its key and the default [created_at = datetime.utcnow()]. *)
Definition add_notification (utcnow : datetime.t) (message : string)
    (user_id : Z) (file_id : option Z) (notification_type : string) (d : t) : t :=
  with_notifications
    (notifications d ++
     [Notification.make (next_id (map Notification.id (notifications d)))
        message false notification_type utcnow user_id file_id]) d.

(** [db.session.add(StatusHistory(...))] followed by a commit. *)
Definition add_status_history (file_id : Z) (old_status : option string)
    (new_status : string) (changed_at : datetime.t) (changed_by : option Z)
    (d : t) : t :=
  with_status_history
    (status_history d ++
     [StatusHistory.make (next_id (map StatusHistory.id (status_history d)))
        file_id old_status new_status changed_at changed_by]) d.

End DB.

(** ** Flask: what a view function returns, and the flashed messages *)
Inductive response :=
  | Redirect (endpoint : string)
  | Render (template : string)
  | Abort (code : Z).

(** A flashed message: text and category. *)
Definition flash := (string * string)%type.

(** The outcome of a request: response, flashes in order, database. *)
Record outcome := mkOutcome {
  resp : response;
  flashes : list flash;
  db : DB.t
}.

(** The acting user of a request ([current_user]). *)
Definition current_user := User.t.

(** Setters for the columns of [files] that the handlers assign. *)
Module FileSet.
Import File.

Definition evaluation (reason : option string) (montant : option float)
    (new_status : string) (utcnow : datetime.t) (f : t) : t :=
  make (id f) (file_number f) (receipt_date f) (importer f) (exporter f)
    (country f) (route f) (sor_number f) (sol_number f) new_status montant
    reason (completion_description f) (completion_date f) (recall_date f)
    (mar_number f) (proforma_number f) (payment_justification_path f)
    (invoiced_at f) (invoiced_by f) (created_at f) utcnow (user_id f).

Definition assignment (owner : option Z) (new_status : string)
    (utcnow : datetime.t) (f : t) : t :=
  make (id f) (file_number f) (receipt_date f) (importer f) (exporter f)
    (country f) (route f) (sor_number f) (sol_number f) new_status
    (montant_facture f) (evaluation_reason f) (completion_description f)
    (completion_date f) (recall_date f) (mar_number f) (proforma_number f)
    (payment_justification_path f) (invoiced_at f) (invoiced_by f)
    (created_at f) utcnow owner.

Definition invoicing (mar proforma path : string) (at_ : datetime.t) (by_ : Z)
    (utcnow : datetime.t) (f : t) : t :=
  make (id f) (file_number f) (receipt_date f) (importer f) (exporter f)
    (country f) (route f) (sor_number f) (sol_number f) "payed"
    (montant_facture f) (evaluation_reason f) (completion_description f)
    (completion_date f) (recall_date f) (Some mar) (Some proforma) (Some path)
    (Some at_) (Some by_) (created_at f) utcnow (user_id f).

End FileSet.

(** ** [utils/validation.py] *)
Module Validator.

(** A validator returns its value or raises [ValidationError(message)]. *)
Inductive result (A : Type) :=
  | Ok (value : A)
  | ValidationError (message : string).
Arguments Ok {A} value.
Arguments ValidationError {A} message.

Definition validate_non_empty (value field_name : string) : result string :=
  if negb (Py.truthy value) || negb (Py.truthy (Py.strip value))
  then ValidationError (field_name ++ " est requis.")
  else Ok (Py.strip value).

Definition validate_route (route sor_number sol_number : string) : result string :=
  if negb (Py.str_in route ["A"; "B"; "C"])
  then ValidationError "Route invalide. Choisissez A, B ou C."
  else if (route =? "B")%string
          && (negb (Py.truthy sor_number) || negb (Py.truthy (Py.strip sor_number)))
  then ValidationError "Numéro SOR requis pour Route B."
  else if (route =? "C")%string
          && (negb (Py.truthy sol_number) || negb (Py.truthy (Py.strip sol_number)))
  then ValidationError "Numéro SOL requis pour Route C."
  else Ok route.

Definition valid_statuses : list string :=
  [ "en attente d'évaluation"; "en cours d'évaluation"; "ready to invoice";
    "payed"; "en cours de traitement"; "à compléter";
    "transfert à l'inspection"; "Finalized" ].

Definition validate_status (status : string) : result string :=
  if negb (Py.str_in status valid_statuses)
  then ValidationError "Statut invalide."
  else Ok status.

Definition valid_roles : list string := ["user"; "admin"; "invoicing"; "affecteur"].

Definition validate_role (role : string) : result string :=
  if negb (Py.str_in role valid_roles)
  then ValidationError "Rôle invalide."
  else Ok role.

End Validator.

(** ** Flask requests *)
Module Request.

(** An uploaded file ([werkzeug.FileStorage]): only its name is read. *)
Record upload := mkUpload { filename : string }.

Record t := make {
  method : string;
  form : list (string * string);
  files : list (string * upload)
}.

(** [request.form.get(key, '')] *)
Definition form_get (key : string) (r : t) : string :=
  match find (fun kv => (fst kv =? key)%string) (form r) with
  | Some kv => snd kv
  | None => ""
  end.

(** [request.files.get(key)] *)
Definition files_get (key : string) (r : t) : option upload :=
  match find (fun kv => (fst kv =? key)%string) (files r) with
  | Some kv => Some (snd kv)
  | None => None
  end.

End Request.

(** [a == b] between an optional and a plain integer key. *)
Definition opt_id_eqb (a : option Z) (b : Z) : bool :=
  match a with Some x => x =? b | None => false end.

Definition PENDING : string := "en attente d'évaluation".

(** ** [routes/evaluator.py] *)
Module Evaluator.

(** [evaluator_required]: the role guard of every route of the blueprint
    (for an authenticated user). *)
Definition evaluator_required (cu : current_user) (d : DB.t) (k : outcome) : outcome :=
  if negb (Py.str_in (User.role cu) ["évaluateur"; "admin"])
  then mkOutcome (Abort 403) [("Accès réservé aux évaluateurs.", "danger")] d
  else k.

Section Handlers.

(** The built-ins [float(s)] ([None] is [ValueError]) and [str(x)] of a
    float. *)
Variable py_float : string -> option float.
Variable str_float : float -> string.

Definition form_page : response := Render "evaluator/evaluate_form.html".
Definition dashboard_page : response := Redirect "evaluator.dashboard".

(** The amount of a decision: [None] when the conversion or the sign test
    raises [ValueError], otherwise the value to store. *)
Definition parse_montant (decision montant_facture_str : string)
  : option (option float) :=
  if (decision =? "soumis")%string then
    match py_float montant_facture_str with
    | Some m => if PrimFloat.ltb m 0%float then None else Some (Some m)
    | None => None
    end
  else Some None.

Definition decision_text (decision : string) : string :=
  if (decision =? "soumis")%string then "Soumis"
  else if (decision =? "non_soumis")%string then "Non soumis"
  else "Dispensé".

(** The loop over the invoicing team. *)
Definition notify_invoicing (utcnow : datetime.t) (file : File.t)
    (montant_facture : option float) (d : DB.t) : DB.t :=
  fold_left
    (fun acc inv_user =>
       DB.add_notification utcnow
         ("💰 Nouveau dossier prêt à facturer: " ++ File.file_number file
          ++ " (Montant: "
          ++ match montant_facture with Some m => str_float m | None => "None" end
          ++ ")")
         (User.id inv_user) (Some (File.id file)) "info" acc)
    (DB.users_with_role "invoicing" d) d.

(** [evaluate_file(file_id)] *)
Definition evaluate_file (cu : current_user) (utcnow : datetime.t)
    (req : Request.t) (file_id : Z) (d : DB.t) : outcome :=
  match DB.get_file file_id d with
  | None => mkOutcome (Abort 404) [] d
  | Some file =>
    if negb (File.status file =? PENDING)%string then
      mkOutcome dashboard_page
        [("Ce dossier n'est pas en attente d'évaluation.", "danger")] d
    else if negb (opt_id_eqb (File.user_id file) (User.id cu)) then
      mkOutcome dashboard_page
        [("Ce dossier n'est pas assigné à vous.", "danger")] d
    else if (Request.method req =? "POST")%string then
      let montant_facture_str := Py.strip (Request.form_get "montant_facture" req) in
      let decision := Py.strip (Request.form_get "decision" req) in
      if negb (Py.truthy decision)
         || negb (Py.str_in decision ["soumis"; "non_soumis"; "dispense"]) then
        mkOutcome form_page [("Vous devez choisir une décision.", "danger")] d
      else if (decision =? "soumis")%string && negb (Py.truthy montant_facture_str) then
        mkOutcome form_page
          [("Le montant de facture est obligatoire pour la décision "
            ++ Py.dquote ++ "Soumis" ++ Py.dquote ++ ".", "danger")] d
      else
        match parse_montant decision montant_facture_str with
        | None =>
            mkOutcome form_page
              [("Le montant doit être un nombre valide.", "danger")] d
        | Some montant_facture =>
            let new_status :=
              if (decision =? "soumis")%string then "ready to invoice"
              else "Finalized" in
            let old_status := File.status file in
            let file' :=
              FileSet.evaluation (Some decision) montant_facture new_status
                utcnow file in
            let d1 := DB.update_file file' d in
            let d2 :=
              DB.add_status_history (File.id file) (Some old_status) new_status
                utcnow (Some (User.id cu)) d1 in
            let d3 :=
              if (new_status =? "ready to invoice")%string
              then notify_invoicing utcnow file' montant_facture d2
              else d2 in
            mkOutcome dashboard_page
              [("✅ Dossier évalué comme " ++ Py.dquote ++ decision_text decision
                ++ Py.dquote, "success")] d3
        end
    else mkOutcome form_page [] d
  end.

End Handlers.

(** A decimal reading of [float(s)], used to run the handlers on concrete
    forms: an optional sign, digits, and an optional fraction of at most
    22 digits.  On these inputs one correctly rounded division gives the
    value Python reads. *)
Definition decimal_float (s : string) : option float :=
  let fix digits (cs : list ascii) (acc : Z) (n : Z) : Z * Z * list ascii :=
    match cs with
    | c :: rest =>
        if Py.is_digit c then digits rest (acc * 10 + Py.digit_val c) (n + 1)
        else (acc, n, cs)
    | [] => (acc, n, [])
    end in
  let cs := list_ascii_of_string (Py.strip s) in
  let '(neg, cs1) :=
    match cs with
    | c :: rest =>
        if Ascii.eqb c "-" then (true, rest)
        else if Ascii.eqb c "+" then (false, rest) else (false, cs)
    | [] => (false, [])
    end in
  let '(ip, ni, cs2) := digits cs1 0 0 in
  let finish (num : Z) (scale : Z) : option float :=
    let x := PrimFloat.div (PyFloat.float_of_int num)
               (PyFloat.float_of_int (10 ^ scale)) in
    Some (if neg then PrimFloat.opp x else x) in
  match cs2 with
  | [] => if 0 <? ni then finish ip 0 else None
  | c :: cs3 =>
      if Ascii.eqb c "." then
        let '(fp, nf, cs4) := digits cs3 ip 0 in
        match cs4 with
        | [] => if (0 <? ni + nf) && (nf <=? 22) && (fp <? 2 ^ 53)
                then finish fp nf else None
        | _ => None
        end
      else None
  end.

End Evaluator.

(** ** [routes/user.py] *)
Module UserRoutes.

(** [user_required]: the guard of the blueprint sends the invoicing team
    to its own dashboard. *)
Definition user_required (cu : current_user) (d : DB.t) (k : outcome) : outcome :=
  if (User.role cu =? "invoicing")%string
  then mkOutcome (Redirect "invoice.dashboard")
         [("⛔ Accès non autorisé. Vous êtes dans l'équipe de facturation.",
           "danger")] d
  else k.

Definition dashboard_page : response := Redirect "user.dashboard".

(** [self_assign_file(file_id)] *)
Definition self_assign_file (cu : current_user) (utcnow : datetime.t)
    (file_id : Z) (d : DB.t) : outcome :=
  match DB.get_file file_id d with
  | None => mkOutcome (Abort 404) [] d
  | Some file =>
    if negb (File.status file =? "payed")%string then
      mkOutcome dashboard_page
        [("Ce dossier n'est pas dans le statut " ++ Py.dquote ++ "Payed"
          ++ Py.dquote ++ ".", "danger")] d
    else
      match File.user_id file with
      | Some _ =>
          mkOutcome dashboard_page
            [("Ce dossier est déjà affecté à quelqu'un.", "danger")] d
      | None =>
          let old_status := File.status file in
          let file' :=
            FileSet.assignment (Some (User.id cu)) "en cours de traitement"
              utcnow file in
          let d1 := DB.update_file file' d in
          let d2 :=
            DB.add_status_history (File.id file) (Some old_status)
              "en cours de traitement" utcnow (Some (User.id cu)) d1 in
          mkOutcome dashboard_page
            [("✅ Dossier " ++ File.file_number file
              ++ " affecté à vous avec succès! Status: En cours de traitement",
              "success")] d2
      end
  end.

End UserRoutes.

(** ** [os.path] on POSIX names *)
Module OsPath.

(** [s.rsplit('.', 1)]: the parts before and after the last dot, if any. *)
Fixpoint rsplit_dot (s : string) : option (string * string) :=
  match s with
  | EmptyString => None
  | String c rest =>
      match rsplit_dot rest with
      | Some (a, b) => Some (String c a, b)
      | None => if Ascii.eqb c "." then Some (EmptyString, rest) else None
      end
  end.

Fixpoint all_dots (s : string) : bool :=
  match s with
  | EmptyString => true
  | String c rest => Ascii.eqb c "." && all_dots rest
  end.

(** [os.path.splitext(p)] for a name without separators: the extension
    starts at the last dot, unless only dots precede it. *)
Definition splitext (p : string) : string * string :=
  match rsplit_dot p with
  | Some (a, b) => if all_dots a then (p, "") else (a, "." ++ b)
  | None => (p, "")
  end.

(** [os.path.join(a, b)] for a non-empty [a] without trailing slash. *)
Definition join (a b : string) : string :=
  match b with
  | String c _ => if Ascii.eqb c "/" then b else a ++ "/" ++ b
  | EmptyString => a ++ "/"
  end.

End OsPath.

(** ** [routes/invoice.py] *)
Module Invoice.

(** [invoicing_required] *)
Definition invoicing_required (cu : current_user) (d : DB.t) (k : outcome) : outcome :=
  if negb (Py.str_in (User.role cu) ["invoicing"; "admin"])
  then mkOutcome (Abort 403)
         [("Accès réservé à l'équipe de facturation.", "danger")] d
  else k.

Definition allowed_extensions : list string :=
  ["pdf"; "doc"; "docx"; "jpg"; "jpeg"; "png"].

Definition form_page : response := Render "invoice/process_form.html".

(** The error message of a reference number, if any. *)
Definition number_errors (value required invalid : string) : list string :=
  if negb (Py.truthy value) then [required]
  else if (Py.len value <? 3) || (100 <? Py.len value) then [invalid]
  else [].

Definition payment_file_errors (payment_file : option Request.upload) : list string :=
  match payment_file with
  | None => ["Justificatif de paiement requis."]
  | Some pf =>
      if (Request.filename pf =? "")%string then ["Justificatif de paiement requis."]
      else
        let filename := Py.lower (Request.filename pf) in
        match OsPath.rsplit_dot filename with
        | Some (_, ext) =>
            if Py.str_in ext allowed_extensions then []
            else ["Format de fichier non autorisé (PDF, DOC, DOCX, JPG, PNG uniquement)."]
        | None =>
            ["Format de fichier non autorisé (PDF, DOC, DOCX, JPG, PNG uniquement)."]
        end
  end.

(** The validation of the POST: the list [errors]. *)
Definition validate (mar_number proforma_number : string)
    (payment_file : option Request.upload) : list string :=
  (number_errors mar_number "Numéro MAR requis."
     "Numéro MAR invalide (3-100 caractères)."
   ++ number_errors proforma_number "Numéro ProForma requis."
        "Numéro ProForma invalide (3-100 caractères)."
   ++ payment_file_errors payment_file)%list.

Section Handlers.

(** [werkzeug.utils.secure_filename] *)
Variable secure_filename : string -> string.

(** Where the payment proof is stored. *)
Definition payment_path (now : datetime.t) (file : File.t)
    (pf : Request.upload) : string :=
  let upload_folder := OsPath.join "uploads" "payments" in
  let timestamp := datetime.strftime "%Y%m%d_%H%M%S" now in
  let original_filename := secure_filename (Request.filename pf) in
  let ext := snd (OsPath.splitext original_filename) in
  OsPath.join upload_folder (File.file_number file ++ "_" ++ timestamp ++ ext).

(** The notifications of a processed invoice: one for the owner, one for
    every admin. *)
Definition notify_done (cu : current_user) (utcnow : datetime.t)
    (file : File.t) (owner_id : Z) (d : DB.t) : DB.t :=
  let mar := match File.mar_number file with Some s => s | None => "None" end in
  let pro := match File.proforma_number file with Some s => s | None => "None" end in
  let d1 :=
    DB.add_notification utcnow
      ("✅ Facturation terminée pour le dossier " ++ File.file_number file
       ++ ". Numéro MAR: " ++ mar ++ ", ProForma: " ++ pro)
      owner_id (Some (File.id file)) "info" d in
  fold_left
    (fun acc admin =>
       DB.add_notification utcnow
         ("📋 Dossier " ++ File.file_number file ++ " facturé par "
          ++ User.username cu)
         (User.id admin) (Some (File.id file)) "info" acc)
    (DB.users_with_role "admin" d1) d1.

(** [process_invoice(file_id)].  [save_ok] tells whether creating the
    upload folder and saving the proof succeeded; when it did not, the
    handler rolls back.  A case without owner fails at the second commit
    ([notifications.user_id] is not nullable), after the first commit has
    stored the invoice. *)
Definition process_invoice (cu : current_user) (now utcnow : datetime.t)
    (save_ok : bool) (req : Request.t) (file_id : Z) (d : DB.t) : outcome :=
  match DB.get_file file_id d with
  | None => mkOutcome (Abort 404) [] d
  | Some file =>
    if negb (File.can_be_invoiced file) then
      mkOutcome (Redirect "invoice.dashboard")
        [("Ce dossier ne peut pas être facturé actuellement.", "danger")] d
    else if File.is_invoiced file then
      mkOutcome (Redirect "invoice.view_file")
        [("Ce dossier a déjà été facturé.", "info")] d
    else if (Request.method req =? "POST")%string then
      let mar_number := Py.strip (Request.form_get "mar_number" req) in
      let proforma_number := Py.strip (Request.form_get "proforma_number" req) in
      let payment_file := Request.files_get "payment_justification" req in
      match validate mar_number proforma_number payment_file, payment_file with
      | [], Some pf =>
          if negb save_ok then
            mkOutcome form_page
              [("❌ Erreur lors du traitement: échec de l'enregistrement", "danger")] d
          else
            let file' :=
              FileSet.invoicing (Py.upper mar_number) (Py.upper proforma_number)
                (payment_path now file pf) utcnow (User.id cu) utcnow file in
            let d1 := DB.update_file file' d in
            match File.user_id file' with
            | Some owner_id =>
                mkOutcome (Redirect "invoice.dashboard")
                  [("✅ Dossier " ++ File.file_number file
                    ++ " facturé avec succès!", "success")]
                  (notify_done cu utcnow file' owner_id d1)
            | None =>
                mkOutcome form_page
                  [("❌ Erreur lors du traitement: NOT NULL constraint failed: notifications.user_id",
                    "danger")] d1
            end
      | errors, _ => mkOutcome form_page (map (fun e => (e, "danger")) errors) d
      end
    else mkOutcome form_page [] d
  end.

End Handlers.

End Invoice.

(** ** [utils/scheduler.py] *)
Module Scheduler.

(** A recall email handed to the mail client: recipient and CC list. *)
Record mail := mkMail { recipient : string; cc : list string }.

(** The state threaded through the scan: database and outbox. *)
Definition state := (DB.t * list mail)%type.

(** [File.recall_date <= today] and [File.status != 'Finalized'] *)
Definition to_recall (today : date.t) (f : File.t) : bool :=
  match File.recall_date f with
  | Some r => date_leb r today
  | None => false
  end
  && negb (File.status f =? "Finalized")%string.

(** The filter of [existing_notif]: a recall notification of the file
    whose [created_at] is not before [today], a date compared with a
    timestamp column (midnight of that day). *)
Definition sent_today (today : date.t) (file : File.t) (n : Notification.t) : bool :=
  opt_id_eqb (Notification.file_id n) (File.id file)
  && (Notification.notification_type n =? "recall")%string
  && datetime.leb (datetime.of_date today) (Notification.created_at n).

Definition owner_message (file : File.t) : string :=
  "Rappel: Le dossier " ++ File.file_number file
  ++ " nécessite votre attention (Date de rappel: "
  ++ match File.recall_date file with
     | Some r => date_strftime "%d/%m/%Y" r
     | None => ""
     end
  ++ ")".

Definition admin_message (user : User.t) (file : File.t) : string :=
  "Rappel pour " ++ User.username user ++ ": Dossier " ++ File.file_number file
  ++ " (Date: "
  ++ match File.recall_date file with
     | Some r => date_strftime "%d/%m/%Y" r
     | None => ""
     end
  ++ ")".

(** One turn of the loop over [files_to_recall].  A file without owner
    makes [send_recall_notification] raise on [user.username]; the handler
    of the loop rolls back and goes on. *)
Definition recall_one (today : date.t) (utcnow : datetime.t)
    (admin_users : list User.t) (st : state) (file : File.t) : state :=
  let '(d, outbox) := st in
  let user := DB.owner file d in
  match find (sent_today today file) (DB.notifications d) with
  | Some _ => st
  | None =>
      match user with
      | None => st
      | Some user =>
          let outbox' :=
            (outbox ++ [mkMail (User.email user) (map User.email admin_users)])%list in
          let d1 :=
            DB.add_notification utcnow (owner_message file) (User.id user)
              (Some (File.id file)) "recall" d in
          let d2 :=
            fold_left
              (fun acc admin =>
                 DB.add_notification utcnow (admin_message user file)
                   (User.id admin) (Some (File.id file)) "recall" acc)
              admin_users d1 in
          (d2, outbox')
      end
  end.

(** [check_and_send_recalls(app)], given [date.today()] and the value of
    [datetime.utcnow()] that stamps the notifications of the run. *)
Definition check_and_send_recalls (today : date.t) (utcnow : datetime.t)
    (d : DB.t) : state :=
  let files_to_recall := filter (to_recall today) (DB.files d) in
  match files_to_recall with
  | [] => (d, [])
  | _ =>
      let admin_users := DB.users_with_role "admin" d in
      fold_left (recall_one today utcnow admin_users) files_to_recall (d, [])
  end.

End Scheduler.

(** ** [utils/kpi.py] *)
Module TemporalKPI.

Definition stages : list string :=
  [ "en attente d'évaluation"; "en cours d'évaluation"; "ready to invoice";
    "payed"; "en cours de traitement"; "transfert à l'inspection"; "Finalized" ].

Definition opt_str_eqb (a : option string) (b : string) : bool :=
  match a with Some x => (x =? b)%string | None => false end.

(** [StatusHistory.query.filter_by(old_status=stage).all()] *)
Definition transitions_from (stage : string) (hist : list StatusHistory.t)
  : list StatusHistory.t :=
  filter (fun h => opt_str_eqb (StatusHistory.old_status h) stage) hist.

(** The first row in descending order of [changed_at]: a later row of the
    table replaces the best so far only when it is strictly more recent. *)
Definition most_recent (rows : list StatusHistory.t) : option StatusHistory.t :=
  fold_left
    (fun best e =>
       match best with
       | None => Some e
       | Some b =>
           if datetime.ltb (StatusHistory.changed_at b) (StatusHistory.changed_at e)
           then Some e else Some b
       end)
    rows None.

(** [StatusHistory.query.filter_by(file_id=.., new_status=stage)
      .order_by(StatusHistory.changed_at.desc()).first()] *)
Definition entry_into (stage : string) (file_id : Z) (hist : list StatusHistory.t)
  : option StatusHistory.t :=
  most_recent
    (filter (fun h => (StatusHistory.file_id h =? file_id)
                      && (StatusHistory.new_status h =? stage)%string) hist).

(** [(a - b).total_seconds() / 86400] *)
Definition days_between (a b : datetime.t) : float :=
  PrimFloat.div (PyFloat.total_seconds (datetime.sub_micros a b)) 86400%float.

(** The body of the loop over [transitions]: the pair (total_time, count). *)
Definition accumulate (stage : string) (hist : list StatusHistory.t)
    (acc : float * Z) (transition : StatusHistory.t) : float * Z :=
  let '(total_time, count) := acc in
  match entry_into stage (StatusHistory.file_id transition) hist with
  | Some entry =>
      let delta :=
        days_between (StatusHistory.changed_at transition)
          (StatusHistory.changed_at entry) in
      if PrimFloat.leb 0%float delta
      then (PrimFloat.add total_time delta, count + 1)
      else acc
  | None => acc
  end.

(** The value stored for one stage. *)
Definition stage_time (stage : string) (hist : list StatusHistory.t) : option float :=
  match transitions_from stage hist with
  | [] => None
  | transitions =>
      let '(total_time, count) :=
        fold_left (accumulate stage hist) transitions (0%float, 0) in
      if 0 <? count
      then Some (PyFloat.round1
                   (PrimFloat.div total_time (PyFloat.float_of_int count)))
      else None
  end.

(** [get_average_time_by_stage()]: the dictionary [stage_times], as its
    items in insertion order. *)
Definition get_average_time_by_stage (hist : list StatusHistory.t)
  : list (string * option float) :=
  map (fun stage => (stage, stage_time stage hist)) stages.

(** [range(n)] *)
Definition range (n : Z) : list Z := map Z.of_nat (seq 0 (Z.to_nat n)).

(** One element of the weekly trend. *)
Record week_trend := mkWeek { week : string; created : Z; finalized : Z }.

Definition in_window (lo hi : date.t) (x : datetime.t) : bool :=
  datetime.leb (datetime.of_date lo) x && datetime.ltb x (datetime.of_date hi).

(** The dictionary appended for the index [i] of the loop; [None] when
    one of the two subtractions raises [OverflowError]. *)
Definition week_bucket (today : date.t) (d : DB.t) (i : Z) : option week_trend :=
  match date.sub_days today (7 * (i + 1)) with
  | None => None
  | Some week_start =>
      match date.sub_days today (7 * i) with
      | None => None
      | Some week_end =>
          let created :=
            Z.of_nat (List.length
              (filter (fun f => in_window week_start week_end (File.created_at f))
                 (DB.files d))) in
          let finalized :=
            Z.of_nat (List.length
              (filter
                 (fun h => (StatusHistory.new_status h =? "Finalized")%string
                           && in_window week_start week_end
                                (StatusHistory.changed_at h))
                 (DB.status_history d))) in
          Some (mkWeek (date_strftime "%d/%m" week_start ++ " - "
                        ++ date_strftime "%d/%m" week_end)
                  created finalized)
      end
  end.

(** The loop [for i in range(weeks)], appending to [trends]; an exception
    of the body ends it. *)
Fixpoint trend_loop (today : date.t) (d : DB.t) (indices : list Z)
    (trends : list week_trend) : option (list week_trend) :=
  match indices with
  | [] => Some trends
  | i :: rest =>
      match week_bucket today d i with
      | Some b => trend_loop today d rest (trends ++ [b])%list
      | None => None
      end
  end.

(** [get_weekly_trend(weeks)]; [None] is [OverflowError]. *)
Definition get_weekly_trend (today : date.t) (d : DB.t) (weeks : Z)
  : option (list week_trend) :=
  option_map (@rev week_trend) (trend_loop today d (range weeks) []).

(** The default of the parameter: [def get_weekly_trend(weeks=4)]. *)
Definition default_weeks : Z := 4.

Definition get_weekly_trend_default (today : date.t) (d : DB.t)
  : option (list week_trend) :=
  get_weekly_trend today d default_weeks.

End TemporalKPI.

(** ** [routes/kpi.py]: the argument the report passes *)
Module KpiRoute.

Definition weekly_trend (today : date.t) (d : DB.t)
  : option (list TemporalKPI.week_trend) :=
  TemporalKPI.get_weekly_trend today d 8.

End KpiRoute.

(** ** [routes/affecteur.py] *)
Module Affecteur.

(** The value of a spreadsheet cell as [openpyxl] returns it. *)
Inductive cell :=
  | CNone
  | CStr (s : string)
  | CInt (z : Z)
  | CDateTime (x : datetime.t).

(** [str(v)] *)
Definition str (v : cell) : string :=
  match v with
  | CNone => "None"
  | CStr s => s
  | CInt z => Py.str_int z
  | CDateTime x => datetime.str x
  end.

(** The truth value of a cell. *)
Definition truthy (v : cell) : bool :=
  match v with
  | CNone => false
  | CStr s => Py.truthy s
  | CInt z => negb (z =? 0)
  | CDateTime _ => true
  end.

(** [affecteur_required] *)
Definition affecteur_required (cu : current_user) (d : DB.t) (k : outcome) : outcome :=
  if negb (Py.str_in (User.role cu) ["affecteur"; "admin"])
  then mkOutcome (Abort 403) [("Accès réservé aux affecteurs.", "danger")] d
  else k.

(** The header row: [cell.value.lower().strip() if cell.value else None];
    the outer [None] is the [AttributeError] of a header that is not text. *)
Fixpoint read_headers (row : list cell) : option (list (option string)) :=
  match row with
  | [] => Some []
  | v :: rest =>
      match read_headers rest with
      | None => None
      | Some hs =>
          if truthy v then
            match v with
            | CStr s => Some (Some (Py.strip (Py.lower s)) :: hs)
            | _ => None
            end
          else Some (None :: hs)
      end
  end.

Definition required_columns : list string :=
  ["file_number"; "receipt_date"; "importer"; "exporter"; "country"; "route"].

Definition header_in (col : string) (headers : list (option string)) : bool :=
  existsb (fun h => match h with Some s => (s =? col)%string | None => false end)
    headers.

(** [col_indices.get(name)]: the dictionary of the non-empty headers, each
    with its 1-based column; a repeated header keeps its last column. *)
Fixpoint col_index_from (idx : Z) (name : string) (headers : list (option string))
  : option Z :=
  match headers with
  | [] => None
  | h :: rest =>
      match col_index_from (idx + 1) name rest with
      | Some i => Some i
      | None =>
          match h with
          | Some s => if Py.truthy s && (s =? name)%string then Some (idx + 1) else None
          | None => None
          end
      end
  end.

Definition col_index (name : string) (headers : list (option string)) : option Z :=
  col_index_from 0 name headers.

(** What one data row does. *)
Inductive row_result :=
  | Skipped
  | RowError (message : string)
  | Added (new_file : File.t)
  | AddedUnflushable.

(** The session during the loop: the files added so far, and whether an
    added object cannot be flushed (its [receipt_date] is not a date), which
    makes every later query and the commit raise. *)
Record session := mkSession {
  pending : list File.t;
  unflushable : bool
}.

(** [row[i - 1]] for a column [1 <= i] of [col_indices], or [None] for
    [IndexError]. *)
Definition at_col (row : list cell) (i : Z) : option cell :=
  nth_error row (Z.to_nat (i - 1)).

(** A required text column: [str(row[i - 1]).strip()], [Some None] when the
    column is absent from [col_indices]. *)
Definition text_col (name : string) (headers : list (option string))
    (row : list cell) : option (option string) :=
  match col_index name headers with
  | None => Some None
  | Some i =>
      match at_col row i with
      | Some v => Some (Some (Py.strip (str v)))
      | None => None
      end
  end.

(** An optional reference column: [None] unless the column exists and the
    cell is truthy. *)
Definition ref_col (name : string) (headers : list (option string))
    (row : list cell) : option (option string) :=
  match col_index name headers with
  | None => Some None
  | Some i =>
      match at_col row i with
      | Some v => if truthy v then Some (Some (Py.strip (str v))) else Some None
      | None => None
      end
  end.

Definition raw_col (name : string) (headers : list (option string))
    (row : list cell) : option (option cell) :=
  match col_index name headers with
  | None => Some None
  | Some i =>
      match at_col row i with
      | Some v => Some (Some v)
      | None => None
      end
  end.

Definition or_empty (o : option string) : string :=
  match o with Some s => s | None => "" end.

Definition line (row_idx : Z) (text : string) : string :=
  "Ligne " ++ Py.str_int row_idx ++ ": " ++ text.

(** [File(..., status='en attente d'évaluation', user_id=None)] once
    flushed: the key and the timestamps come from the database. *)
Definition new_file (id : Z) (utcnow : datetime.t) (file_number : string)
    (receipt_date : date.t) (importer exporter country route : string)
    (sor_number sol_number : option string) : File.t :=
  File.make id file_number receipt_date importer exporter country route
    sor_number sol_number PENDING None None None None None None None None None
    None utcnow utcnow None.

(** The body of the loop for the row [row_idx]. *)
Definition process_row (utcnow : datetime.t) (d : DB.t)
    (headers : list (option string)) (s : session) (row_idx : Z)
    (row : list cell) : row_result :=
  match text_col "file_number" headers row,
        raw_col "receipt_date" headers row,
        text_col "importer" headers row,
        text_col "exporter" headers row,
        text_col "country" headers row,
        text_col "route" headers row,
        ref_col "sor_number" headers row,
        ref_col "sol_number" headers row with
  | Some file_number, Some receipt_date, Some importer, Some exporter,
    Some country, Some route, Some sor_number, Some sol_number =>
      let route := option_map Py.upper route in
      if negb (Py.truthy_opt file_number)
         || (or_empty file_number =? "None")%string then Skipped
      else if unflushable s then
        RowError (line row_idx "Erreur - flush of the pending rows failed")
      else
        let file_number := or_empty file_number in
        if existsb (fun f => (File.file_number f =? file_number)%string)
             (DB.files d ++ pending s)
        then RowError (line row_idx ("Numéro de dossier " ++ file_number
                                     ++ " existe déjà"))
        else
          let parsed : option (option date.t) :=
            match receipt_date with
            | Some (CStr t) =>
                match strptime_Y_m_d t with
                | Some r => Some (Some r)
                | None => None
                end
            | Some (CDateTime x) => Some (Some (datetime.date_of x))
            | _ => Some None
            end in
          match parsed with
          | None =>
              RowError (line row_idx
                "Erreur - time data does not match format '%Y-%m-%d'")
          | Some receipt =>
              if (or_empty route =? "B")%string && negb (Py.truthy_opt sor_number)
              then RowError (line row_idx "SOR requis pour Route B")
              else if (or_empty route =? "C")%string && negb (Py.truthy_opt sol_number)
              then RowError (line row_idx "SOL requis pour Route C")
              else
                match receipt with
                | Some r =>
                    Added
                      (new_file
                         (DB.next_id (map File.id (DB.files d ++ pending s)))
                         utcnow file_number r (or_empty importer)
                         (or_empty exporter) (or_empty country)
                         (or_empty route) sor_number sol_number)
                | None => AddedUnflushable
                end
          end
  | _, _, _, _, _, _, _, _ =>
      RowError (line row_idx "Erreur - list index out of range")
  end.

(** The counters and the session after the rows seen so far. *)
Record progress := mkProgress {
  sess : session;
  success_count : Z;
  error_count : Z;
  errors : list string
}.

Definition step (utcnow : datetime.t) (d : DB.t) (headers : list (option string))
    (p : progress) (indexed : Z * list cell) : progress :=
  let '(row_idx, row) := indexed in
  match process_row utcnow d headers (sess p) row_idx row with
  | Skipped => p
  | RowError m =>
      mkProgress (sess p) (success_count p) (error_count p + 1)
        (errors p ++ [m])
  | Added f =>
      mkProgress (mkSession (pending (sess p) ++ [f]) (unflushable (sess p)))
        (success_count p + 1) (error_count p) (errors p)
  | AddedUnflushable =>
      mkProgress (mkSession (pending (sess p)) true)
        (success_count p + 1) (error_count p) (errors p)
  end.

(** [enumerate(rows, start=2)] *)
Fixpoint enumerate_from (i : Z) (rows : list (list cell)) : list (Z * list cell) :=
  match rows with
  | [] => []
  | r :: rest => (i, r) :: enumerate_from (i + 1) rest
  end.

Definition run_rows (utcnow : datetime.t) (d : DB.t)
    (headers : list (option string)) (rows : list (list cell)) : progress :=
  fold_left (step utcnow d headers) (enumerate_from 2 rows)
    (mkProgress (mkSession [] false) 0 0 []).

Definition upload_form : response := Render "affecteur/upload_form.html".

(** The messages flashed after the commit. *)
Definition report (p : progress) : list flash :=
  let created : list flash :=
    if 0 <? success_count p
    then [("✅ " ++ Py.str_int (success_count p)
           ++ " dossier(s) créé(s) avec succès!", "success")]
    else [] in
  let more : list flash :=
    if 10 <? Z.of_nat (List.length (errors p))
    then [("... et " ++ Py.str_int (Z.of_nat (List.length (errors p)) - 10)
           ++ " autres erreurs.", "danger")]
    else [] in
  let failed : list flash :=
    if 0 <? error_count p
    then ("⚠️ " ++ Py.str_int (error_count p) ++ " erreur(s) détectée(s).",
          "warning")
         :: List.app (map (fun e => (e, "danger")) (firstn 10 (errors p))) more
    else [] in
  List.app created failed.

(** The POST of [upload_excel] once the workbook is loaded: [sheet] is the
    active worksheet, header row first. *)
Definition upload_excel (utcnow : datetime.t) (sheet : list (list cell))
    (d : DB.t) : outcome :=
  let header_row := hd [] sheet in
  let rows := tl sheet in
      match read_headers header_row with
      | None =>
          mkOutcome upload_form
            [("❌ Erreur lors du traitement du fichier: 'int' object has no attribute 'lower'",
              "danger")] d
      | Some headers =>
          let missing_columns :=
            filter (fun col => negb (header_in col headers)) required_columns in
          match missing_columns with
          | _ :: _ =>
              mkOutcome upload_form
                [("Colonnes manquantes dans le fichier Excel: "
                  ++ Py.join ", " missing_columns, "danger")] d
          | [] =>
              let p := run_rows utcnow d headers rows in
              if unflushable (sess p) then
                mkOutcome upload_form
                  [("❌ Erreur lors du traitement du fichier: NOT NULL constraint failed: files.receipt_date",
                    "danger")] d
              else
                mkOutcome
                  (if 0 <? success_count p then Redirect "affecteur.dashboard"
                   else upload_form)
                  (report p)
                  (DB.with_files (DB.files d ++ pending (sess p)) d)
          end
      end.

End Affecteur.

(** ** The [csv] module: the writer of the default (excel) dialect *)
Module Csv.

Definition CR : ascii := ascii_of_nat 13.
Definition LF : ascii := ascii_of_nat 10.
Definition QUOTE : ascii := ascii_of_nat 34.

(** The line terminator, carriage return and line feed. *)
Definition lineterminator : string := String CR (String LF EmptyString).

(** A field is quoted when it holds the delimiter, the quote character or
    a character of the line terminator. *)
Definition special (c : ascii) : bool :=
  Ascii.eqb c "," || Ascii.eqb c QUOTE || Ascii.eqb c CR || Ascii.eqb c LF.

Fixpoint needs_quotes (s : string) : bool :=
  match s with
  | EmptyString => false
  | String c rest => special c || needs_quotes rest
  end.

(** The quote character is written twice. *)
Fixpoint escape (s : string) : string :=
  match s with
  | EmptyString => EmptyString
  | String c rest =>
      if Ascii.eqb c QUOTE then String c (String c (escape rest))
      else String c (escape rest)
  end.

Definition field (s : string) : string :=
  if needs_quotes s then String QUOTE (escape s ++ String QUOTE EmptyString)
  else s.

(** [writer.writerow(row)]: what is appended to the output.  A row that
    is a single empty field is written as two quote characters. *)
Definition writerow (row : list string) : string :=
  match row with
  | [EmptyString] => String QUOTE (String QUOTE lineterminator)
  | _ => Py.join "," (map field row) ++ lineterminator
  end.

End Csv.

(** ** [utils/export.py] *)
Module ExportUtils.

Definition header : list string :=
  [ "Numéro Dossier"; "Date Réception"; "Importateur"; "Exportateur"; "Pays";
    "Route"; "Numéro SOR"; "Numéro SOL"; "Statut"; "Date Rappel"; "Utilisateur";
    "Email Utilisateur"; "Date Création"; "Dernière Modification"; "CoC Numéro";
    "CoC Date"; "Facture Numéro" ].

Definition or_empty (o : option string) : string :=
  match o with Some s => if Py.truthy s then s else "" | None => "" end.

(** The list written for one file; [None] is the [AttributeError] of
    [file.owner.username] on a file without owner. *)
Definition file_row (d : DB.t) (file : File.t) : option (list string) :=
  match DB.owner file d with
  | None => None
  | Some owner =>
      let coc := DB.coc_of file d in
      Some
        [ File.file_number file;
          date_strftime "%d/%m/%Y" (File.receipt_date file);
          File.importer file;
          File.exporter file;
          File.country file;
          File.route file;
          or_empty (File.sor_number file);
          or_empty (File.sol_number file);
          File.status file;
          match File.recall_date file with
          | Some r => date_strftime "%d/%m/%Y" r
          | None => ""
          end;
          User.username owner;
          User.email owner;
          datetime.strftime "%d/%m/%Y %H:%M" (File.created_at file);
          datetime.strftime "%d/%m/%Y %H:%M" (File.updated_at file);
          match coc with Some c => CoCDetails.coc_number c | None => "" end;
          match coc with
          | Some c => date_strftime "%d/%m/%Y" (CoCDetails.coc_date c)
          | None => ""
          end;
          match coc with Some c => CoCDetails.invoice_number c | None => "" end ]
  end.

(** The loop over [files], appending to the output. *)
Fixpoint write_files (d : DB.t) (files : list File.t) (output : string)
  : option string :=
  match files with
  | [] => Some output
  | file :: rest =>
      match file_row d file with
      | Some row => write_files d rest (output ++ Csv.writerow row)
      | None => None
      end
  end.

(** [export_files_to_csv(files)] *)
Definition export_files_to_csv (d : DB.t) (files : list File.t) : option string :=
  write_files d files (Csv.writerow header).

End ExportUtils.

(** ** [utils/upload.py] *)
Module Upload.

(** The value of [file_size]: the [int] of the column, or the [float] that
    an in-place division leaves in the attribute. *)
Inductive number :=
  | PyInt (z : Z)
  | PyFlt (x : float).

(** [n < 1024.0] *)
Definition lt_1024 (n : number) : bool :=
  match n with
  | PyInt z => z <? 1024
  | PyFlt x => PrimFloat.ltb x 1024%float
  end.

(** [n / 1024.0] *)
Definition div_1024 (n : number) : number :=
  match n with
  | PyInt z => PyFlt (PrimFloat.div (PyFloat.float_of_int z) 1024%float)
  | PyFlt x => PyFlt (PrimFloat.div x 1024%float)
  end.

(** [f"{n:.1f}"] *)
Definition format_1f (n : number) : string :=
  match n with
  | PyInt z => PyFloat.format_1f (PyFloat.float_of_int z)
  | PyFlt x => PyFloat.format_1f x
  end.

Module FileAttachment.
Record t := make {
  id : Z;
  filename : string;
  original_filename : string;
  file_path : string;
  file_size : number;
  mime_type : option string;
  uploaded_at : datetime.t;
  file_id : Z;
  uploaded_by : Z
}.

Definition set_file_size (n : number) (a : t) : t :=
  make (id a) (filename a) (original_filename a) (file_path a) n (mime_type a)
    (uploaded_at a) (file_id a) (uploaded_by a).
End FileAttachment.

(** The loop of [human_readable_size] over the units: the text returned
    and the value left in [self.file_size]. *)
Fixpoint size_loop (units : list string) (file_size : number) : string * number :=
  match units with
  | [] => (format_1f file_size ++ " TB", file_size)
  | unit :: rest =>
      if lt_1024 file_size then (format_1f file_size ++ " " ++ unit, file_size)
      else size_loop rest (div_1024 file_size)
  end.

(** The property [human_readable_size]: its value, and the attachment
    object after the access. *)
Definition human_readable_size (self : FileAttachment.t)
  : string * FileAttachment.t :=
  let '(text, file_size) :=
    size_loop ["B"; "KB"; "MB"; "GB"] (FileAttachment.file_size self) in
  (text, FileAttachment.set_file_size file_size self).

End Upload.

(** ** A small database used to run the functions *)
Module Sample.

Definition t0 : datetime.t := datetime.make 2025 11 10 9 0 0 0.
Definition created : datetime.t := datetime.make 2025 10 1 8 30 0 0.

Definition eva : User.t :=
  User.make 1 "eva" "eva@example.org" "x" "évaluateur" created true.
Definition fatima : User.t :=
  User.make 2 "fatima" "fatima@example.org" "x" "invoicing" created true.
Definition root : User.t :=
  User.make 3 "root" "root@example.org" "x" "admin" created true.
Definition omar : User.t :=
  User.make 4 "omar" "omar@example.org" "x" "user" created true.

Definition blank_file (id : Z) (file_number status : string) (owner : option Z)
  : File.t :=
  File.make id file_number (date.make 2025 9 30) "Importer SA" "Exporter Ltd"
    "France" "A" None None status None None None None None None None None None
    None created created owner.

(** A pending case of eva, a case ready to invoice, an unowned paid case,
    and an overdue case of omar. *)
Definition pending_file : File.t := blank_file 1 "VOC-2025-001" PENDING (Some 1).
Definition ready_file : File.t := blank_file 2 "VOC-2025-002" "ready to invoice" (Some 1).
Definition payed_file : File.t := blank_file 3 "VOC-2025-003" "payed" None.

Definition overdue_file : File.t :=
  File.make 4 "VOC-2025-004" (date.make 2025 9 30) "Importer SA" "Exporter Ltd"
    "Spain" "B" (Some "SOR-123") None "en cours de traitement" None None None
    None (Some (date.make 2025 11 1)) None None None None None created created
    (Some 4).

Definition database : DB.t :=
  DB.make [eva; fatima; root; omar]
    [pending_file; ready_file; payed_file; overdue_file] [] [] [].

(** The forms of three requests. *)
Definition soumis_form : Request.t :=
  Request.make "POST" [("decision", "soumis"); ("montant_facture", " 100.0 ")] [].

Definition invoice_form : Request.t :=
  Request.make "POST"
    [("mar_number", " mär-01 "); ("proforma_number", "pf001")]
    [("payment_justification", Request.mkUpload "preuve.PDF")].

Definition today : date.t := date.make 2025 11 10.

(** Two readings of [datetime.utcnow()] on a server one hour ahead of
    UTC, both on the local day [today]: half past midnight and nine
    o'clock local time. *)
Definition utc_half_past_midnight : datetime.t := datetime.make 2025 11 9 23 30 0 0.
Definition utc_nine_local : datetime.t := datetime.make 2025 11 10 8 0 0 0.

(** A worksheet of the dispatcher: the header row of the template and one
    data row whose route is D. *)
Definition header_row : list Affecteur.cell :=
  map Affecteur.CStr
    ["file_number"; "receipt_date"; "importer"; "exporter"; "country";
     "route"; "sor_number"; "sol_number"].

Definition route_d_row : list Affecteur.cell :=
  [ Affecteur.CStr "VOC-2025-100"; Affecteur.CStr "2025-11-09";
    Affecteur.CStr "Company D"; Affecteur.CStr "Exporter W";
    Affecteur.CStr "Portugal"; Affecteur.CStr "d"; Affecteur.CNone;
    Affecteur.CNone ].

Definition route_d_sheet : list (list Affecteur.cell) := [header_row; route_d_row].

(** The history of a case that enters processing on 1 October, is sent
    back for completion on the 4th, is taken up again on the 6th and is
    finalized on the 8th. *)
Definition day (n : Z) : datetime.t := datetime.make 2025 10 n 0 0 0 0.

Definition entry_day1 : StatusHistory.t :=
  StatusHistory.make 1 7 (Some "payed") "en cours de traitement" (day 1) (Some 4).
Definition exit_day4 : StatusHistory.t :=
  StatusHistory.make 2 7 (Some "en cours de traitement") "à compléter" (day 4) (Some 4).
Definition entry_day6 : StatusHistory.t :=
  StatusHistory.make 3 7 (Some "à compléter") "en cours de traitement" (day 6) (Some 4).
Definition exit_day8 : StatusHistory.t :=
  StatusHistory.make 4 7 (Some "en cours de traitement") "Finalized" (day 8) (Some 4).

Definition revisited : list StatusHistory.t :=
  [entry_day1; exit_day4; entry_day6; exit_day8].

(** The four cases of [database] with that history. *)
Definition season : DB.t :=
  DB.make [eva; fatima; root; omar]
    [pending_file; ready_file; payed_file; overdue_file] [] [] revisited.





(** The queue of the evaluators: three pending cases without owner,
    created on 3, 1 and 2 October, and a case that is past evaluation. *)
Definition waiting (id : Z) (file_number : string) (created_at : datetime.t)
  : File.t :=
  File.make id file_number (date.make 2025 9 30) "Importer SA" "Exporter Ltd"
    "France" "A" None None PENDING None None None None None None None None None
    None created_at created_at None.

Definition queue : DB.t :=
  DB.make [eva; fatima; root; omar]
    [ waiting 11 "VOC-2025-011" (day 3); ready_file;
      waiting 12 "VOC-2025-012" (day 1); waiting 13 "VOC-2025-013" (day 2) ]
    [] [] [].

(** An attachment of 2048 bytes. *)
Definition attachment : Upload.FileAttachment.t :=
  Upload.FileAttachment.make 1 "preuve_20251110_090000.pdf" "preuve.pdf"
    "uploads/preuve_20251110_090000.pdf" (Upload.PyInt 2048)
    (Some "application/pdf") t0 2 2.

End Sample.

(** ** Renderings and pairings as the specification words them

    These definitions follow the text of the specification; the properties
    compare them with the functions above. *)
Module Documented.

(** A date as DD/MM/YYYY. *)
Definition dd_mm_yyyy (x : date.t) : string :=
  Py.pad2 (date.day x) ++ "/" ++ Py.pad2 (date.month x) ++ "/"
  ++ Py.pad4 (date.year x).


(** The elapsed days that enter the average of a stage: for every
    transition out of the stage, in table order, the days since the case's
    most recent entry into the stage, when there is such an entry and the
    difference is not negative. *)
Definition elapsed_days (stage : string) (hist : list StatusHistory.t) : list float :=
  flat_map
    (fun transition =>
       match TemporalKPI.entry_into stage (StatusHistory.file_id transition) hist with
       | Some entry =>
           let delta :=
             TemporalKPI.days_between (StatusHistory.changed_at transition)
               (StatusHistory.changed_at entry) in
           if PrimFloat.leb 0%float delta then [delta] else []
       | None => []
       end)
    (TemporalKPI.transitions_from stage hist).

(** The mean of a list of days rounded to one decimal, absent for the
    empty list. *)
Definition mean_rounded (days : list float) : option float :=
  match days with
  | [] => None
  | _ =>
      Some (PyFloat.round1
              (PrimFloat.div (fold_left PrimFloat.add days 0%float)
                 (PyFloat.float_of_int (Z.of_nat (List.length days)))))
  end.

(** The pairing of the specification's sentence: the case's most recent
    entry into the stage among those before the exit. *)
Definition entry_before_exit (stage : string) (transition : StatusHistory.t)
    (hist : list StatusHistory.t) : option StatusHistory.t :=
  TemporalKPI.most_recent
    (filter
       (fun h =>
          (StatusHistory.file_id h =? StatusHistory.file_id transition)
          && (StatusHistory.new_status h =? stage)%string
          && datetime.ltb (StatusHistory.changed_at h)
               (StatusHistory.changed_at transition))
       hist).

Definition elapsed_days_before_exit (stage : string) (hist : list StatusHistory.t)
  : list float :=
  flat_map
    (fun transition =>
       match entry_before_exit stage transition hist with
       | Some entry =>
           let delta :=
             TemporalKPI.days_between (StatusHistory.changed_at transition)
               (StatusHistory.changed_at entry) in
           if PrimFloat.leb 0%float delta then [delta] else []
       | None => []
       end)
    (TemporalKPI.transitions_from stage hist).

End Documented.

(** ** [routes/evaluator.py]: the queue of the evaluators *)
Module EvaluatorQueue.

(** [start_evaluation(file_id)] *)
Definition start_evaluation (cu : current_user) (utcnow : datetime.t)
    (file_id : Z) (d : DB.t) : outcome :=
  match DB.get_file file_id d with
  | None => mkOutcome (Abort 404) [] d
  | Some file =>
    if negb (File.status file =? PENDING)%string then
      mkOutcome (Redirect "evaluator.dashboard")
        [("Ce dossier n'est pas en attente d'évaluation.", "danger")] d
    else
      let file' :=
        FileSet.assignment (File.user_id file) "en cours d'évaluation" utcnow file in
      let d1 := DB.update_file file' d in
      let d2 :=
        DB.add_status_history (File.id file) (Some PENDING)
          "en cours d'évaluation" utcnow (Some (User.id cu)) d1 in
      mkOutcome (Redirect "evaluator.evaluate_file")
        [("✅ Vous avez commencé l'évaluation de ce dossier.", "success")] d2
  end.

(** [ORDER BY created_at]: a stable insertion sort on the timestamp. *)
Fixpoint insert_by_created (f : File.t) (sorted : list File.t) : list File.t :=
  match sorted with
  | [] => [f]
  | g :: rest =>
      if datetime.ltb (File.created_at f) (File.created_at g)
      then f :: g :: rest
      else g :: insert_by_created f rest
  end.

Definition order_by_created (files : list File.t) : list File.t :=
  fold_left (fun sorted f => insert_by_created f sorted) files [].

(** The query of [batch_assign_files]: the pending cases without owner,
    oldest first, at most [count] of them. *)
Definition unassigned_files (count : Z) (d : DB.t) : list File.t :=
  firstn (Z.to_nat count)
    (order_by_created
       (filter (fun f => (File.status f =? PENDING)%string
                         && match File.user_id f with None => true | Some _ => false end)
          (DB.files d))).

(** [batch_assign_files(count)] *)
Definition batch_assign_files (cu : current_user) (utcnow : datetime.t)
    (count : Z) (d : DB.t) : outcome :=
  if (count <? 1) || (10 <? count) then
    mkOutcome (Redirect "evaluator.dashboard")
      [("Le nombre de dossiers doit être entre 1 et 10.", "danger")] d
  else
    match unassigned_files count d with
    | [] =>
        mkOutcome (Redirect "evaluator.dashboard")
          [("Aucun dossier en attente d'évaluation disponible.", "warning")] d
    | selected =>
        let assigned_count := Z.of_nat (List.length selected) in
        let d' :=
          fold_left
            (fun acc file =>
               DB.update_file
                 (FileSet.assignment (Some (User.id cu)) (File.status file)
                    utcnow file) acc)
            selected d in
        mkOutcome (Redirect "evaluator.dashboard")
          [("✅ " ++ Py.str_int assigned_count
            ++ " dossier(s) affecté(s) à vous pour évaluation!", "success")] d'
    end.

End EvaluatorQueue.

(** ** [utils/kpi.py]: overdue cases and bottlenecks *)
Module TemporalKPIMore.

(** [get_current_overdue_files()]: [File.recall_date < today] and
    [File.status != 'Finalized']. *)
Definition get_current_overdue_files (today : date.t) (d : DB.t) : list File.t :=
  filter
    (fun f =>
       match File.recall_date f with
       | Some r => date_ltb r today
       | None => false
       end
       && negb (File.status f =? "Finalized")%string)
    (DB.files d).

(** [sorted(items, key=lambda x: x[1], reverse=True)]: a stable sort in
    descending order of the value; an item goes before the first item of
    smaller value. *)
Fixpoint insert_desc (x : string * float) (sorted : list (string * float))
  : list (string * float) :=
  match sorted with
  | [] => [x]
  | y :: rest =>
      if PrimFloat.ltb (snd y) (snd x) then x :: y :: rest
      else y :: insert_desc x rest
  end.

Definition sorted_desc (items : list (string * float)) : list (string * float) :=
  fold_left (fun sorted x => insert_desc x sorted) items [].

(** [{k: v for k, v in stage_times.items() if v is not None}] *)
Definition valid_times (stage_times : list (string * option float))
  : list (string * float) :=
  flat_map
    (fun kv => match snd kv with Some v => [(fst kv, v)] | None => [] end)
    stage_times.

(** [get_bottleneck_stages()] *)
Definition get_bottleneck_stages (hist : list StatusHistory.t)
  : list (string * float) :=
  match valid_times (TemporalKPI.get_average_time_by_stage hist) with
  | [] => []
  | items => firstn 3 (sorted_desc items)
  end.

End TemporalKPIMore.

(** ** [utils/validation.py]: the recall date *)
Module ValidatorDates.

(** What [validate_recall_date] does: it returns its value, raises
    [ValidationError], or lets the [ValueError] of [date.replace] escape. *)
Inductive result :=
  | Ok (value : option date.t)
  | ValidationError (message : string)
  | ValueError (message : string).

(** [d.replace(year=y)]: [None] when the day does not exist in year [y]. *)
Definition replace_year (d : date.t) (y : Z) : option date.t :=
  let r := date.make y (date.month d) (date.day d) in
  if date.valid r then Some r else None.

(** [validate_recall_date(recall_date)] for a date object, given
    [date.today()]. *)
Definition validate_recall_date (today : date.t) (recall_date : option date.t)
  : result :=
  match recall_date with
  | None => Ok None
  | Some r =>
      match replace_year today (date.year today - 1) with
      | None => ValueError "day is out of range for month"
      | Some one_year_ago =>
          if date_ltb r one_year_ago
          then ValidationError
                 "Date de rappel trop ancienne (plus d'un an dans le passé)."
          else Ok (Some r)
      end
  end.

End ValidatorDates.

(** ** [utils/upload.py]: the extension filter *)
Module UploadFilter.

Definition ALLOWED_EXTENSIONS : list string :=
  ["pdf"; "doc"; "docx"; "xls"; "xlsx"; "png"; "jpg"; "jpeg"].

(** [allowed_file(filename)] *)
Definition allowed_file (filename : string) : bool :=
  match OsPath.rsplit_dot filename with
  | Some (_, ext) => Py.str_in (Py.lower ext) ALLOWED_EXTENSIONS
  | None => false
  end.

End UploadFilter.

(** ** [routes/user.py]: the completion shortcut *)
Module UserCompletion.

Definition completed (description : string) (utcnow : datetime.t) (f : File.t)
  : File.t :=
  File.make (File.id f) (File.file_number f) (File.receipt_date f)
    (File.importer f) (File.exporter f) (File.country f) (File.route f)
    (File.sor_number f) (File.sol_number f) "à compléter"
    (File.montant_facture f) (File.evaluation_reason f) (Some description)
    (Some utcnow) (File.recall_date f) (File.mar_number f)
    (File.proforma_number f) (File.payment_justification_path f)
    (File.invoiced_at f) (File.invoiced_by f) (File.created_at f) utcnow
    (File.user_id f).

(** [set_completion(file_id)] *)
Definition set_completion (cu : current_user) (utcnow : datetime.t)
    (req : Request.t) (file_id : Z) (d : DB.t) : outcome :=
  match DB.get_file file_id d with
  | None => mkOutcome (Abort 404) [] d
  | Some file =>
    if negb (opt_id_eqb (File.user_id file) (User.id cu)) && negb (User.is_admin cu)
    then mkOutcome (Redirect "user.dashboard") [("Accès refusé.", "danger")] d
    else
      let description := Py.strip (Request.form_get "completion_description" req) in
      if negb (Py.truthy description) then
        mkOutcome (Redirect "user.view_file")
          [("La description ne peut pas être vide.", "danger")] d
      else
        let old_status := File.status file in
        let d1 := DB.update_file (completed description utcnow file) d in
        let d2 :=
          DB.add_status_history (File.id file) (Some old_status) "à compléter"
            utcnow (Some (User.id cu)) d1 in
        mkOutcome (Redirect "user.view_file")
          [("✅ Dossier marqué à compléter avec description.", "success")] d2
  end.

End UserCompletion.

(** ** Predicates used to state the properties *)
Module Invariants.

(** What the loop guarantees of a case it adds: no owner, the initial
    status, and the reference number of its route. *)
Definition imported (f : File.t) : Prop :=
  File.user_id f = None
  /\ File.status f = PENDING
  /\ (File.route f = "B" -> Py.truthy_opt (File.sor_number f) = true)
  /\ (File.route f = "C" -> Py.truthy_opt (File.sol_number f) = true).

(** A case needs nothing more from a scan of [today]: a recall
    notification of today exists for it, or it has no owner. *)
Definition handled (today : date.t) (f : File.t) (d : DB.t) : Prop :=
  find (Scheduler.sent_today today f) (DB.notifications d) <> None \/ DB.owner f d = None.

(** A notification of the scan for the case [f]: of type recall, stamped
    with the time of the run, referring to [f], addressed to the owner of
    [f] or to an admin. *)
Definition recall_for (utcnow : datetime.t) (admins : list User.t) (d : DB.t)
    (f : File.t) (n : Notification.t) : Prop :=
  Notification.notification_type n = "recall"
  /\ Notification.created_at n = utcnow
  /\ Notification.read_status n = false
  /\ Notification.file_id n = Some (File.id f)
  /\ exists owner,
       DB.owner f d = Some owner
       /\ (Notification.user_id n = User.id owner
           \/ exists a, In a admins /\ Notification.user_id n = User.id a).

End Invariants.
(** ** Checks on the calendar tables

    The month and the day that [date.fromordinal] computes, as a function
    of the day of the year, and the checks that run over the twelve months
    and over the days of a year. *)
Module Calendar.

(** The month and day of [_ord2ymd], from the day [r] of the year counted
    from 0 and the leap flag. *)
Definition month_day (r : Z) (leapyear : bool) : Z * Z :=
  let m := Z.shiftr (r + 50) 5 in
  let preceding :=
    nth (Z.to_nat (m - 1)) date.DAYS_BEFORE_MONTH 0
    + (if (2 <? m) && leapyear then 1 else 0) in
  if r <? preceding then
    let m' := m - 1 in
    let preceding' :=
      preceding
      - (nth (Z.to_nat (m' - 1)) date.DAYS_IN_MONTH 0
         + (if (m' =? 2) && leapyear then 1 else 0)) in
    (m', r - preceding' + 1)
  else (m, r - preceding + 1).

(** The days before a month and the days of the month stay within the
    year. *)
Definition month_ok (leap : bool) (m : Z) : bool :=
  (0 <=? nth (Z.to_nat (m - 1)) date.DAYS_BEFORE_MONTH 0
         + (if (2 <? m) && leap then 1 else 0))
  && (nth (Z.to_nat (m - 1)) date.DAYS_BEFORE_MONTH 0
      + (if (2 <? m) && leap then 1 else 0)
      + (if (m =? 2) && leap then 29
         else nth (Z.to_nat (m - 1)) date.DAYS_IN_MONTH 0)
      <=? (if leap then 366 else 365)).

(** [month_day] gives a day of a month, and that day is day [r + 1] of the
    year. *)
Definition month_day_ok (leapyear : bool) (r : Z) : bool :=
  let '(m, d) := month_day r leapyear in
  (1 <=? m) && (m <=? 12) && (1 <=? d)
  && (d <=? (if (m =? 2) && leapyear then 29
             else nth (Z.to_nat (m - 1)) date.DAYS_IN_MONTH 0))
  && (nth (Z.to_nat (m - 1)) date.DAYS_BEFORE_MONTH 0
      + (if (2 <? m) && leapyear then 1 else 0) + d =? r + 1).

End Calendar.

(** ** Predicates on encoded text *)
Module Text.

(** A character is one byte, or bytes that are all outside the ASCII
    range. *)
Definition shape (c : string) : Prop :=
  (exists a, c = String a EmptyString)
  \/ Forall (fun b => 128 <= Py.byte b) (list_ascii_of_string c).

(** All the bytes are in the ASCII range. *)
Definition is_ascii (s : string) : bool :=
  forallb (fun b => Py.byte b <? 128) (list_ascii_of_string s).

(** No byte is the dot. *)
Definition dotless (s : string) : Prop := OsPath.rsplit_dot s = None.

(** A code point of the Unicode range other than the dot. *)
Definition plain (n : Z) : bool :=
  (0 <=? n) && (n <=? 1114111) && negb (n =? 46).

(** A run of a case table sends no code point to the dot or out of the
    range. *)
Definition run_plain (r : Z * Z * Z * Z) : bool :=
  let '(first, last, _, delta) := r in
  (0 <=? first + delta) && (last + delta <=? 1114111)
  && ((46 <? first + delta) || (last + delta <? 46)).

End Text.


(** * Properties *)

(** ** Facts about the built-ins and the tables *)
Module PyFacts.

Lemma str_in_In (x : string) (xs : list string) :
  Py.str_in x xs = true <-> In x xs.
Proof.
  unfold Py.str_in. rewrite existsb_exists. split.
  - intros [y [Hy He]]. apply String.eqb_eq in He. now subst.
  - intros H. exists x. split; [assumption | apply String.eqb_refl].
Qed.

(** A float that is at least zero is not below zero (the sign test of the
    handlers rejects only [x < 0]). *)
Lemma nonneg_not_neg (x : float) :
  PrimFloat.leb 0%float x = true -> PrimFloat.ltb x 0%float = false.
Proof.
  rewrite FloatAxioms.leb_spec, FloatAxioms.ltb_spec.
  unfold SFleb, SFltb.
  change (Prim2SF 0%float) with (S754_zero false).
  destruct (Prim2SF x) as [s|s| |s m e]; simpl;
    try destruct s; simpl; congruence.
Qed.

(** The built-ins work on characters, not on bytes: two accented letters
    have length 2, the upper case reaches beyond ASCII, and [strip] removes
    the no-break space (U+00A0) and the ideographic space (U+3000) like
    the blank. *)
Example len_counts_characters :
  Py.len "éé" = 2 /\ Py.len "à compléter" = 11.
Proof. split; vm_compute; reflexivity. Qed.

Example upper_beyond_ascii :
  Py.upper "mär01" = "MÄR01" /\ Py.upper "straße" = "STRASSE"
  /\ Py.lower "ÉVALUATION" = "évaluation".
Proof. repeat split; vm_compute; reflexivity. Qed.

Example strip_unicode_space :
  Py.strip (Py.chr 160 ++ " soumis" ++ Py.chr 12288 ++ Py.chr 160) = "soumis"
  /\ Py.strip (Py.chr 160) = "".
Proof. split; vm_compute; reflexivity. Qed.

(** A capital sigma at the end of a word becomes the final sigma. *)
Example lower_final_sigma : Py.lower "ΟΔΟΣ ΣΟΦΟΣ" = "οδος σοφος".
Proof. vm_compute. reflexivity. Qed.

Lemma append_length (a b : string) :
  String.length (a ++ b) = (String.length a + String.length b)%nat.
Proof. induction a as [|c a IH]; simpl; [reflexivity | now rewrite IH]. Qed.

Lemma append_assoc (a b c : string) : ((a ++ b) ++ c = a ++ (b ++ c))%string.
Proof. induction a as [|x a IH]; simpl; [reflexivity | now rewrite IH]. Qed.

Lemma append_nil_r (a : string) : (a ++ "")%string = a.
Proof. induction a as [|x a IH]; simpl; [reflexivity | now rewrite IH]. Qed.

End PyFacts.

Module DBFacts.

Lemma get_file_update_file (f f' : File.t) (file_id : Z) (d : DB.t) :
  DB.get_file file_id d = Some f ->
  File.id f' = file_id ->
  DB.get_file file_id (DB.update_file f' d) = Some f'.
Proof.
  unfold DB.get_file, DB.update_file. simpl.
  intros Hfind Hid. subst file_id.
  induction (DB.files d) as [|g gs IH]; simpl in *; [discriminate|].
  destruct (File.id g =? File.id f') eqn:Hg.
  - simpl. now rewrite Z.eqb_refl.
  - simpl. rewrite Hg. now apply IH.
Qed.

Lemma get_file_id (f : File.t) (file_id : Z) (d : DB.t) :
  DB.get_file file_id d = Some f -> File.id f = file_id.
Proof.
  unfold DB.get_file. intros H. apply find_some in H.
  destruct H as [_ H]. now apply Z.eqb_eq in H.
Qed.

Lemma get_file_In (f : File.t) (file_id : Z) (d : DB.t) :
  DB.get_file file_id d = Some f -> In f (DB.files d).
Proof. unfold DB.get_file. intros H. now apply find_some in H. Qed.

Lemma get_file_update_file_other (f' : File.t) (other : Z) (d : DB.t) :
  other <> File.id f' ->
  DB.get_file other (DB.update_file f' d) = DB.get_file other d.
Proof.
  unfold DB.get_file, DB.update_file. simpl. intros Hne.
  induction (DB.files d) as [|g gs IH]; simpl; [reflexivity|].
  destruct (File.id g =? File.id f') eqn:Hg.
  - apply Z.eqb_eq in Hg.
    destruct (Z.eqb_spec (File.id f') other) as [E|_]; [congruence|].
    destruct (Z.eqb_spec (File.id g) other) as [E|_]; [congruence|].
    exact IH.
  - destruct (File.id g =? other); [reflexivity | exact IH].
Qed.

Lemma update_file_ids (f' : File.t) (d : DB.t) :
  map File.id (DB.files (DB.update_file f' d)) = map File.id (DB.files d).
Proof.
  unfold DB.update_file. simpl.
  induction (DB.files d) as [|g gs IH]; simpl; [reflexivity|].
  rewrite IH. destruct (Z.eqb_spec (File.id g) (File.id f')) as [E|_];
    [now rewrite E | reflexivity].
Qed.

(** A loop whose steps leave a component of the database alone leaves it
    alone. *)
Lemma fold_left_frame {A X : Type} (proj : DB.t -> X) (step : DB.t -> A -> DB.t) :
  (forall d a, proj (step d a) = proj d) ->
  forall (l : list A) (d : DB.t), proj (fold_left step l d) = proj d.
Proof.
  intros Hstep l. induction l as [|a l IH]; intros d; simpl; [reflexivity|].
  now rewrite IH, Hstep.
Qed.

End DBFacts.
(** ** The calendar: ordinals and dates *)
Module DateFacts.
Import Calendar.

Lemma days_before_year_succ (y : Z) :
  date.days_before_year (y + 1)
  = date.days_before_year y + (if date.is_leap y then 366 else 365).
Proof.
  unfold date.days_before_year, date.is_leap.
  replace (y + 1 - 1) with y by lia.
  destruct (Z.eqb_spec (y mod 4) 0) as [H4|H4];
    destruct (Z.eqb_spec (y mod 100) 0) as [H100|H100];
    destruct (Z.eqb_spec (y mod 400) 0) as [H400|H400]; cbn [andb orb negb];
    Z.div_mod_to_equations; lia.
Qed.

Lemma days_before_year_mono (y y' : Z) :
  y <= y' -> date.days_before_year y <= date.days_before_year y'.
Proof.
  intros H. unfold date.days_before_year. Z.div_mod_to_equations. lia.
Qed.

Lemma month_table (leap : bool) :
  forallb (month_ok leap) (map Z.of_nat (seq 1 12)) = true.
Proof. destruct leap; vm_compute; reflexivity. Qed.

(** The day of the year, 1 .. 365 or 366. *)
Lemma day_of_year_bounds (y m d : Z) :
  1 <= m <= 12 -> 1 <= d <= date.days_in_month y m ->
  1 <= date.days_before_month y m + d
    <= (if date.is_leap y then 366 else 365).
Proof.
  intros Hm Hd. pose proof (month_table (date.is_leap y)) as T.
  rewrite forallb_forall in T.
  assert (Hin : In m (map Z.of_nat (seq 1 12))).
  { apply in_map_iff. exists (Z.to_nat m). split; [lia|]. apply in_seq. lia. }
  specialize (T m Hin). unfold month_ok in T.
  unfold date.days_in_month, date.days_before_month in *.
  rewrite andb_true_iff, !Z.leb_le in T.
  destruct (date.is_leap y); lia.
Qed.

(** A date of the calendar has an ordinal between 1 and that of
    9999-12-31. *)
Lemma toordinal_bounds (d : date.t) :
  date.valid d = true -> 1 <= date.toordinal d <= date.MAXORDINAL.
Proof.
  unfold date.valid. rewrite !andb_true_iff, !Z.leb_le.
  intros [[[[[Hy1 Hy2] Hm1] Hm2] Hd1] Hd2].
  pose proof (day_of_year_bounds (date.year d) (date.month d) (date.day d)
                (conj Hm1 Hm2) (conj Hd1 Hd2)) as Hdoy.
  pose proof (days_before_year_succ (date.year d)) as Hs.
  pose proof (days_before_year_mono 1 (date.year d) Hy1) as Hlo.
  pose proof (days_before_year_mono (date.year d + 1) 10000 ltac:(lia)) as Hhi.
  change (date.days_before_year 1) with 0 in Hlo.
  change (date.days_before_year 10000) with 3652059 in Hhi.
  unfold date.toordinal, date.MAXORDINAL.
  destruct (date.is_leap (date.year d)); lia.
Qed.

Lemma month_day_table (leapyear : bool) :
  forallb (month_day_ok leapyear) (map Z.of_nat (seq 0 365)) = true.
Proof. destruct leapyear; vm_compute; reflexivity. Qed.

Lemma month_day_spec (r : Z) (leapyear : bool) :
  0 <= r <= 364 -> month_day_ok leapyear r = true.
Proof.
  intros Hr. pose proof (month_day_table leapyear) as H.
  rewrite forallb_forall in H. apply H.
  apply in_map_iff. exists (Z.to_nat r). split; [lia|].
  apply in_seq. lia.
Qed.

Lemma fromordinal_eq (n : Z) :
  date.fromordinal n
  = let n0 := n - 1 in
    let n400 := n0 / 146097 in
    let r400 := n0 mod 146097 in
    let n100 := r400 / 36524 in
    let r100 := r400 mod 36524 in
    let n4 := r100 / 1461 in
    let r4 := r100 mod 1461 in
    let n1 := r4 / 365 in
    let r := r4 mod 365 in
    let y := n400 * 400 + 1 + n100 * 100 + n4 * 4 + n1 in
    if (n1 =? 4) || (n100 =? 4) then date.make (y - 1) 12 31
    else
      let leapyear := (n1 =? 3) && (negb (n4 =? 24) || (n100 =? 3)) in
      date.make y (fst (month_day r leapyear)) (snd (month_day r leapyear)).
Proof.
  unfold date.fromordinal, month_day. cbv zeta.
  destruct (_ || _); [reflexivity|].
  destruct (_ <? _); reflexivity.
Qed.

Lemma div_mod_vars (a b : Z) :
  0 < b -> exists q r, a / b = q /\ a mod b = r /\ a = b * q + r /\ 0 <= r < b.
Proof.
  intros Hb. exists (a / b), (a mod b). repeat split.
  - apply Z.div_mod. lia.
  - apply Z.mod_pos_bound. lia.
  - apply Z.mod_pos_bound. lia.
Qed.

Lemma fromordinal_spec (n : Z) :
  1 <= n <= date.MAXORDINAL ->
  date.valid (date.fromordinal n) = true
  /\ date.toordinal (date.fromordinal n) = n.
Proof.
  unfold date.MAXORDINAL. intros Hn.
  enough (H : date.toordinal (date.fromordinal n) = n
              /\ 1 <= date.month (date.fromordinal n) <= 12
              /\ 1 <= date.day (date.fromordinal n)
                 <= date.days_in_month (date.year (date.fromordinal n))
                      (date.month (date.fromordinal n))).
  { destruct H as [Hord [Hm Hd]]. split; [|exact Hord].
    pose proof (day_of_year_bounds _ _ _ Hm Hd) as Hdoy.
    pose proof (days_before_year_succ (date.year (date.fromordinal n))) as Hs.
    unfold date.toordinal in Hord.
    assert (Hy : 1 <= date.year (date.fromordinal n) <= 9999).
    { split.
      - destruct (Z_lt_le_dec (date.year (date.fromordinal n)) 1) as [Hlt|]; [|lia].
        pose proof (days_before_year_mono (date.year (date.fromordinal n) + 1) 1
                      ltac:(lia)) as Hmono.
        change (date.days_before_year 1) with 0 in Hmono.
        destruct (date.is_leap (date.year (date.fromordinal n))); lia.
      - destruct (Z_lt_le_dec 9999 (date.year (date.fromordinal n))) as [Hlt|]; [|lia].
        pose proof (days_before_year_mono 10000 (date.year (date.fromordinal n))
                      ltac:(lia)) as Hmono.
        change (date.days_before_year 10000) with 3652059 in Hmono. lia. }
    unfold date.valid. rewrite !andb_true_iff, !Z.leb_le. lia. }
  rewrite fromordinal_eq. cbv zeta.
  destruct (div_mod_vars (n - 1) 146097 ltac:(lia)) as [n400 [r400 [E1 [E2 [F1 B1]]]]].
  rewrite E1, E2.
  destruct (div_mod_vars r400 36524 ltac:(lia)) as [n100 [r100 [E3 [E4 [F2 B2]]]]].
  rewrite E3, E4.
  destruct (div_mod_vars r100 1461 ltac:(lia)) as [n4 [r4 [E5 [E6 [F3 B3]]]]].
  rewrite E5, E6.
  destruct (div_mod_vars r4 365 ltac:(lia)) as [n1 [r [E7 [E8 [F4 B4]]]]].
  rewrite E7, E8. clear E1 E2 E3 E4 E5 E6 E7 E8.
  destruct ((n1 =? 4) || (n100 =? 4)) eqn:Hlast.
  - cbn [date.year date.month date.day].
    unfold date.toordinal, date.days_before_month, date.days_in_month.
    cbn [date.year date.month date.day].
    change (nth (Z.to_nat (12 - 1)) date.DAYS_BEFORE_MONTH 0) with 334.
    change (nth (Z.to_nat (12 - 1)) date.DAYS_IN_MONTH 0) with 31.
    change (12 =? 2) with false. change (2 <? 12) with true.
    cbn [andb].
    apply orb_true_iff in Hlast. rewrite !Z.eqb_eq in Hlast.
    assert (Hleap : date.is_leap (n400 * 400 + 1 + n100 * 100 + n4 * 4 + n1 - 1) = true).
    { unfold date.is_leap.
      destruct (Z.eqb_spec ((n400 * 400 + 1 + n100 * 100 + n4 * 4 + n1 - 1) mod 4) 0);
      destruct (Z.eqb_spec ((n400 * 400 + 1 + n100 * 100 + n4 * 4 + n1 - 1) mod 100) 0);
      destruct (Z.eqb_spec ((n400 * 400 + 1 + n100 * 100 + n4 * 4 + n1 - 1) mod 400) 0);
      cbn [andb orb negb]; try reflexivity; exfalso;
      Z.div_mod_to_equations; lia. }
    rewrite Hleap. unfold date.days_before_year.
    split; [|lia]. Z.div_mod_to_equations. lia.
  - apply orb_false_iff in Hlast. rewrite !Z.eqb_neq in Hlast.
    set (leapyear := (n1 =? 3) && (negb (n4 =? 24) || (n100 =? 3))).
    assert (Hr : 0 <= r <= 364) by lia.
    pose proof (month_day_spec r leapyear Hr) as Hmd.
    unfold month_day_ok in Hmd.
    destruct (month_day r leapyear) as [m d].
    rewrite !andb_true_iff, !Z.leb_le, Z.eqb_eq in Hmd.
    destruct Hmd as [[[[Hm1 Hm2] Hd1] Hd2] Hsum].
    cbn [fst snd date.year date.month date.day].
    assert (Hleap : date.is_leap (n400 * 400 + 1 + n100 * 100 + n4 * 4 + n1) = leapyear).
    { unfold date.is_leap, leapyear.
      destruct (Z.eqb_spec ((n400 * 400 + 1 + n100 * 100 + n4 * 4 + n1) mod 4) 0);
      destruct (Z.eqb_spec ((n400 * 400 + 1 + n100 * 100 + n4 * 4 + n1) mod 100) 0);
      destruct (Z.eqb_spec ((n400 * 400 + 1 + n100 * 100 + n4 * 4 + n1) mod 400) 0);
      destruct (Z.eqb_spec n1 3); destruct (Z.eqb_spec n4 24);
      destruct (Z.eqb_spec n100 3);
      cbn [andb orb negb]; try reflexivity; exfalso;
      Z.div_mod_to_equations; lia. }
    unfold date.toordinal, date.days_before_month, date.days_in_month.
    cbn [date.year date.month date.day]. rewrite Hleap.
    split; [|lia].
    unfold date.days_before_year. Z.div_mod_to_equations. lia.
Qed.

(** [d - timedelta(days=n)] is the date of the ordinal [toordinal d - n]
    when that is a day of the calendar, and raises otherwise. *)
Lemma sub_days_some (d : date.t) (n : Z) :
  1 <= date.toordinal d - n <= date.MAXORDINAL ->
  exists r,
    date.sub_days d n = Some r
    /\ date.valid r = true
    /\ date.toordinal r = date.toordinal d - n.
Proof.
  intros H. unfold date.sub_days. cbv zeta.
  destruct (Z.leb_spec 1 (date.toordinal d - n)); [|lia].
  destruct (Z.leb_spec (date.toordinal d - n) date.MAXORDINAL); [|lia].
  cbn [andb]. eexists. split; [reflexivity|]. now apply fromordinal_spec.
Qed.

Lemma sub_days_none (d : date.t) (n : Z) :
  date.toordinal d - n < 1 \/ date.MAXORDINAL < date.toordinal d - n ->
  date.sub_days d n = None.
Proof.
  intros H. unfold date.sub_days. cbv zeta.
  destruct (Z.leb_spec 1 (date.toordinal d - n));
    destruct (Z.leb_spec (date.toordinal d - n) date.MAXORDINAL);
    cbn [andb]; try reflexivity; lia.
Qed.

End DateFacts.

(** ** Characters and their encoding *)
Module TextFacts.

Lemma concat_cons (x : string) (l : list string) :
  String.concat "" (x :: l) = (x ++ String.concat "" l)%string.
Proof.
  destruct l as [|y l]; cbn [String.concat];
    [now rewrite PyFacts.append_nil_r | reflexivity].
Qed.

Lemma concat_app (l1 l2 : list string) :
  String.concat "" (l1 ++ l2)
  = (String.concat "" l1 ++ String.concat "" l2)%string.
Proof.
  induction l1 as [|x l1 IH]; [reflexivity|].
  rewrite <- app_comm_cons, !concat_cons, IH.
  now rewrite PyFacts.append_assoc.
Qed.

Lemma byte_range (a : ascii) : 0 <= Py.byte a < 256.
Proof.
  unfold Py.byte. pose proof (nat_ascii_bounded a). lia.
Qed.

Lemma byte_inj (a b : ascii) : Py.byte a = Py.byte b -> a = b.
Proof.
  unfold Py.byte. intros H. apply Nat2Z.inj in H.
  rewrite <- (ascii_nat_embedding a), <- (ascii_nat_embedding b).
  now rewrite H.
Qed.

Lemma byte_of_byte (n : Z) : 0 <= n < 256 -> Py.byte (Py.of_byte n) = n.
Proof.
  intros H. unfold Py.byte, Py.of_byte.
  rewrite nat_ascii_embedding by lia. lia.
Qed.

Lemma width_lead (a : ascii) : (2 <= Py.width a)%nat -> 192 <= Py.byte a.
Proof.
  unfold Py.width. cbv zeta.
  destruct (Z.ltb_spec (Py.byte a) 192); [cbn; lia | lia].
Qed.

(** One step of [chars]: the first character and the rest. *)
Lemma chars_step (a : ascii) (r1 : string) :
  exists c rest,
    Py.chars (String a r1) = c :: Py.chars rest
    /\ String a r1 = (c ++ rest)%string
    /\ (String.length rest <= String.length r1)%nat
    /\ Text.shape c.
Proof.
  cbn [Py.chars].
  assert (Hone : exists c rest,
             String a EmptyString :: Py.chars r1 = c :: Py.chars rest
             /\ String a r1 = (c ++ rest)%string
             /\ (String.length rest <= String.length r1)%nat
             /\ Text.shape c).
  { exists (String a EmptyString), r1. repeat split; [lia|].
    left. now exists a. }
  destruct (Py.width a) as [|[|[|[|[|w]]]]] eqn:Hw; try exact Hone.
  - destruct r1 as [|b r2]; [exact Hone|].
    destruct (Py.is_cont b) eqn:Hb; [|exact Hone].
    exists (String a (String b EmptyString)), r2.
    repeat split; [cbn; lia|]. right.
    pose proof (width_lead a ltac:(lia)).
    unfold Py.is_cont in Hb. apply andb_true_iff in Hb. rewrite Z.leb_le in Hb.
    cbn. repeat constructor; lia.
  - destruct r1 as [|b [|c r3]]; try exact Hone.
    destruct (Py.is_cont b) eqn:Hb; [|exact Hone].
    destruct (Py.is_cont c) eqn:Hc; [|exact Hone]. cbn [andb].
    exists (String a (String b (String c EmptyString))), r3.
    repeat split; [cbn; lia|]. right.
    pose proof (width_lead a ltac:(lia)).
    unfold Py.is_cont in Hb, Hc.
    apply andb_true_iff in Hb, Hc. rewrite Z.leb_le in Hb, Hc.
    cbn. repeat constructor; lia.
  - destruct r1 as [|b [|c [|d r4]]]; try exact Hone.
    destruct (Py.is_cont b) eqn:Hb; [|exact Hone].
    destruct (Py.is_cont c) eqn:Hc; [|exact Hone].
    destruct (Py.is_cont d) eqn:Hd; [|exact Hone]. cbn [andb].
    exists (String a (String b (String c (String d EmptyString)))), r4.
    repeat split; [cbn; lia|]. right.
    pose proof (width_lead a ltac:(lia)).
    unfold Py.is_cont in Hb, Hc, Hd.
    apply andb_true_iff in Hb, Hc, Hd. rewrite Z.leb_le in Hb, Hc, Hd.
    cbn. repeat constructor; lia.
Qed.

Lemma chars_nil : Py.chars EmptyString = [].
Proof. reflexivity. Qed.

Lemma chars_bounded (n : nat) :
  forall s : string,
    (String.length s <= n)%nat ->
    String.concat "" (Py.chars s) = s /\ Forall Text.shape (Py.chars s).
Proof.
  induction n as [|n IH]; intros s Hs.
  - destruct s; [split; [reflexivity | constructor] | cbn in Hs; lia].
  - destruct s as [|a r1]; [split; [reflexivity | constructor]|].
    destruct (chars_step a r1) as [c [rest [Hc [Hs' [Hlen Hshape]]]]].
    destruct (IH rest) as [IH1 IH2]; [cbn in Hs; lia|].
    rewrite Hc. split.
    + rewrite concat_cons, IH1. now symmetry.
    + now constructor.
Qed.

(** The characters of a string, put together again, are the string. *)
Lemma chars_concat (s : string) : String.concat "" (Py.chars s) = s.
Proof. exact (proj1 (chars_bounded (String.length s) s (Nat.le_refl _))). Qed.

Lemma chars_shape (s : string) : Forall Text.shape (Py.chars s).
Proof. exact (proj2 (chars_bounded (String.length s) s (Nat.le_refl _))). Qed.

(** The characters after a cut between two characters are the characters
    of the text after the cut. *)
Lemma chars_suffix (pre : list string) :
  forall (s : string) (es : list string),
    Py.chars s = (pre ++ es)%list -> Py.chars (String.concat "" es) = es.
Proof.
  induction pre as [|p pre IH]; intros s es H.
  - cbn [app] in H. rewrite <- H at 1. now rewrite chars_concat.
  - destruct s as [|a r1]; [discriminate|].
    destruct (chars_step a r1) as [c [rest [Hc _]]].
    rewrite Hc in H. cbn [app] in H. injection H as _ H.
    now apply (IH rest).
Qed.

(** *** The last dot *)

Lemma rsplit_app_some (a b x y : string) :
  OsPath.rsplit_dot b = Some (x, y) ->
  OsPath.rsplit_dot (a ++ b) = Some ((a ++ x)%string, y).
Proof.
  intros H. induction a as [|c a IH]; [exact H|].
  cbn [append OsPath.rsplit_dot]. now rewrite IH.
Qed.

Lemma rsplit_app_none (a b : string) :
  OsPath.rsplit_dot b = None ->
  OsPath.rsplit_dot (a ++ b)
  = match OsPath.rsplit_dot a with
    | Some (x, y) => Some (x, (y ++ b)%string)
    | None => None
    end.
Proof.
  intros H. induction a as [|c a IH]; [exact H|].
  cbn [append OsPath.rsplit_dot]. rewrite IH.
  destruct (OsPath.rsplit_dot a) as [[x y]|]; [reflexivity|].
  now destruct (Ascii.eqb c ".").
Qed.

Lemma dotless_app (a b : string) :
  Text.dotless a -> Text.dotless b -> Text.dotless (a ++ b).
Proof.
  unfold Text.dotless. intros Ha Hb. now rewrite rsplit_app_none, Ha.
Qed.

Lemma dotless_concat (l : list string) :
  Forall Text.dotless l -> Text.dotless (String.concat "" l).
Proof.
  induction 1 as [|x l Hx Hl IH]; [reflexivity|].
  rewrite concat_cons. now apply dotless_app.
Qed.

(** The text cut at a dot that no dot follows. *)
Lemma rsplit_at_dot (a e : string) :
  Text.dotless e -> OsPath.rsplit_dot (a ++ "." ++ e) = Some (a, e).
Proof.
  intros He. rewrite (rsplit_app_some a ("." ++ e) "" e).
  - now rewrite PyFacts.append_nil_r.
  - cbn. unfold Text.dotless in He. now rewrite He.
Qed.

Lemma nonascii_dotless (c : string) :
  Forall (fun b => 128 <= Py.byte b) (list_ascii_of_string c) -> Text.dotless c.
Proof.
  unfold Text.dotless.
  induction c as [|b c IH]; intros H; [reflexivity|].
  cbn in H. inversion H as [|? ? Hb Hc]; subst.
  cbn [OsPath.rsplit_dot]. rewrite (IH Hc).
  destruct (Ascii.eqb_spec b "."); [|reflexivity].
  subst b. change (Py.byte ".") with 46 in Hb. lia.
Qed.

(** A character is the dot or holds no dot. *)
Lemma shape_dot (c : string) : Text.shape c -> c = "." \/ Text.dotless c.
Proof.
  intros [[a ->]|H].
  - destruct (Ascii.eqb_spec a ".") as [->|Hne]; [now left|]. right.
    unfold Text.dotless. cbn. destruct (Ascii.eqb_spec a "."); congruence.
  - right. now apply nonascii_dotless.
Qed.

(** *** Code points *)

Lemma of_byte_not_dot (n : Z) :
  0 <= n < 256 -> n <> 46 -> Ascii.eqb (Py.of_byte n) "." = false.
Proof.
  intros Hn Hne. destruct (Ascii.eqb_spec (Py.of_byte n) ".") as [E|]; [|reflexivity].
  apply (f_equal Py.byte) in E. rewrite byte_of_byte in E by lia.
  change (Py.byte ".") with 46 in E. lia.
Qed.

Lemma bytes_dotless (l : list Z) :
  Forall (fun n => 0 <= n < 256 /\ n <> 46) l ->
  Text.dotless (string_of_list_ascii (map Py.of_byte l)).
Proof.
  unfold Text.dotless. induction 1 as [|n l [Hn Hne] Hl IH]; [reflexivity|].
  cbn [map string_of_list_ascii OsPath.rsplit_dot]. rewrite IH.
  now rewrite of_byte_not_dot.
Qed.

(** The encoding of a code point other than the dot holds no dot. *)
Lemma chr_dotless (n : Z) : Text.plain n = true -> Text.dotless (Py.chr n).
Proof.
  unfold Text.plain. rewrite !andb_true_iff, !Z.leb_le, negb_true_iff, Z.eqb_neq.
  intros [[H0 Hmax] Hne]. unfold Py.chr.
  destruct (Z.ltb_spec n 128).
  { apply (bytes_dotless [n]). repeat constructor; lia. }
  destruct (Z.ltb_spec n 2048).
  { apply (bytes_dotless [192 + n / 64; 128 + n mod 64]).
    repeat constructor; Z.div_mod_to_equations; lia. }
  destruct (Z.ltb_spec n 65536).
  { apply (bytes_dotless [224 + n / 4096; 128 + (n / 64) mod 64; 128 + n mod 64]).
    repeat constructor; Z.div_mod_to_equations; lia. }
  apply (bytes_dotless [240 + n / 262144; 128 + (n / 4096) mod 64;
                        128 + (n / 64) mod 64; 128 + n mod 64]).
  repeat constructor; Z.div_mod_to_equations; lia.
Qed.

Lemma encode_dotless (l : list Z) :
  Forall (fun n => Text.plain n = true) l -> Text.dotless (Py.encode l).
Proof.
  intros H. unfold Py.encode. apply dotless_concat.
  induction H as [|n l Hn Hl IH]; cbn [map]; constructor;
    [now apply chr_dotless | exact IH].
Qed.

(** The case tables send a code point other than the dot to code points
    other than the dot. *)
Lemma full_plain (runs : list (Z * Z * Z * Z)) (special : list (Z * list Z))
    (n : Z) :
  forallb Text.run_plain runs = true ->
  forallb (fun p => forallb Text.plain (snd p)) special = true ->
  Text.plain n = true ->
  Forall (fun m => Text.plain m = true) (Unicode.full runs special n).
Proof.
  intros Hruns Hspecial Hn. unfold Unicode.full.
  destruct (find (fun p => fst p =? n) special) as [[c l]|] eqn:Hfind.
  - apply find_some in Hfind. destruct Hfind as [Hin _].
    rewrite forallb_forall in Hspecial. specialize (Hspecial _ Hin).
    cbn [snd] in Hspecial. rewrite forallb_forall in Hspecial.
    apply Forall_forall. exact Hspecial.
  - constructor; [|constructor]. unfold Unicode.simple.
    destruct (find (Unicode.in_run n) runs) as [[[[first last] step] delta]|]
      eqn:Hrun; [|exact Hn].
    apply find_some in Hrun. destruct Hrun as [Hin Hrun].
    rewrite forallb_forall in Hruns. specialize (Hruns _ Hin).
    unfold Text.run_plain in Hruns. unfold Unicode.in_run in Hrun.
    unfold Text.plain.
    rewrite !andb_true_iff, !Z.leb_le in Hruns, Hrun.
    rewrite orb_true_iff, !Z.ltb_lt in Hruns.
    rewrite !andb_true_iff, !Z.leb_le, negb_true_iff, Z.eqb_neq. lia.
Qed.

Lemma lower_tables_plain :
  forallb Text.run_plain Unicode.LOWER = true
  /\ forallb (fun p => forallb Text.plain (snd p)) Unicode.LOWER_FULL = true.
Proof. split; vm_compute; reflexivity. Qed.

Lemma to_lower_plain (n : Z) :
  Text.plain n = true ->
  Forall (fun m => Text.plain m = true) (Unicode.to_lower n).
Proof.
  apply full_plain; [exact (proj1 lower_tables_plain)
                    | exact (proj2 lower_tables_plain)].
Qed.

(** [ord] gives a code point of the range, and the dot only for the
    dot. *)
Lemma ord_range (c : string) : 0 <= Py.ord c -> Py.ord c <= 1114111.
Proof.
  unfold Py.ord.
  destruct c as [|a [|b [|c' [|d [|e r]]]]]; cbv zeta; try lia.
  - destruct (Z.ltb_spec (Py.byte a) 128); lia.
  - destruct (_ && _) eqn:Hc; [|lia].
    rewrite !andb_true_iff in Hc. unfold Py.is_cont in Hc.
    rewrite !andb_true_iff, !Z.leb_le, !Z.ltb_lt in Hc. lia.
  - destruct (_ && _) eqn:Hc; [|lia].
    rewrite !andb_true_iff in Hc. unfold Py.is_cont in Hc.
    rewrite !andb_true_iff, !Z.leb_le, !Z.ltb_lt in Hc. lia.
  - destruct (_ && _) eqn:Hc; [|lia].
    rewrite !andb_true_iff in Hc. rewrite !Z.leb_le in Hc. lia.
Qed.

Lemma ord_dot (c : string) : Py.ord c = 46 -> c = ".".
Proof.
  unfold Py.ord.
  destruct c as [|a [|b [|c' [|d [|e r]]]]]; cbv zeta; try lia.
  - destruct (Z.ltb_spec (Py.byte a) 128); [|lia].
    intros E. f_equal. apply byte_inj. exact E.
  - destruct (_ && _) eqn:Hc; [|lia].
    rewrite !andb_true_iff, !Z.leb_le in Hc. lia.
  - destruct (_ && _) eqn:Hc; [|lia].
    rewrite !andb_true_iff, !Z.leb_le in Hc. lia.
  - destruct (_ && _) eqn:Hc; [|lia].
    rewrite !andb_true_iff, !Z.leb_le in Hc. lia.
Qed.

Lemma ord_plain (c : string) :
  0 <= Py.ord c -> c <> "." -> Text.plain (Py.ord c) = true.
Proof.
  intros H0 Hne. unfold Text.plain.
  rewrite !andb_true_iff, !Z.leb_le, negb_true_iff, Z.eqb_neq.
  pose proof (ord_range c H0). pose proof (ord_dot c).
  repeat split; try lia. intros E. now apply Hne, H1.
Qed.

(** [lower] keeps the dot and brings no dot in. *)
Lemma lower_char_dot : Py.lower_char "." = ".".
Proof. vm_compute. reflexivity. Qed.

Lemma lower_char_dotless (c : string) :
  Text.dotless c -> Text.dotless (Py.lower_char c).
Proof.
  intros Hc. unfold Py.lower_char.
  destruct (Z.ltb_spec (Py.ord c) 0); [exact Hc|].
  apply encode_dotless, to_lower_plain, ord_plain; [assumption|].
  intros ->. discriminate Hc.
Qed.

Lemma lower_sigma_dotless (before after : list Z) :
  Text.dotless (Py.chr (Unicode.lower_sigma before after)).
Proof.
  unfold Unicode.lower_sigma. cbv zeta.
  match goal with |- context [if ?b then 962 else 963] => destruct b end;
    reflexivity.
Qed.

(** *** The loop of [lower] *)

(** The lower case of a text cut at a dot: what the loop gives for the
    part after the dot depends on the part before through the context
    only. *)
Lemma lower_from_split (pre : list string) :
  forall (before : list Z) (es : list string),
    exists (low : list string) (context : list Z),
      Py.lower_from before (pre ++ "." :: es)
      = (low ++ "." :: Py.lower_from context es)%list.
Proof.
  induction pre as [|c pre IH]; intros before es.
  - exists [], (46 :: before). reflexivity.
  - destruct (IH (Py.ord c :: before) es) as [low [context E]].
    cbn [app Py.lower_from]. rewrite E.
    eexists (_ :: low), context. reflexivity.
Qed.

Lemma lower_from_dotless (es : list string) :
  forall before : list Z,
    Forall Text.dotless es -> Forall Text.dotless (Py.lower_from before es).
Proof.
  induction es as [|c es IH]; intros before H; [constructor|].
  inversion H as [|? ? Hc Hes]; subst. cbn [Py.lower_from].
  constructor; [|now apply IH].
  destruct (Py.ord c =? Unicode.SIGMA);
    [apply lower_sigma_dotless | now apply lower_char_dotless].
Qed.

Lemma is_ascii_app (a b : string) :
  Text.is_ascii (a ++ b) = Text.is_ascii a && Text.is_ascii b.
Proof.
  unfold Text.is_ascii. induction a as [|c a IH]; [reflexivity|].
  cbn [append list_ascii_of_string forallb]. now rewrite IH, andb_assoc.
Qed.

Lemma lower_sigma_not_ascii (before after : list Z) :
  Text.is_ascii (Py.chr (Unicode.lower_sigma before after)) = false.
Proof.
  unfold Unicode.lower_sigma. cbv zeta.
  match goal with |- context [if ?b then 962 else 963] => destruct b end;
    reflexivity.
Qed.

(** When the lower-cased text is ASCII it holds no sigma, and what comes
    before it plays no role. *)
Lemma lower_from_ascii (es : list string) :
  forall before before' : list Z,
    Text.is_ascii (String.concat "" (Py.lower_from before es)) = true ->
    Py.lower_from before es = Py.lower_from before' es.
Proof.
  induction es as [|c es IH]; intros before before' H; [reflexivity|].
  cbn [Py.lower_from] in *. rewrite concat_cons, is_ascii_app in H.
  apply andb_true_iff in H. destruct H as [Hc Hes].
  destruct (Py.ord c =? Unicode.SIGMA).
  - now rewrite lower_sigma_not_ascii in Hc.
  - f_equal. now apply IH.
Qed.

(** A list of characters has no dot, or a last one. *)
Lemma last_dot_split (l : list string) :
  Forall (fun c => c <> ".") l
  \/ exists pre es,
       l = (pre ++ "." :: es)%list /\ Forall (fun c => c <> ".") es.
Proof.
  induction l as [|x l [IH|[pre [es [-> Hes]]]]].
  - left. constructor.
  - destruct (string_dec x ".") as [->|Hne].
    + right. exists [], l. split; [reflexivity | exact IH].
    + left. now constructor.
  - right. exists (x :: pre), es. split; [reflexivity | exact Hes].
Qed.

Lemma pieces_dotless (l : list string) :
  Forall Text.shape l -> Forall (fun c => c <> ".") l -> Forall Text.dotless l.
Proof.
  intros Hs Hn. rewrite Forall_forall in *. intros c Hc.
  destruct (shape_dot c (Hs c Hc)) as [E|E]; [now elim (Hn c Hc) | exact E].
Qed.

(** The extension of a name and of its lower case.  A name without dot
    has a lower case without dot.  Otherwise the part after the last dot
    of the lower-cased name is the lower case, in the context of the whole
    name, of the part [e] after the last dot of the name; and when that is
    an ASCII text it is the lower case of [e] alone. *)
Lemma rsplit_dot_lower (s : string) :
  match OsPath.rsplit_dot (Py.lower s) with
  | None => OsPath.rsplit_dot s = None
  | Some (_, e') =>
      exists a e,
        OsPath.rsplit_dot s = Some (a, e)
        /\ (Text.is_ascii e' = true -> Py.lower e = e')
  end.
Proof.
  pose proof (chars_shape s) as Hshape. pose proof (chars_concat s) as Hcat.
  unfold Py.lower.
  destruct (last_dot_split (Py.chars s)) as [Hno|[pre [es [Hsplit Hes]]]].
  - pose proof (pieces_dotless _ Hshape Hno) as Hd.
    pose proof (dotless_concat _ (lower_from_dotless _ [] Hd)) as Hl.
    unfold Text.dotless in Hl. rewrite Hl.
    rewrite <- Hcat. now apply dotless_concat.
  - rewrite Hsplit in Hshape. apply Forall_app in Hshape.
    destruct Hshape as [_ Hshape]. inversion Hshape as [|? ? _ Hses]; subst.
    pose proof (pieces_dotless _ Hses Hes) as Hd.
    rewrite Hsplit.
    destruct (lower_from_split pre [] es) as [low [context ->]].
    rewrite concat_app, concat_cons.
    rewrite rsplit_at_dot
      by (apply dotless_concat; now apply lower_from_dotless).
    exists (String.concat "" pre), (String.concat "" es). split.
    + rewrite <- Hcat, Hsplit, concat_app, concat_cons.
      apply rsplit_at_dot. now apply dotless_concat.
    + intros Hascii.
      rewrite (chars_suffix (pre ++ ["."]) s es)
        by (now rewrite <- app_assoc).
      f_equal. symmetry. now apply lower_from_ascii.
Qed.

End TextFacts.

(** ** [utils/validation.py] *)
Module ValidatorFacts.
Import Validator.

(** C10.  The role validator returns its argument for each of the four
    strings user, admin, invoicing, affecteur, and raises the validation
    error "Rôle invalide." for every other string; 'évaluateur' is one of
    the rejected strings. *)
Theorem validate_role_accepts_exactly_four (role : string) :
  ((role = "user" \/ role = "admin" \/ role = "invoicing" \/ role = "affecteur")
   -> validate_role role = Ok role)
  /\ (~ (role = "user" \/ role = "admin" \/ role = "invoicing" \/ role = "affecteur")
      -> validate_role role = ValidationError "Rôle invalide.")
  /\ validate_role "évaluateur" = ValidationError "Rôle invalide.".
Proof.
  assert (Hin : In role valid_roles <->
                (role = "user" \/ role = "admin" \/ role = "invoicing"
                 \/ role = "affecteur")).
  { unfold valid_roles. simpl. intuition congruence. }
  unfold validate_role. split; [|split].
  - intros H. apply Hin, PyFacts.str_in_In in H. now rewrite H.
  - intros H.
    destruct (Py.str_in role valid_roles) eqn:E; [|reflexivity].
    apply PyFacts.str_in_In, Hin in E. contradiction.
  - reflexivity.
Qed.

(** The theorem at 'admin'. *)
Lemma validate_role_accepts_exactly_four_witness :
  validate_role "admin" = Ok "admin".
Proof.
  apply (proj1 (validate_role_accepts_exactly_four "admin")).
  right. left. reflexivity.
Defined.

End ValidatorFacts.

(** ** [routes/evaluator.py] *)
Module EvaluatorFacts.
Import Evaluator.

Section Frame.
Variable str_float : float -> string.

Lemma notify_invoicing_frame (utcnow : datetime.t) (file : File.t)
    (montant : option float) (d : DB.t) :
  DB.files (notify_invoicing str_float utcnow file montant d) = DB.files d
  /\ DB.status_history (notify_invoicing str_float utcnow file montant d)
     = DB.status_history d.
Proof.
  unfold notify_invoicing.
  split; apply DBFacts.fold_left_frame; reflexivity.
Qed.

End Frame.

(** The status reached by a decision. *)
Definition status_after (decision : string) : string :=
  if (decision =? "soumis")%string then "ready to invoice" else "Finalized".

(** C1.  A pending case owned by the acting evaluator, evaluated by a POST
    with one of the three decisions (for 'soumis' with an amount that is
    filled in, numeric and at least zero): the case gets status 'ready to
    invoice' and the amount for 'soumis', status 'Finalized' and no amount
    for 'non_soumis' and 'dispense'; evaluation_reason is the decision, and
    the status history grows by exactly one row recording the transition
    from the pending status. *)
Theorem evaluate_file_branching
    (py_float : string -> option float) (str_float : float -> string)
    (cu : current_user) (utcnow : datetime.t) (req : Request.t) (file_id : Z)
    (d : DB.t) (file : File.t) (decision : string) (montant : option float) :
  DB.get_file file_id d = Some file ->
  File.status file = PENDING ->
  File.user_id file = Some (User.id cu) ->
  Request.method req = "POST" ->
  Py.strip (Request.form_get "decision" req) = decision ->
  ((decision = "soumis"
    /\ Py.truthy (Py.strip (Request.form_get "montant_facture" req)) = true
    /\ (exists m, py_float (Py.strip (Request.form_get "montant_facture" req)) = Some m
                  /\ PrimFloat.leb 0%float m = true /\ montant = Some m))
   \/ ((decision = "non_soumis" \/ decision = "dispense") /\ montant = None)) ->
  let out := evaluate_file py_float str_float cu utcnow req file_id d in
  exists file',
    DB.get_file file_id (db out) = Some file'
    /\ File.status file' = status_after decision
    /\ File.montant_facture file' = montant
    /\ File.evaluation_reason file' = Some decision
    /\ DB.status_history (db out)
       = (DB.status_history d
          ++ [StatusHistory.make
                (DB.next_id (map StatusHistory.id (DB.status_history d)))
                file_id (Some PENDING) (status_after decision) utcnow
                (Some (User.id cu))])%list.
Proof.
  intros Hget Hst Hown Hpost Hdec Hcase out.
  pose proof (DBFacts.get_file_id _ _ _ Hget) as Hid.
  subst out. unfold evaluate_file, parse_montant.
  rewrite Hget, Hst, Hown, Hpost. cbv zeta. rewrite Hdec. clear Hdec.
  unfold opt_id_eqb. rewrite Z.eqb_refl.
  destruct Hcase as [[Hd [Hfilled [m [Hparse [Hpos Hm]]]]] | [Hd Hm]].
  - subst decision montant.
    rewrite Hfilled, Hparse, (PyFacts.nonneg_not_neg _ Hpos).
    cbn -[notify_invoicing DB.get_file DB.update_file DB.add_status_history].
    eexists. split; [|repeat split].
    + unfold DB.get_file.
      rewrite (proj1 (notify_invoicing_frame str_float _ _ _ _)).
      cbn [DB.files DB.add_status_history DB.with_status_history].
      apply (DBFacts.get_file_update_file file); [exact Hget | exact Hid].
    + reflexivity.
    + reflexivity.
    + reflexivity.
    + rewrite (proj2 (notify_invoicing_frame str_float _ _ _ _)).
      cbn. now rewrite Hid.
  - subst montant.
    destruct Hd; subst decision;
      cbn -[DB.get_file DB.update_file DB.add_status_history];
      (eexists; split; [|repeat split];
       [ cbn [DB.files DB.add_status_history DB.with_status_history];
         apply (DBFacts.get_file_update_file file); [exact Hget | exact Hid]
       | reflexivity | reflexivity | reflexivity
       | cbn; now rewrite Hid ]).
Qed.

(** The theorem at the sample: eva submits 'soumis' with amount 100.0 on
    her pending case. *)
Lemma evaluate_file_branching_witness :
  exists file',
    DB.get_file 1
      (db (evaluate_file decimal_float PyFloat.format_1f Sample.eva Sample.t0
             Sample.soumis_form 1 Sample.database)) = Some file'
    /\ File.status file' = "ready to invoice"
    /\ File.montant_facture file' = Some 100%float
    /\ File.evaluation_reason file' = Some "soumis"
    /\ DB.status_history
         (db (evaluate_file decimal_float PyFloat.format_1f Sample.eva Sample.t0
                Sample.soumis_form 1 Sample.database))
       = [StatusHistory.make 1 1 (Some PENDING) "ready to invoice" Sample.t0
            (Some 1)].
Proof.
  apply (evaluate_file_branching decimal_float PyFloat.format_1f Sample.eva
           Sample.t0 Sample.soumis_form 1 Sample.database Sample.pending_file
           "soumis" (Some 100%float)); try reflexivity.
  left. repeat split. exists 100%float. repeat split.
Defined.

End EvaluatorFacts.

(** ** [routes/user.py] *)
Module UserRoutesFacts.
Import UserRoutes.

(** C4.  Self-assignment of an existing case: when the status is not
    'payed' or the case has an owner, the request is refused with an
    error message and the database is unchanged; when the case is 'payed'
    and has no owner, the acting user becomes the owner, the status becomes
    'en cours de traitement', and the status history grows by exactly one
    row, from 'payed' to 'en cours de traitement'. *)
Theorem self_assign_file_gate
    (cu : current_user) (utcnow : datetime.t) (file_id : Z) (d : DB.t)
    (file : File.t) :
  DB.get_file file_id d = Some file ->
  let out := self_assign_file cu utcnow file_id d in
  ((File.status file <> "payed" \/ File.user_id file <> None) ->
     db out = d
     /\ resp out = Redirect "user.dashboard"
     /\ exists message, flashes out = [(message, "danger")])
  /\ ((File.status file = "payed" /\ File.user_id file = None) ->
        exists file',
          DB.get_file file_id (db out) = Some file'
          /\ File.user_id file' = Some (User.id cu)
          /\ File.status file' = "en cours de traitement"
          /\ DB.status_history (db out)
             = (DB.status_history d
                ++ [StatusHistory.make
                      (DB.next_id (map StatusHistory.id (DB.status_history d)))
                      file_id (Some "payed") "en cours de traitement" utcnow
                      (Some (User.id cu))])%list).
Proof.
  intros Hget out. subst out. unfold self_assign_file. rewrite Hget.
  pose proof (DBFacts.get_file_id _ _ _ Hget) as Hid.
  split.
  - intros Hrej.
    destruct (String.eqb_spec (File.status file) "payed") as [Hs|Hs]; simpl.
    + destruct (File.user_id file) as [uid|] eqn:Hu.
      * simpl. repeat split. eexists. reflexivity.
      * destruct Hrej as [H|H]; [contradiction | now elim H].
    + repeat split. eexists. reflexivity.
  - intros [Hs Hu]. rewrite Hs, Hu. simpl.
    eexists. split; [|repeat split].
    + apply (DBFacts.get_file_update_file file); [exact Hget | exact Hid].
    + reflexivity.
    + reflexivity.
    + now rewrite Hid.
Qed.

(** The theorem at the sample: omar claims the unowned paid case. *)
Lemma self_assign_file_gate_witness :
  exists file',
    DB.get_file 3 (db (self_assign_file Sample.omar Sample.t0 3 Sample.database))
    = Some file'
    /\ File.user_id file' = Some 4
    /\ File.status file' = "en cours de traitement"
    /\ DB.status_history
         (db (self_assign_file Sample.omar Sample.t0 3 Sample.database))
       = [StatusHistory.make 1 3 (Some "payed") "en cours de traitement"
            Sample.t0 (Some 4)].
Proof.
  apply (proj2 (self_assign_file_gate Sample.omar Sample.t0 3 Sample.database
                  Sample.payed_file eq_refl)).
  split; reflexivity.
Defined.

End UserRoutesFacts.

(** ** [routes/invoice.py] *)
Module InvoiceFacts.
Import Invoice.

Section Frame.
Variable secure_filename : string -> string.

Lemma notify_done_frame (cu : current_user) (utcnow : datetime.t)
    (file : File.t) (owner_id : Z) (d : DB.t) :
  DB.files (notify_done cu utcnow file owner_id d) = DB.files d
  /\ DB.status_history (notify_done cu utcnow file owner_id d)
     = DB.status_history d.
Proof.
  unfold notify_done. cbv zeta.
  split; rewrite DBFacts.fold_left_frame; reflexivity.
Qed.

(** The handler never touches the status-history table. *)
Lemma process_invoice_history (cu : current_user) (now utcnow : datetime.t)
    (save_ok : bool) (req : Request.t) (file_id : Z) (d : DB.t) :
  DB.status_history
    (db (process_invoice secure_filename cu now utcnow save_ok req file_id d))
  = DB.status_history d.
Proof.
  unfold process_invoice.
  destruct (DB.get_file file_id d) as [file|]; [|reflexivity].
  destruct (negb (File.can_be_invoiced file)); [reflexivity|].
  destruct (File.is_invoiced file); [reflexivity|].
  destruct (Request.method req =? "POST")%string; [|reflexivity].
  cbv zeta.
  destruct (validate _ _ _); [|reflexivity].
  destruct (Request.files_get _ _); [|reflexivity].
  destruct save_ok; [|reflexivity]. simpl negb. cbv iota.
  destruct (File.user_id _); [|reflexivity].
  simpl db. now rewrite (proj2 (notify_done_frame _ _ _ _ _)).
Qed.

End Frame.

(** C7.  Processing an invoice never changes the status-history table;
    and a valid POST (MAR and proforma numbers of 3 to 100 characters after
    trimming, a proof file with an allowed extension, stored successfully)
    on a case that is 'ready to invoice' sets its status to 'payed', stores
    the upper-cased MAR and proforma numbers, and stamps invoiced_at and the
    invoicing agent. *)
Theorem process_invoice_no_history
    (secure_filename : string -> string) (cu : current_user)
    (now utcnow : datetime.t) (save_ok : bool) (req : Request.t) (file_id : Z)
    (d : DB.t) :
  let out := process_invoice secure_filename cu now utcnow save_ok req file_id d in
  DB.status_history (db out) = DB.status_history d
  /\ forall file pf,
       DB.get_file file_id d = Some file ->
       File.status file = "ready to invoice" ->
       Request.method req = "POST" ->
       Request.files_get "payment_justification" req = Some pf ->
       validate (Py.strip (Request.form_get "mar_number" req))
         (Py.strip (Request.form_get "proforma_number" req)) (Some pf) = [] ->
       save_ok = true ->
       exists file',
         DB.get_file file_id (db out) = Some file'
         /\ File.status file' = "payed"
         /\ File.mar_number file'
            = Some (Py.upper (Py.strip (Request.form_get "mar_number" req)))
         /\ File.proforma_number file'
            = Some (Py.upper (Py.strip (Request.form_get "proforma_number" req)))
         /\ File.invoiced_at file' = Some utcnow
         /\ File.invoiced_by file' = Some (User.id cu).
Proof.
  intros out. split; [apply process_invoice_history|].
  intros file pf Hget Hst Hpost Hpf Hval Hsave.
  pose proof (DBFacts.get_file_id _ _ _ Hget) as Hid.
  subst out. unfold process_invoice.
  rewrite Hget. unfold File.can_be_invoiced, File.is_invoiced.
  rewrite Hst, Hpost. simpl. rewrite Hpf, Hval, Hsave. simpl.
  destruct (File.user_id file) as [owner_id|].
  - eexists. split.
    + simpl db. unfold DB.get_file.
      rewrite (proj1 (notify_done_frame _ _ _ _ _)).
      apply (DBFacts.get_file_update_file file); [exact Hget | exact Hid].
    + repeat split; reflexivity.
  - eexists. split.
    + apply (DBFacts.get_file_update_file file); [exact Hget | exact Hid].
    + repeat split; reflexivity.
Qed.

(** The theorem at the sample: fatima invoices the case that is ready;
    the MAR number ' mär-01 ' of the form is stored as 'MÄR-01'. *)
Lemma process_invoice_no_history_witness :
  exists file',
    DB.get_file 2
      (db (process_invoice (fun s => s) Sample.fatima Sample.t0 Sample.t0 true
             Sample.invoice_form 2 Sample.database)) = Some file'
    /\ File.status file' = "payed"
    /\ File.mar_number file' = Some "MÄR-01"
    /\ File.proforma_number file' = Some "PF001"
    /\ File.invoiced_at file' = Some Sample.t0
    /\ File.invoiced_by file' = Some 2.
Proof.
  apply (proj2 (process_invoice_no_history (fun s => s) Sample.fatima Sample.t0
                  Sample.t0 true Sample.invoice_form 2 Sample.database)
           Sample.ready_file (Request.mkUpload "preuve.PDF"));
    reflexivity.
Defined.

End InvoiceFacts.

(** ** The handlers of a case and the other cases *)
Module HandlerFrame.

Ltac split_cases :=
  repeat match goal with
         | |- context [match ?x with _ => _ end] =>
             lazymatch x with
             | context [match _ with _ => _ end] => fail
             | _ => destruct x eqn:?
             end
         end.

Ltac untouched :=
  cbn [db];
  rewrite ?(proj1 (EvaluatorFacts.notify_invoicing_frame _ _ _ _ _)),
          ?(proj1 (InvoiceFacts.notify_done_frame _ _ _ _ _));
  cbn [DB.files DB.add_status_history DB.with_status_history];
  rewrite ?DBFacts.update_file_ids;
  try reflexivity.

(** Evaluating, self-assigning or invoicing the case [file_id] leaves
    every other case as it was, and neither adds nor removes a case: the
    keys of the table of cases are the same, in the same order. *)
Theorem handlers_touch_one_case
    (py_float : string -> option float) (str_float : float -> string)
    (secure_filename : string -> string) (cu : current_user)
    (now utcnow : datetime.t) (save_ok : bool) (req : Request.t)
    (file_id other : Z) (d : DB.t) :
  other <> file_id ->
  let evaluated := db (Evaluator.evaluate_file py_float str_float cu utcnow req file_id d) in
  let assigned := db (UserRoutes.self_assign_file cu utcnow file_id d) in
  let invoiced :=
    db (Invoice.process_invoice secure_filename cu now utcnow save_ok req file_id d) in
  (DB.get_file other evaluated = DB.get_file other d
   /\ map File.id (DB.files evaluated) = map File.id (DB.files d))
  /\ (DB.get_file other assigned = DB.get_file other d
      /\ map File.id (DB.files assigned) = map File.id (DB.files d))
  /\ (DB.get_file other invoiced = DB.get_file other d
      /\ map File.id (DB.files invoiced) = map File.id (DB.files d)).
Proof.
  intros Hne. cbv zeta.
  split; [|split].
  - unfold Evaluator.evaluate_file.
    destruct (DB.get_file file_id d) as [file|] eqn:Hget; [|now split].
    pose proof (DBFacts.get_file_id _ _ _ Hget) as Hid.
    cbv zeta. split_cases; split; untouched;
      unfold DB.get_file;
      rewrite ?(proj1 (EvaluatorFacts.notify_invoicing_frame _ _ _ _ _));
      cbn [DB.files DB.add_status_history DB.with_status_history];
      apply DBFacts.get_file_update_file_other; cbn; now rewrite Hid.
  - unfold UserRoutes.self_assign_file.
    destruct (DB.get_file file_id d) as [file|] eqn:Hget; [|now split].
    pose proof (DBFacts.get_file_id _ _ _ Hget) as Hid.
    cbv zeta. split_cases; split; untouched;
      apply DBFacts.get_file_update_file_other; cbn; now rewrite Hid.
  - unfold Invoice.process_invoice.
    destruct (DB.get_file file_id d) as [file|] eqn:Hget; [|now split].
    pose proof (DBFacts.get_file_id _ _ _ Hget) as Hid.
    cbv zeta. split_cases; split; untouched;
      unfold DB.get_file;
      rewrite ?(proj1 (InvoiceFacts.notify_done_frame _ _ _ _ _));
      apply DBFacts.get_file_update_file_other; cbn; now rewrite Hid.
Qed.

(** The theorem at the sample: the three handlers on case 1, 3 and 2, seen
    from case 4. *)
Lemma handlers_touch_one_case_witness :
  DB.get_file 4
    (db (Evaluator.evaluate_file Evaluator.decimal_float PyFloat.format_1f
           Sample.eva Sample.t0 Sample.soumis_form 1 Sample.database))
  = DB.get_file 4 Sample.database.
Proof.
  apply (handlers_touch_one_case Evaluator.decimal_float PyFloat.format_1f
           (fun s => s) Sample.eva Sample.t0 Sample.t0 true Sample.soumis_form
           1 4 Sample.database).
  discriminate.
Defined.

End HandlerFrame.

(** ** [utils/scheduler.py] *)
Module SchedulerFacts.
Import Scheduler.
Import Invariants.

Lemma find_app_found {A : Type} (p : A -> bool) (l l' : list A) :
  find p l <> None -> find p (l ++ l') <> None.
Proof.
  induction l as [|x l IH]; simpl; [congruence|].
  destruct (p x); [congruence | exact IH].
Qed.

Lemma find_found {A : Type} (p : A -> bool) (l : list A) (x : A) :
  In x l -> p x = true -> find p l <> None.
Proof.
  intros Hin Hp H. now rewrite (find_none p l H x Hin) in Hp.
Qed.

Lemma add_admins_frame (utcnow : datetime.t) (message : string) (file_id : Z)
    (admins : list User.t) :
  forall d : DB.t,
    let d' :=
      fold_left
        (fun acc admin =>
           DB.add_notification utcnow message (User.id admin) (Some file_id)
             "recall" acc) admins d in
    DB.users d' = DB.users d
    /\ DB.files d' = DB.files d
    /\ exists more, DB.notifications d' = (DB.notifications d ++ more)%list.
Proof.
  induction admins as [|a admins IH]; intros d; simpl.
  - repeat split. exists []. now rewrite app_nil_r.
  - destruct (IH (DB.add_notification utcnow message (User.id a) (Some file_id)
                    "recall" d)) as [Hu [Hf [more Hn]]].
    cbv zeta in *. rewrite Hu, Hf, Hn. repeat split.
    simpl. rewrite <- app_assoc. now eexists.
Qed.

(** One turn of the loop keeps users and files and only appends
    notifications. *)
Lemma recall_one_frame (today : date.t) (utcnow : datetime.t)
    (admins : list User.t) (d : DB.t) (outbox : list mail) (f : File.t) :
  let d' := fst (recall_one today utcnow admins (d, outbox) f) in
  DB.users d' = DB.users d
  /\ DB.files d' = DB.files d
  /\ exists more, DB.notifications d' = (DB.notifications d ++ more)%list.
Proof.
  unfold recall_one.
  destruct (find (sent_today today f) (DB.notifications d));
    [simpl; repeat split; exists []; now rewrite app_nil_r|].
  destruct (DB.owner f d) as [user|];
    [|simpl; repeat split; exists []; now rewrite app_nil_r].
  cbn [fst].
  destruct (add_admins_frame utcnow (admin_message user f) (File.id f) admins
              (DB.add_notification utcnow (owner_message f) (User.id user)
                 (Some (File.id f)) "recall" d)) as [Hu [Hf [more Hn]]].
  cbv zeta in *. rewrite Hu, Hf, Hn. repeat split.
  simpl. rewrite <- app_assoc. now eexists.
Qed.

Lemma handled_frame (today : date.t) (f : File.t) (d d' : DB.t) :
  DB.users d' = DB.users d ->
  (exists more, DB.notifications d' = (DB.notifications d ++ more)%list) ->
  handled today f d -> handled today f d'.
Proof.
  intros Hu [more Hn] [H|H].
  - left. rewrite Hn. now apply find_app_found.
  - right. unfold DB.owner, DB.get_user in *. now rewrite Hu.
Qed.

(** After its turn a case is handled, when the stamp of the new
    notifications is not before midnight of [today]. *)
Lemma recall_one_handles (today : date.t) (utcnow : datetime.t)
    (admins : list User.t) (d : DB.t) (outbox : list mail) (f : File.t) :
  datetime.leb (datetime.of_date today) utcnow = true ->
  handled today f (fst (recall_one today utcnow admins (d, outbox) f)).
Proof.
  intros Hstamp. unfold recall_one.
  destruct (find (sent_today today f) (DB.notifications d)) eqn:Hfind;
    [left; simpl; congruence|].
  destruct (DB.owner f d) as [user|] eqn:Howner; [|right; exact Howner].
  cbn [fst]. left.
  destruct (add_admins_frame utcnow (admin_message user f) (File.id f) admins
              (DB.add_notification utcnow (owner_message f) (User.id user)
                 (Some (File.id f)) "recall" d)) as [_ [_ [more Hn]]].
  cbv zeta in Hn. rewrite Hn. apply find_app_found.
  cbn [DB.notifications DB.add_notification DB.with_notifications].
  apply (find_found _ _
           (Notification.make (DB.next_id (map Notification.id (DB.notifications d)))
              (owner_message f) false "recall" utcnow (User.id user)
              (Some (File.id f)))).
  - apply in_or_app. right. now left.
  - unfold sent_today, opt_id_eqb. cbn [Notification.file_id
      Notification.notification_type Notification.created_at].
    now rewrite Z.eqb_refl, Hstamp.
Qed.

Lemma recall_one_handled_id (today : date.t) (utcnow : datetime.t)
    (admins : list User.t) (d : DB.t) (outbox : list mail) (f : File.t) :
  handled today f d ->
  recall_one today utcnow admins (d, outbox) f = (d, outbox).
Proof.
  intros [H|H]; unfold recall_one.
  - destruct (find (sent_today today f) (DB.notifications d));
      [reflexivity | congruence].
  - rewrite H. now destruct (find (sent_today today f) (DB.notifications d)).
Qed.

Lemma scan_frame (today : date.t) (utcnow : datetime.t) (admins : list User.t)
    (l : list File.t) :
  forall st : state,
    DB.users (fst (fold_left (recall_one today utcnow admins) l st))
    = DB.users (fst st)
    /\ DB.files (fst (fold_left (recall_one today utcnow admins) l st))
       = DB.files (fst st)
    /\ exists more,
         DB.notifications (fst (fold_left (recall_one today utcnow admins) l st))
         = (DB.notifications (fst st) ++ more)%list.
Proof.
  induction l as [|f l IH]; intros [d outbox]; cbn [fold_left fst].
  - repeat split. exists []. now rewrite app_nil_r.
  - destruct (IH (recall_one today utcnow admins (d, outbox) f))
      as [Hu [Hf [more Hn]]].
    destruct (recall_one_frame today utcnow admins d outbox f)
      as [Hu1 [Hf1 [more1 Hn1]]].
    cbv zeta in Hu1, Hf1, Hn1.
    split; [now rewrite Hu, Hu1|]. split; [now rewrite Hf, Hf1|].
    exists (more1 ++ more)%list. now rewrite Hn, Hn1, app_assoc.
Qed.

Lemma scan_handles (today : date.t) (utcnow : datetime.t) (admins : list User.t)
    (l : list File.t) :
  datetime.leb (datetime.of_date today) utcnow = true ->
  forall (st : state) (g : File.t),
    In g l \/ handled today g (fst st) ->
    handled today g (fst (fold_left (recall_one today utcnow admins) l st)).
Proof.
  intros Hstamp.
  induction l as [|f l IH]; intros [d outbox] g Hg; cbn [fold_left fst].
  - destruct Hg as [[]|Hg]. exact Hg.
  - apply IH. destruct Hg as [[Hg|Hg]|Hg].
    + subst g. right. now apply recall_one_handles.
    + now left.
    + right.
      destruct (recall_one_frame today utcnow admins d outbox f)
        as [Hu [_ Hn]].
      exact (handled_frame today g d _ Hu Hn Hg).
Qed.

Lemma scan_handled_id (today : date.t) (utcnow : datetime.t)
    (admins : list User.t) (l : list File.t) (d : DB.t) (outbox : list mail) :
  (forall g, In g l -> handled today g d) ->
  fold_left (recall_one today utcnow admins) l (d, outbox) = (d, outbox).
Proof.
  induction l as [|f l IH]; intros H; cbn [fold_left]; [reflexivity|].
  rewrite recall_one_handled_id by (apply H; now left).
  apply IH. intros g Hg. apply H. now right.
Qed.

(** The scan is idempotent when the notifications of the first run are
    stamped at or after midnight of [today]: a second run on the same
    [today] changes nothing and sends no email. *)
Lemma check_and_send_recalls_idempotent (today : date.t)
    (utcnow1 utcnow2 : datetime.t) (d : DB.t) :
  datetime.leb (datetime.of_date today) utcnow1 = true ->
  check_and_send_recalls today utcnow2
    (fst (check_and_send_recalls today utcnow1 d))
  = (fst (check_and_send_recalls today utcnow1 d), []).
Proof.
  intros Hstamp. unfold check_and_send_recalls at 2 3.
  destruct (filter (to_recall today) (DB.files d)) as [|f l] eqn:Hl.
  - simpl. unfold check_and_send_recalls. now rewrite Hl.
  - rewrite <- Hl.
    destruct (scan_frame today utcnow1 (DB.users_with_role "admin" d)
                (filter (to_recall today) (DB.files d)) (d, []))
      as [Hu [Hf _]].
    simpl fst in Hu, Hf.
    unfold check_and_send_recalls. rewrite Hf.
    destruct (filter (to_recall today) (DB.files d)) as [|f' l'] eqn:Hl';
      [discriminate|].
    rewrite <- Hl'. apply scan_handled_id.
    intros g Hg. apply scan_handles; [exact Hstamp | now left].
Qed.

(** The lemma at the sample database, both runs stamped on [today]. *)
Lemma check_and_send_recalls_idempotent_witness :
  check_and_send_recalls Sample.today Sample.t0
    (fst (check_and_send_recalls Sample.today Sample.utc_nine_local
            Sample.database))
  = (fst (check_and_send_recalls Sample.today Sample.utc_nine_local
            Sample.database), []).
Proof.
  apply (check_and_send_recalls_idempotent Sample.today Sample.utc_nine_local
           Sample.t0 Sample.database).
  reflexivity.
Defined.

(** C3, on a server one hour ahead of UTC.  The first run happens at half
    past midnight local time of [today], when [datetime.utcnow()] is still
    on the previous day; it creates two notifications, for the owner and
    for the admin.  The second run, at nine o'clock of the same local day
    over the same data, does not find them as created today: it creates
    two more notifications and sends the email again. *)
Theorem recall_scan_repeats_when_stamp_precedes_today :
  let first :=
    check_and_send_recalls Sample.today Sample.utc_half_past_midnight
      Sample.database in
  let second :=
    check_and_send_recalls Sample.today Sample.utc_nine_local (fst first) in
  List.length (DB.notifications (fst first)) = 2%nat
  /\ map Notification.user_id (DB.notifications (fst first)) = [4; 3]
  /\ List.length (DB.notifications (fst second)) = 4%nat
  /\ map Notification.user_id (DB.notifications (fst second)) = [4; 3; 4; 3]
  /\ List.length (snd second) = 1%nat.
Proof.
  cbv zeta. repeat (split; [vm_compute; reflexivity|]). vm_compute. reflexivity.
Qed.

End SchedulerFacts.
(** ** [utils/kpi.py]: the weekly trend *)
Module WeeklyTrendFacts.
Import TemporalKPI.

Lemma range_length (n : Z) : List.length (range n) = Z.to_nat n.
Proof. unfold range. now rewrite length_map, length_seq. Qed.

Lemma range_nth (n k : Z) :
  0 <= k < n -> nth_error (range n) (Z.to_nat k) = Some k.
Proof.
  intros Hk. unfold range.
  rewrite nth_error_map, nth_error_seq.
  destruct (Nat.ltb_spec (Z.to_nat k) (Z.to_nat n)) as [_|H]; [|lia].
  simpl. now rewrite Z2Nat.id by lia.
Qed.

Lemma range_In (n i : Z) : In i (range n) <-> 0 <= i < n.
Proof.
  unfold range. rewrite in_map_iff. split.
  - intros [k [Hk Hin]]. apply in_seq in Hin. lia.
  - intros H. exists (Z.to_nat i). split; [lia|]. apply in_seq. lia.
Qed.

(** *** One bucket *)

(** The bucket of the index [i] when the start of the week is a day of
    the calendar: the week runs from the day of ordinal [today - 7 (i + 1)]
    to the day 7 days later, and the counts are those of the rows whose
    timestamp is at or after midnight of the first and before midnight of
    the second. *)
Lemma week_bucket_some (today : date.t) (d : DB.t) (i : Z) :
  date.valid today = true -> 0 <= i ->
  7 * (i + 1) < date.toordinal today ->
  exists b week_start week_end,
    week_bucket today d i = Some b
    /\ date.valid week_start = true
    /\ date.valid week_end = true
    /\ date.toordinal week_start = date.toordinal today - 7 * (i + 1)
    /\ date.toordinal week_end = date.toordinal week_start + 7
    /\ week b
       = (Py.pad2 (date.day week_start) ++ "/" ++ Py.pad2 (date.month week_start)
          ++ " - "
          ++ Py.pad2 (date.day week_end) ++ "/" ++ Py.pad2 (date.month week_end))%string
    /\ created b
       = Z.of_nat (List.length
           (filter
              (fun f =>
                 datetime.leb (datetime.of_date week_start) (File.created_at f)
                 && datetime.ltb (File.created_at f) (datetime.of_date week_end))
              (DB.files d)))
    /\ finalized b
       = Z.of_nat (List.length
           (filter
              (fun h =>
                 (StatusHistory.new_status h =? "Finalized")%string
                 && (datetime.leb (datetime.of_date week_start)
                       (StatusHistory.changed_at h)
                     && datetime.ltb (StatusHistory.changed_at h)
                          (datetime.of_date week_end)))
              (DB.status_history d))).
Proof.
  intros Hv Hi Hlo.
  pose proof (DateFacts.toordinal_bounds today Hv) as Hb.
  destruct (DateFacts.sub_days_some today (7 * (i + 1)) ltac:(lia))
    as [ws [Hws [Hvs Hos]]].
  destruct (DateFacts.sub_days_some today (7 * i) ltac:(lia))
    as [we [Hwe [Hve Hoe]]].
  unfold week_bucket. rewrite Hws, Hwe.
  eexists. exists ws, we. split; [reflexivity|].
  split; [exact Hvs|]. split; [exact Hve|]. split; [exact Hos|].
  split; [lia|]. cbn [week created finalized].
  split; [|split; reflexivity].
  unfold date_strftime.
  cbn -[Py.pad2 append].
  rewrite !PyFacts.append_nil_r, !PyFacts.append_assoc. reflexivity.
Qed.

Lemma week_bucket_none (today : date.t) (d : DB.t) (i : Z) :
  date.toordinal today <= 7 * (i + 1) -> week_bucket today d i = None.
Proof.
  intros H. unfold week_bucket.
  now rewrite (DateFacts.sub_days_none today (7 * (i + 1))) by lia.
Qed.

(** *** The loop *)

Lemma trend_loop_some (today : date.t) (d : DB.t) (indices : list Z) :
  forall (bs trends : list week_trend),
    Forall2 (fun i b => week_bucket today d i = Some b) indices bs ->
    trend_loop today d indices trends = Some (trends ++ bs)%list.
Proof.
  induction indices as [|i indices IH]; intros bs trends H; inversion H; subst.
  - cbn. now rewrite app_nil_r.
  - cbn [trend_loop]. rewrite H2. rewrite (IH _ _ H4).
    now rewrite <- app_assoc.
Qed.

Lemma trend_loop_none (today : date.t) (d : DB.t) (indices : list Z) (i : Z) :
  In i indices -> week_bucket today d i = None ->
  forall trends, trend_loop today d indices trends = None.
Proof.
  induction indices as [|j indices IH]; intros Hin Hnone trends; [destruct Hin|].
  cbn [trend_loop]. destruct Hin as [->|Hin]; [now rewrite Hnone|].
  destruct (week_bucket today d j); [now apply IH | reflexivity].
Qed.

Lemma buckets_exist (today : date.t) (d : DB.t) (indices : list Z) :
  (forall i, In i indices -> exists b, week_bucket today d i = Some b) ->
  exists bs, Forall2 (fun i b => week_bucket today d i = Some b) indices bs.
Proof.
  induction indices as [|i indices IH]; intros H.
  - exists []. constructor.
  - destruct (H i (or_introl eq_refl)) as [b Hb].
    destruct IH as [bs Hbs]; [intros j Hj; apply H; now right|].
    exists (b :: bs). now constructor.
Qed.

Lemma Forall2_nth_error (A B : Type) (R : A -> B -> Prop) (l : list A) :
  forall (l' : list B) (n : nat) (a : A),
    Forall2 R l l' -> nth_error l n = Some a ->
    exists b, nth_error l' n = Some b /\ R a b.
Proof.
  induction l as [|x l IH]; intros l' n a H Hn; inversion H; subst.
  - destruct n; discriminate.
  - destruct n as [|n]; cbn in *.
    + injection Hn as <-. eauto.
    + eauto.
Qed.

(** With the start of the oldest week in the calendar, the function
    returns one bucket per week, and position [k] holds the bucket of the
    loop index [weeks - 1 - k]. *)
Lemma get_weekly_trend_some (today : date.t) (d : DB.t) (weeks : Z) :
  date.valid today = true ->
  7 * weeks < date.toordinal today ->
  exists trends,
    get_weekly_trend today d weeks = Some trends
    /\ List.length trends = Z.to_nat weeks
    /\ forall k, 0 <= k < weeks ->
         exists b, nth_error trends (Z.to_nat k) = Some b
                   /\ week_bucket today d (weeks - 1 - k) = Some b.
Proof.
  intros Hv Hlo.
  destruct (buckets_exist today d (range weeks)) as [bs Hbs].
  { intros i Hi. apply range_In in Hi.
    destruct (week_bucket_some today d i Hv ltac:(lia) ltac:(lia))
      as [b [_ [_ [Hb _]]]].
    now exists b. }
  exists (rev bs). unfold get_weekly_trend.
  rewrite (trend_loop_some _ _ _ _ _ Hbs). cbn [option_map app].
  assert (Hlen : List.length bs = Z.to_nat weeks).
  { rewrite <- (Forall2_length Hbs). apply range_length. }
  split; [reflexivity|]. split; [now rewrite length_rev|].
  intros k Hk.
  destruct (Forall2_nth_error _ _ _ _ _ (Z.to_nat (weeks - 1 - k)) (weeks - 1 - k)
              Hbs) as [b [Hnth Hb]].
  { apply range_nth. lia. }
  exists b. split; [|exact Hb].
  rewrite nth_error_rev, Hlen.
  destruct (Nat.ltb_spec (Z.to_nat k) (Z.to_nat weeks)) as [_|H]; [|lia].
  replace (Z.to_nat weeks - S (Z.to_nat k))%nat
    with (Z.to_nat (weeks - 1 - k)) by lia.
  exact Hnth.
Qed.

(** C6, as the code has it.  The default of [weeks] is 4 and the KPI
    report passes 8: with [today] later than day 28, respectively day 56,
    of the calendar they return 4 and 8 buckets.  For every [weeks] such
    that [today - 7 * weeks] days is still a day of the calendar, the result
    has [weeks] buckets, and the bucket at position [k], counted from 0, is
    the week that starts [7 * (weeks - k)] days before [today] and ends 7
    days later: it holds the number of cases whose creation timestamp, and
    the number of history rows entering 'Finalized' whose timestamp, is at
    or after midnight of its first day and before midnight of the first day
    of the next week, so that the oldest week comes first.  When
    [today - 7 * weeks] days is before 0001-01-01 the subtraction raises
    [OverflowError] and no list is returned. *)
Theorem get_weekly_trend_buckets (today : date.t) (d : DB.t) (weeks : Z) :
  date.valid today = true ->
  (28 < date.toordinal today ->
   exists trends,
     get_weekly_trend_default today d = Some trends
     /\ List.length trends = 4%nat)
  /\ (56 < date.toordinal today ->
      exists trends,
        KpiRoute.weekly_trend today d = Some trends
        /\ List.length trends = 8%nat)
  /\ (date.toordinal today <= 7 * weeks ->
      get_weekly_trend today d weeks = None)
  /\ (7 * weeks < date.toordinal today ->
      exists trends,
        get_weekly_trend today d weeks = Some trends
        /\ List.length trends = Z.to_nat weeks
        /\ forall k : Z,
             0 <= k < weeks ->
             exists b week_start week_end,
               nth_error trends (Z.to_nat k) = Some b
               /\ date.valid week_start = true
               /\ date.valid week_end = true
               /\ date.toordinal week_start
                  = date.toordinal today - 7 * (weeks - k)
               /\ date.toordinal week_end = date.toordinal week_start + 7
               /\ week b
                  = (Py.pad2 (date.day week_start) ++ "/"
                     ++ Py.pad2 (date.month week_start) ++ " - "
                     ++ Py.pad2 (date.day week_end) ++ "/"
                     ++ Py.pad2 (date.month week_end))%string
               /\ created b
                  = Z.of_nat (List.length
                      (filter
                         (fun f =>
                            datetime.leb (datetime.of_date week_start)
                              (File.created_at f)
                            && datetime.ltb (File.created_at f)
                                 (datetime.of_date week_end))
                         (DB.files d)))
               /\ finalized b
                  = Z.of_nat (List.length
                      (filter
                         (fun h =>
                            (StatusHistory.new_status h =? "Finalized")%string
                            && (datetime.leb (datetime.of_date week_start)
                                  (StatusHistory.changed_at h)
                                && datetime.ltb (StatusHistory.changed_at h)
                                     (datetime.of_date week_end)))
                         (DB.status_history d)))).
Proof.
  intros Hv. split; [|split; [|split]].
  - intros H.
    destruct (get_weekly_trend_some today d 4 Hv ltac:(lia)) as [t [Ht [Hl _]]].
    exists t. split; [exact Ht | exact Hl].
  - intros H.
    destruct (get_weekly_trend_some today d 8 Hv ltac:(lia)) as [t [Ht [Hl _]]].
    exists t. split; [exact Ht | exact Hl].
  - intros H. unfold get_weekly_trend.
    pose proof (DateFacts.toordinal_bounds today Hv) as Hb.
    rewrite (trend_loop_none today d (range weeks) (weeks - 1));
      [reflexivity | apply range_In; lia | apply week_bucket_none; lia].
  - intros H.
    destruct (get_weekly_trend_some today d weeks Hv H) as [t [Ht [Hl Hnth]]].
    exists t. split; [exact Ht|]. split; [exact Hl|].
    intros k Hk. destruct (Hnth k Hk) as [b [Hb Hbucket]].
    destruct (week_bucket_some today d (weeks - 1 - k) Hv ltac:(lia) ltac:(lia))
      as [b' [ws [we [Hb' [Hvs [Hve [Hos [Hoe [Hw [Hc Hf]]]]]]]]]].
    rewrite Hbucket in Hb'. injection Hb' as <-.
    exists b, ws, we. split; [exact Hb|]. split; [exact Hvs|].
    split; [exact Hve|]. split; [lia|]. split; [exact Hoe|].
    split; [exact Hw|]. split; [exact Hc | exact Hf].
Qed.

(** The theorem at the sample database on 10 November 2025, with the 8
    weeks of the report: the four cases created on 1 October fall in the
    third week and the history row that enters 'Finalized' on 8 October in
    the fourth. *)
Lemma get_weekly_trend_buckets_witness :
  (exists trends,
     KpiRoute.weekly_trend Sample.today Sample.season = Some trends
     /\ List.length trends = 8%nat)
  /\ KpiRoute.weekly_trend Sample.today Sample.season
     = Some [ mkWeek "15/09 - 22/09" 0 0; mkWeek "22/09 - 29/09" 0 0;
              mkWeek "29/09 - 06/10" 4 0; mkWeek "06/10 - 13/10" 0 1;
              mkWeek "13/10 - 20/10" 0 0; mkWeek "20/10 - 27/10" 0 0;
              mkWeek "27/10 - 03/11" 0 0; mkWeek "03/11 - 10/11" 0 0 ].
Proof.
  split.
  - apply (proj1 (proj2 (get_weekly_trend_buckets Sample.today Sample.season 8
                           eq_refl))).
    vm_compute. reflexivity.
  - vm_compute. reflexivity.
Defined.

(** C6 as stated fails: with the default argument the trend of the sample
    database has four buckets, not eight. *)
Lemma weekly_trend_default_is_not_eight :
  exists trends,
    get_weekly_trend_default Sample.today Sample.season = Some trends
    /\ List.length trends = 4%nat
    /\ List.length trends <> 8%nat.
Proof.
  eexists. split; [vm_compute; reflexivity|]. split; [reflexivity | discriminate].
Qed.

End WeeklyTrendFacts.

(** ** [utils/kpi.py]: the average time by stage *)
Module StageTimeFacts.
Import TemporalKPI.

(** *** The order of timestamps *)

Lemma lex_compare_refl (a : list Z) : lex_compare a a = Eq.
Proof.
  induction a as [|x a IH]; simpl; [reflexivity|]. now rewrite Z.compare_refl.
Qed.

Lemma lex_compare_antisym (a : list Z) :
  forall b, lex_compare b a = CompOpp (lex_compare a b).
Proof.
  induction a as [|x a IH]; intros [|y b]; simpl; try reflexivity.
  rewrite (Z.compare_antisym x y).
  destruct (x ?= y); simpl; [apply IH | reflexivity | reflexivity].
Qed.

Lemma lex_compare_trans (a : list Z) :
  forall b c,
    lex_compare a b <> Gt -> lex_compare b c <> Gt -> lex_compare a c <> Gt.
Proof.
  induction a as [|x a IH]; intros [|y b] [|z c]; simpl; try congruence.
  destruct (Z.compare_spec x y), (Z.compare_spec y z), (Z.compare_spec x z);
    subst; try lia; try congruence; eauto.
Qed.

Lemma leb_refl (a : datetime.t) : datetime.leb a a = true.
Proof. unfold datetime.leb, lex_leb. now rewrite lex_compare_refl. Qed.

Lemma leb_iff (a b : datetime.t) :
  datetime.leb a b = true <-> lex_compare (datetime.key a) (datetime.key b) <> Gt.
Proof.
  unfold datetime.leb, lex_leb.
  destruct (lex_compare (datetime.key a) (datetime.key b)); split; congruence.
Qed.

Lemma leb_trans (a b c : datetime.t) :
  datetime.leb a b = true -> datetime.leb b c = true -> datetime.leb a c = true.
Proof. rewrite !leb_iff. apply lex_compare_trans. Qed.

Lemma leb_of_ltb (a b : datetime.t) :
  datetime.ltb a b = true -> datetime.leb a b = true.
Proof.
  unfold datetime.ltb, datetime.leb, lex_ltb, lex_leb.
  destruct (lex_compare (datetime.key a) (datetime.key b)); congruence.
Qed.

Lemma leb_of_not_ltb (a b : datetime.t) :
  datetime.ltb a b = false -> datetime.leb b a = true.
Proof.
  unfold datetime.ltb, datetime.leb, lex_ltb, lex_leb.
  rewrite (lex_compare_antisym (datetime.key a) (datetime.key b)).
  destruct (lex_compare (datetime.key a) (datetime.key b)); simpl; congruence.
Qed.

Lemma not_ltb_of_leb (a b : datetime.t) :
  datetime.leb a b = true -> datetime.ltb b a = false.
Proof.
  unfold datetime.ltb, datetime.leb, lex_ltb, lex_leb.
  rewrite (lex_compare_antisym (datetime.key a) (datetime.key b)).
  destruct (lex_compare (datetime.key a) (datetime.key b)); simpl; congruence.
Qed.

(** *** The most recent row *)

(** From a best row [b], the loop ends on a row of [b :: rows] that is at
    least as recent as [b] and as every row of [rows]. *)
Lemma most_recent_from (rows : list StatusHistory.t) :
  forall b : StatusHistory.t,
  exists e,
    fold_left
      (fun best e =>
         match best with
         | None => Some e
         | Some b =>
             if datetime.ltb (StatusHistory.changed_at b) (StatusHistory.changed_at e)
             then Some e else Some b
         end) rows (Some b) = Some e
    /\ In e (b :: rows)
    /\ datetime.leb (StatusHistory.changed_at b) (StatusHistory.changed_at e) = true
    /\ forall e', In e' rows ->
         datetime.leb (StatusHistory.changed_at e') (StatusHistory.changed_at e) = true.
Proof.
  induction rows as [|r rows IH]; intros b; simpl.
  - exists b. repeat split; [now left | apply leb_refl | intros e' []].
  - destruct (datetime.ltb (StatusHistory.changed_at b) (StatusHistory.changed_at r))
      eqn:Hlt.
    + destruct (IH r) as [e [Hfold [Hin [Hre Hall]]]].
      exists e. split; [exact Hfold|]. split; [right; exact Hin|].
      split.
      * apply (leb_trans _ (StatusHistory.changed_at r));
          [now apply leb_of_ltb | exact Hre].
      * intros e' [He'|He']; [subst e'; exact Hre | now apply Hall].
    + destruct (IH b) as [e [Hfold [Hin [Hbe Hall]]]].
      exists e. split; [exact Hfold|].
      split; [destruct Hin as [Hin|Hin]; [now left | right; now right]|].
      split; [exact Hbe|].
      intros e' [He'|He']; [|now apply Hall].
      subst e'. apply (leb_trans _ (StatusHistory.changed_at b));
        [now apply leb_of_not_ltb | exact Hbe].
Qed.

Lemma most_recent_spec (rows : list StatusHistory.t) :
  match most_recent rows with
  | None => rows = []
  | Some e =>
      In e rows
      /\ forall e', In e' rows ->
           datetime.leb (StatusHistory.changed_at e') (StatusHistory.changed_at e)
           = true
  end.
Proof.
  unfold most_recent. destruct rows as [|r rows]; simpl; [reflexivity|].
  destruct (most_recent_from rows r) as [e [Hfold [Hin [Hre Hall]]]].
  rewrite Hfold. split; [exact Hin|].
  intros e' [He'|He']; [subst e'; exact Hre | now apply Hall].
Qed.

(** The entry paired with a transition is a row of the case into the
    stage, and no row of the case into the stage is more recent. *)
Lemma entry_into_latest (stage : string) (file_id : Z)
    (hist : list StatusHistory.t) (e : StatusHistory.t) :
  entry_into stage file_id hist = Some e ->
  In e hist
  /\ StatusHistory.file_id e = file_id
  /\ StatusHistory.new_status e = stage
  /\ forall e', In e' hist ->
       StatusHistory.file_id e' = file_id ->
       StatusHistory.new_status e' = stage ->
       datetime.leb (StatusHistory.changed_at e') (StatusHistory.changed_at e) = true.
Proof.
  unfold entry_into. intros H.
  pose proof (most_recent_spec
                (filter (fun h => (StatusHistory.file_id h =? file_id)
                                  && (StatusHistory.new_status h =? stage)%string)
                   hist)) as Hspec.
  rewrite H in Hspec. destruct Hspec as [Hin Hall].
  apply filter_In in Hin. destruct Hin as [Hin Hp].
  apply andb_true_iff in Hp. destruct Hp as [Hf Hs].
  apply Z.eqb_eq in Hf. apply String.eqb_eq in Hs.
  repeat split; try assumption.
  intros e' Hin' Hf' Hs'. apply Hall. apply filter_In. split; [exact Hin'|].
  apply andb_true_iff. split; [now apply Z.eqb_eq | now apply String.eqb_eq].
Qed.

(** *** The loop over the transitions *)

Lemma accumulate_fold (stage : string) (hist trs : list StatusHistory.t) :
  forall (total_time : float) (count : Z),
    fold_left (accumulate stage hist) trs (total_time, count)
    = (fold_left PrimFloat.add
         (flat_map
            (fun transition =>
               match entry_into stage (StatusHistory.file_id transition) hist with
               | Some entry =>
                   let delta :=
                     days_between (StatusHistory.changed_at transition)
                       (StatusHistory.changed_at entry) in
                   if PrimFloat.leb 0%float delta then [delta] else []
               | None => []
               end) trs) total_time,
       count
       + Z.of_nat (List.length
           (flat_map
              (fun transition =>
                 match entry_into stage (StatusHistory.file_id transition) hist with
                 | Some entry =>
                     let delta :=
                       days_between (StatusHistory.changed_at transition)
                         (StatusHistory.changed_at entry) in
                     if PrimFloat.leb 0%float delta then [delta] else []
                 | None => []
                 end) trs))).
Proof.
  induction trs as [|tr trs IH]; intros total_time count;
    cbn [fold_left flat_map].
  - cbn. f_equal. lia.
  - unfold accumulate at 2.
    destruct (entry_into stage (StatusHistory.file_id tr) hist) as [entry|].
    + cbv zeta.
      destruct (PrimFloat.leb 0 (days_between (StatusHistory.changed_at tr)
                                   (StatusHistory.changed_at entry))).
      * rewrite IH. cbn [app List.length fold_left]. f_equal. lia.
      * rewrite IH. reflexivity.
    + rewrite IH. reflexivity.
Qed.

Lemma stage_time_described (stage : string) (hist : list StatusHistory.t) :
  stage_time stage hist
  = Documented.mean_rounded (Documented.elapsed_days stage hist).
Proof.
  unfold stage_time, Documented.elapsed_days.
  destruct (transitions_from stage hist) as [|tr trs] eqn:Htrs; [reflexivity|].
  rewrite accumulate_fold. rewrite Z.add_0_l.
  destruct (flat_map _ (tr :: trs)) as [|x xs]; [reflexivity|].
  unfold Documented.mean_rounded.
  destruct (Z.ltb_spec 0 (Z.of_nat (List.length (x :: xs)))) as [_|H];
    [reflexivity | simpl in H; lia].
Qed.

Lemma two_is_not_two_and_a_half : Some 2%float <> Some 2.5%float.
Proof.
  intros H.
  pose proof (f_equal (fun o => match o with
                                | Some x => PrimFloat.ltb 2%float x
                                | None => false
                                end) H) as G.
  vm_compute in G. discriminate G.
Qed.

(** C5 fails on the sample history, against the function's own comment
    ("find when file entered this stage").  Case 7 enters 'en cours de
    traitement' on day 1, leaves it on day 4, enters it again on day 6 and
    leaves it on day 8.  The entry query has no bound on the timestamp: for
    both exits it returns the entry of day 6, which is after the exit of
    day 4.  Pairing each exit with the last entry before it, as documented,
    gives stays of 3 and 2 days, mean 2.5; the code gets -2 and 2 days,
    drops the negative one and returns 2.0. *)
Theorem stage_time_ignores_earlier_visit :
  transitions_from "en cours de traitement" Sample.revisited
  = [Sample.exit_day4; Sample.exit_day8]
  /\ entry_into "en cours de traitement" 7 Sample.revisited
     = Some Sample.entry_day6
  /\ datetime.ltb (StatusHistory.changed_at Sample.exit_day4)
       (StatusHistory.changed_at Sample.entry_day6) = true
  /\ Documented.entry_before_exit "en cours de traitement" Sample.exit_day4
       Sample.revisited = Some Sample.entry_day1
  /\ Documented.entry_before_exit "en cours de traitement" Sample.exit_day8
       Sample.revisited = Some Sample.entry_day6
  /\ Documented.elapsed_days_before_exit "en cours de traitement"
       Sample.revisited = [3%float; 2%float]
  /\ Documented.mean_rounded [3%float; 2%float] = Some 2.5%float
  /\ In ("en cours de traitement", Some 2%float)
       (get_average_time_by_stage Sample.revisited)
  /\ stage_time "en cours de traitement" Sample.revisited
     <> Documented.mean_rounded
          (Documented.elapsed_days_before_exit "en cours de traitement"
             Sample.revisited).
Proof.
  repeat (split; [vm_compute; reflexivity|]).
  split.
  - vm_compute. do 4 right. left. reflexivity.
  - assert (E : stage_time "en cours de traitement" Sample.revisited
                = Some 2%float) by (vm_compute; reflexivity).
    assert (F : Documented.mean_rounded
                  (Documented.elapsed_days_before_exit "en cours de traitement"
                     Sample.revisited) = Some 2.5%float)
      by (vm_compute; reflexivity).
    rewrite E, F. exact two_is_not_two_and_a_half.
Qed.

End StageTimeFacts.

(** ** [utils/export.py] *)
Module ExportFacts.
Import ExportUtils.

Lemma string_of_list_ascii_length (l : list ascii) :
  String.length (string_of_list_ascii l) = List.length l.
Proof. induction l as [|c l IH]; simpl; [reflexivity | now rewrite IH]. Qed.

(** A number below [10^k] has at most [k] decimal digits. *)
Lemma digits_onto_length (fuel : nat) :
  forall (k : nat) (n : Z) (acc : string),
    (1 <= k)%nat -> 0 <= n < 10 ^ Z.of_nat k ->
    (String.length (Py.digits_onto fuel n acc) <= k + String.length acc)%nat.
Proof.
  induction fuel as [|fuel IH]; intros k n acc Hk Hn; simpl; [lia|].
  destruct (Z.eqb_spec (n / 10) 0) as [Hq|Hq]; simpl; [lia|].
  assert (H10 : 10 <= n).
  { destruct (Z_lt_le_dec n 10) as [Hlt|Hge]; [|exact Hge].
    elim Hq. apply Z.div_small. lia. }
  destruct k as [|[|k]]; [lia | simpl in Hn; lia |].
  specialize (IH (S k) (n / 10) (String (Py.digit_char (n mod 10)) acc)).
  simpl String.length in IH.
  assert (Hpow : 10 ^ Z.of_nat (S (S k)) = 10 * 10 ^ Z.of_nat (S k)).
  { rewrite (Nat2Z.inj_succ (S k)), Z.pow_succ_r by lia. reflexivity. }
  assert (Hdiv : 0 <= n / 10 < 10 ^ Z.of_nat (S k)).
  { split; [apply Z.div_pos; lia|].
    apply Z.div_lt_upper_bound; lia. }
  specialize (IH ltac:(lia) Hdiv). lia.
Qed.

Lemma zfill_length (width : nat) (s : string) :
  (String.length s <= width)%nat -> String.length (Py.zfill width s) = width.
Proof.
  intros H. unfold Py.zfill.
  rewrite PyFacts.append_length, string_of_list_ascii_length, repeat_length. lia.
Qed.

Lemma pad2_length (n : Z) : 0 <= n < 100 -> String.length (Py.pad2 n) = 2%nat.
Proof.
  intros Hn. unfold Py.pad2. apply zfill_length.
  unfold Py.str_int. destruct (Z.ltb_spec n 0) as [H|_]; [lia|].
  unfold Py.str_nat.
  pose proof (digits_onto_length (S (Z.to_nat (Z.log2 n))) 2 n EmptyString) as H.
  simpl String.length in H. apply H; [lia | simpl; lia].
Qed.

Lemma pad4_length (n : Z) : 0 <= n < 10000 -> String.length (Py.pad4 n) = 4%nat.
Proof.
  intros Hn. unfold Py.pad4. apply zfill_length.
  unfold Py.str_int. destruct (Z.ltb_spec n 0) as [H|_]; [lia|].
  unfold Py.str_nat.
  pose proof (digits_onto_length (S (Z.to_nat (Z.log2 n))) 4 n EmptyString) as H.
  simpl String.length in H. apply H; [lia | simpl; lia].
Qed.






(** A date of the calendar is rendered on ten characters in the documented
    format. *)
Lemma dd_mm_yyyy_length (x : date.t) :
  1 <= date.day x <= 31 -> 1 <= date.month x <= 12 -> 1 <= date.year x <= 9999 ->
  String.length (Documented.dd_mm_yyyy x) = 10%nat.
Proof.
  intros Hd Hm Hy. unfold Documented.dd_mm_yyyy.
  rewrite !PyFacts.append_length, !pad2_length, pad4_length by lia. reflexivity.
Qed.

(** *** The writer *)





(** With an owner for every file the output is the header line followed
    by one line per file, in order. *)
Lemma write_files_rows (d : DB.t) (files : list File.t) :
  forall (rows : list (list string)) (output : string),
    map (file_row d) files = map Some rows ->
    write_files d files output
    = Some (output ++ String.concat "" (map Csv.writerow rows)).
Proof.
  induction files as [|file files IH]; intros rows output Hrows.
  - destruct rows; [|discriminate]. simpl. now rewrite PyFacts.append_nil_r.
  - destruct rows as [|row rows]; [discriminate|].
    simpl in Hrows. injection Hrows as Hrow Hrest.
    simpl. rewrite Hrow, (IH rows _ Hrest). f_equal.
    rewrite PyFacts.append_assoc. f_equal.
    destruct (map Csv.writerow rows); simpl; [|reflexivity].
    now rewrite PyFacts.append_nil_r.
Qed.

Lemma write_files_fails (d : DB.t) (files : list File.t) :
  forall output : string,
    write_files d files output = None
    <-> exists file, In file files /\ DB.owner file d = None.
Proof.
  induction files as [|file files IH]; intros output; simpl.
  - split; [discriminate | intros [f [[] _]]].
  - unfold file_row at 1.
    destruct (DB.owner file d) as [owner|] eqn:Howner.
    + rewrite IH. split.
      * intros [f [Hin Hf]]. exists f. split; [now right | exact Hf].
      * intros [f [[Hin|Hin] Hf]]; [subst f; congruence|].
        exists f. split; assumption.
    + split; [|reflexivity]. intros _. exists file. split; [now left | exact Howner].
Qed.

(** The export raises exactly when one of the files has no owner;
    otherwise it is the header line followed by one line per file, in the
    order of the files. *)
Theorem export_files_to_csv_needs_owners (d : DB.t) (files : list File.t) :
  (export_files_to_csv d files = None
   <-> exists file, In file files /\ DB.owner file d = None)
  /\ forall rows,
       map (file_row d) files = map Some rows ->
       List.length rows = List.length files
       /\ export_files_to_csv d files
          = Some (Csv.writerow header
                  ++ String.concat "" (map Csv.writerow rows)).
Proof.
  split; [apply write_files_fails|].
  intros rows Hrows. split.
  - apply (f_equal (@List.length _)) in Hrows.
    rewrite !length_map in Hrows. congruence.
  - now apply write_files_rows.
Qed.




End ExportFacts.

(** ** [routes/affecteur.py] *)
Module AffecteurFacts.
Import Affecteur.
Import Invariants.

Lemma process_row_added (utcnow : datetime.t) (d : DB.t)
    (headers : list (option string)) (s : session) (row_idx : Z)
    (row : list cell) (f : File.t) :
  process_row utcnow d headers s row_idx row = Added f -> imported f.
Proof.
  unfold process_row.
  repeat match goal with
         | |- context [match ?x with _ => _ end] =>
             lazymatch x with
             | context [match _ with _ => _ end] => fail
             | _ => destruct x eqn:?
             end; try discriminate
         end;
    try (rewrite ?Bool.orb_true_r in *; discriminate).
  all: intros H; injection H as <-; unfold imported, new_file; simpl;
    repeat split; intros Hr;
    repeat match goal with
           | H : (_ && _)%bool = false |- _ =>
               apply Bool.andb_false_iff in H; destruct H as [H|H]
           | H : (_ =? _)%string = false |- _ =>
               apply String.eqb_neq in H; try contradiction
           | H : negb _ = false |- _ => apply Bool.negb_false_iff in H
           end; try assumption; try congruence.
Qed.

(** An added case has a number that no case of the table and no case added
    before it has. *)
Lemma process_row_added_fresh (utcnow : datetime.t) (d : DB.t)
    (headers : list (option string)) (s : session) (row_idx : Z)
    (row : list cell) (f : File.t) :
  process_row utcnow d headers s row_idx row = Added f ->
  forall g, In g (DB.files d ++ pending s) ->
    File.file_number g <> File.file_number f.
Proof.
  unfold process_row.
  repeat match goal with
         | |- context [match ?x with _ => _ end] =>
             lazymatch x with
             | context [match _ with _ => _ end] => fail
             | _ => destruct x eqn:?
             end; try discriminate
         end;
    try (rewrite ?Bool.orb_true_r in *; discriminate).
  all: intros H; injection H as <-; unfold new_file; cbn [File.file_number];
    intros g Hg Heq;
    match goal with
    | E : existsb ?p ?l = false |- _ =>
        assert (X : existsb p l = true);
        [ apply existsb_exists; exists g; split;
          [exact Hg | apply String.eqb_eq; exact Heq]
        | congruence ]
    end.
Qed.

Lemma run_rows_pending (utcnow : datetime.t) (d : DB.t)
    (headers : list (option string)) (rows : list (Z * list cell)) :
  forall p : progress,
    Forall imported (pending (sess p)) ->
    Forall imported (pending (sess (fold_left (step utcnow d headers) rows p))).
Proof.
  induction rows as [|[row_idx row] rows IH]; intros p Hp; simpl; [exact Hp|].
  apply IH. unfold step.
  destruct (process_row utcnow d headers (sess p) row_idx row) as [|m|f|] eqn:Hrow;
    simpl; try exact Hp.
  apply Forall_app. split; [exact Hp|].
  constructor; [|constructor]. now apply (process_row_added _ _ _ _ _ _ _ Hrow).
Qed.

(** The table of cases after an upload is the table before it followed by
    the added cases, each without owner, in the initial status, with a SOR
    number when its route is B and a SOL number when its route is C. *)
Lemma upload_excel_appends (utcnow : datetime.t) (sheet : list (list cell))
    (d : DB.t) :
  exists added,
    DB.files (db (upload_excel utcnow sheet d)) = (DB.files d ++ added)%list
    /\ Forall imported added.
Proof.
  unfold upload_excel. cbv zeta.
  destruct (read_headers (hd [] sheet)) as [headers|];
    [|exists []; simpl; now rewrite app_nil_r].
  destruct (filter _ required_columns);
    [|exists []; simpl; now rewrite app_nil_r].
  destruct (unflushable _) eqn:Hu;
    [exists []; simpl; now rewrite app_nil_r|].
  eexists. split; [reflexivity|].
  apply run_rows_pending. constructor.
Qed.

Lemma NoDup_snoc {A : Type} (l : list A) (x : A) :
  NoDup l -> ~ In x l -> NoDup (l ++ [x]).
Proof.
  induction l as [|y l IH]; intros Hl Hx; simpl.
  - constructor; [intros [] | constructor].
  - inversion Hl as [|? ? Hy Hl']; subst. constructor.
    + intros Hin. apply in_app_or in Hin. destruct Hin as [Hin|[Hin|[]]].
      * contradiction.
      * subst. apply Hx. now left.
    + apply IH; [exact Hl' | intros Hin; apply Hx; now right].
Qed.

Lemma run_rows_numbers (utcnow : datetime.t) (d : DB.t)
    (headers : list (option string)) (rows : list (Z * list cell)) :
  forall p : progress,
    NoDup (map File.file_number (DB.files d ++ pending (sess p))) ->
    NoDup (map File.file_number
             (DB.files d
              ++ pending (sess (fold_left (step utcnow d headers) rows p)))).
Proof.
  induction rows as [|[row_idx row] rows IH]; intros p Hp; simpl; [exact Hp|].
  apply IH. unfold step.
  destruct (process_row utcnow d headers (sess p) row_idx row) as [|m|f|] eqn:Hrow;
    simpl; try exact Hp.
  rewrite app_assoc, map_app. simpl. apply NoDup_snoc; [exact Hp|].
  intros Hin. apply in_map_iff in Hin. destruct Hin as [g [Hnum Hg]].
  exact (process_row_added_fresh _ _ _ _ _ _ _ Hrow g Hg Hnum).
Qed.

(** The import keeps the case numbers unique: when no two cases of the
    table share a number before the upload, no two do after it, whatever
    the worksheet holds. *)
Theorem upload_excel_keeps_numbers_unique (utcnow : datetime.t)
    (sheet : list (list cell)) (d : DB.t) :
  NoDup (map File.file_number (DB.files d)) ->
  NoDup (map File.file_number (DB.files (db (upload_excel utcnow sheet d)))).
Proof.
  intros Hd. unfold upload_excel. cbv zeta.
  destruct (read_headers (hd [] sheet)) as [headers|]; [|exact Hd].
  destruct (filter _ required_columns); [|exact Hd].
  destruct (unflushable _) eqn:Hu; [exact Hd|].
  cbn [db DB.files DB.with_files]. apply run_rows_numbers.
  simpl. now rewrite app_nil_r.
Qed.

(** The theorem at the sample worksheet and database. *)
Lemma upload_excel_keeps_numbers_unique_witness :
  NoDup (map File.file_number
           (DB.files (db (upload_excel Sample.t0 Sample.route_d_sheet
                            Sample.database)))).
Proof.
  apply (upload_excel_keeps_numbers_unique Sample.t0 Sample.route_d_sheet
           Sample.database).
  repeat (constructor; [simpl; intuition discriminate|]). constructor.
Defined.

(** C2, at a worksheet with one data row of route 'd'.  The validator of
    the case form rejects route D, but the import creates the case: it is
    in the table afterwards with route D, without owner and pending, and no
    row error is flashed. *)
Theorem upload_excel_accepts_route_outside_abc :
  let out := upload_excel Sample.t0 Sample.route_d_sheet Sample.database in
  Validator.validate_route "D" "" ""
  = Validator.ValidationError "Route invalide. Choisissez A, B ou C."
  /\ (exists f,
        In f (DB.files (db out))
        /\ File.file_number f = "VOC-2025-100"
        /\ File.route f = "D"
        /\ File.user_id f = None
        /\ File.status f = PENDING)
  /\ List.length (DB.files (db out))
     = S (List.length (DB.files Sample.database))
  /\ flashes out = [("✅ 1 dossier(s) créé(s) avec succès!", "success")]
  /\ resp out = Redirect "affecteur.dashboard".
Proof.
  cbv zeta. split; [reflexivity|]. split.
  - eexists. split; [vm_compute; do 4 right; left; reflexivity|].
    repeat split.
  - repeat split.
Qed.

End AffecteurFacts.

(** ** [utils/upload.py] *)
Module UploadFacts.
Import Upload.



(** From 1024 bytes on (and within the 64 bits of the integer column) the
    access overwrites [file_size]: it leaves there the float of the size
    divided by 1024.0 once for each unit passed, [k] times with
    [1 <= k <= 4], and returns that float with one decimal and the unit
    number [k] of B, KB, MB, GB, TB.  Every quotient before the last is
    at least 1024, and the last is below 1024 unless the unit is TB. *)
Lemma human_readable_size_large (a : FileAttachment.t) (z : Z) :
  FileAttachment.file_size a = PyInt z ->
  1024 <= z < 2 ^ 63 ->
  exists k : nat,
    (1 <= k <= 4)%nat
    /\ human_readable_size a
       = ((PyFloat.format_1f
             (Nat.iter k (fun x => PrimFloat.div x 1024%float)
                (PyFloat.float_of_int z))
           ++ " " ++ nth k ["B"; "KB"; "MB"; "GB"; "TB"] "")%string,
          FileAttachment.set_file_size
            (PyFlt (Nat.iter k (fun x => PrimFloat.div x 1024%float)
                      (PyFloat.float_of_int z))) a)
    /\ (forall j : nat,
          (1 <= j < k)%nat ->
          PrimFloat.ltb
            (Nat.iter j (fun x => PrimFloat.div x 1024%float)
               (PyFloat.float_of_int z)) 1024%float = false)
    /\ ((k < 4)%nat ->
        PrimFloat.ltb
          (Nat.iter k (fun x => PrimFloat.div x 1024%float)
             (PyFloat.float_of_int z)) 1024%float = true).
Proof.
  intros Hsize [Hz _]. unfold human_readable_size. rewrite Hsize.
  cbn [size_loop lt_1024].
  apply Z.ltb_ge in Hz. rewrite Hz. cbn [div_1024 lt_1024 format_1f].
  set (y0 := PyFloat.float_of_int z).
  destruct (PrimFloat.ltb (PrimFloat.div y0 1024) 1024) eqn:H1.
  { exists 1%nat. split; [lia|]. split; [reflexivity|].
    split; [intros j Hj; lia | intros _; exact H1]. }
  destruct (PrimFloat.ltb (PrimFloat.div (PrimFloat.div y0 1024) 1024) 1024)
    eqn:H2.
  { exists 2%nat. split; [lia|]. split; [reflexivity|]. split.
    - intros j Hj. assert (j = 1%nat) as -> by lia. exact H1.
    - intros _. exact H2. }
  destruct (PrimFloat.ltb
              (PrimFloat.div (PrimFloat.div (PrimFloat.div y0 1024) 1024) 1024)
              1024) eqn:H3.
  { exists 3%nat. split; [lia|]. split; [reflexivity|]. split.
    - intros j Hj. assert (j = 1%nat \/ j = 2%nat) as [->| ->] by lia;
        assumption.
    - intros _. exact H3. }
  exists 4%nat. split; [lia|]. split; [reflexivity|]. split.
  - intros j Hj.
    assert (j = 1%nat \/ j = 2%nat \/ j = 3%nat) as [->|[->| ->]] by lia;
      assumption.
  - intros Hk. lia.
Qed.


Lemma human_readable_size_large_witness :
  human_readable_size Sample.attachment
  = ("2.0 KB", FileAttachment.set_file_size (PyFlt 2%float) Sample.attachment)
  /\ exists k : nat,
    (1 <= k <= 4)%nat
    /\ human_readable_size Sample.attachment
       = ((PyFloat.format_1f
             (Nat.iter k (fun x => PrimFloat.div x 1024%float)
                (PyFloat.float_of_int 2048))
           ++ " " ++ nth k ["B"; "KB"; "MB"; "GB"; "TB"] "")%string,
          FileAttachment.set_file_size
            (PyFlt (Nat.iter k (fun x => PrimFloat.div x 1024%float)
                      (PyFloat.float_of_int 2048))) Sample.attachment)
    /\ (forall j : nat,
          (1 <= j < k)%nat ->
          PrimFloat.ltb
            (Nat.iter j (fun x => PrimFloat.div x 1024%float)
               (PyFloat.float_of_int 2048)) 1024%float = false)
    /\ ((k < 4)%nat ->
        PrimFloat.ltb
          (Nat.iter k (fun x => PrimFloat.div x 1024%float)
             (PyFloat.float_of_int 2048)) 1024%float = true).
Proof.
  split; [vm_compute; reflexivity|].
  apply (human_readable_size_large Sample.attachment 2048);
    [reflexivity | lia].
Defined.

(** C9, at an attachment of 2048 bytes.  The first access returns
    "2.0 KB" and leaves the float 2.0 in [file_size]; the second access
    returns "2.0 B". *)
Theorem human_readable_size_overwrites_file_size :
  let first := human_readable_size Sample.attachment in
  let second := human_readable_size (snd first) in
  fst first = "2.0 KB"
  /\ FileAttachment.file_size (snd first) = PyFlt 2%float
  /\ FileAttachment.file_size (snd first)
     <> FileAttachment.file_size Sample.attachment
  /\ fst second = "2.0 B"
  /\ fst second <> fst first.
Proof.
  cbv zeta. repeat split; try (vm_compute; reflexivity);
    vm_compute; discriminate.
Qed.

End UploadFacts.

(** ** [routes/evaluator.py]: the queue of the evaluators *)
Module EvaluatorQueueFacts.
Import EvaluatorQueue.

(** Starting the evaluation of a pending case moves it to 'en cours
    d'évaluation', keeps its owner and records the transition; after that
    every request to evaluate the case is refused with the message that the
    case is not pending, and changes nothing: the evaluation form accepts
    only the status that starting the evaluation has just left. *)
Theorem start_evaluation_blocks_evaluate_file
    (cu : current_user) (utcnow : datetime.t) (file_id : Z) (d : DB.t)
    (file : File.t) :
  DB.get_file file_id d = Some file ->
  File.status file = PENDING ->
  let started := db (start_evaluation cu utcnow file_id d) in
  (exists file',
     DB.get_file file_id started = Some file'
     /\ File.status file' = "en cours d'évaluation"
     /\ File.user_id file' = File.user_id file)
  /\ DB.status_history started
     = (DB.status_history d
        ++ [StatusHistory.make
              (DB.next_id (map StatusHistory.id (DB.status_history d)))
              file_id (Some PENDING) "en cours d'évaluation" utcnow
              (Some (User.id cu))])%list
  /\ forall (py_float : string -> option float) (str_float : float -> string)
            (cu' : current_user) (utcnow' : datetime.t) (req : Request.t),
       Evaluator.evaluate_file py_float str_float cu' utcnow' req file_id started
       = mkOutcome (Redirect "evaluator.dashboard")
           [("Ce dossier n'est pas en attente d'évaluation.", "danger")] started.
Proof.
  intros Hget Hst started.
  pose proof (DBFacts.get_file_id _ _ _ Hget) as Hid.
  assert (Hnew : DB.get_file file_id started
                 = Some (FileSet.assignment (File.user_id file)
                           "en cours d'évaluation" utcnow file)).
  { subst started. unfold start_evaluation.
    rewrite Hget, Hst. cbn -[DB.get_file DB.update_file].
    apply (DBFacts.get_file_update_file file); [exact Hget | exact Hid]. }
  split; [|split].
  - eexists. split; [exact Hnew|]. split; reflexivity.
  - subst started. unfold start_evaluation. rewrite Hget, Hst.
    cbn. now rewrite Hid.
  - intros py_float str_float cu' utcnow' req.
    unfold Evaluator.evaluate_file. rewrite Hnew. reflexivity.
Qed.

(** The theorem at the sample: eva starts case 1, then submits her
    decision. *)
Lemma start_evaluation_blocks_evaluate_file_witness :
  Evaluator.evaluate_file Evaluator.decimal_float PyFloat.format_1f Sample.eva
    Sample.t0 Sample.soumis_form 1
    (db (start_evaluation Sample.eva Sample.t0 1 Sample.database))
  = mkOutcome (Redirect "evaluator.dashboard")
      [("Ce dossier n'est pas en attente d'évaluation.", "danger")]
      (db (start_evaluation Sample.eva Sample.t0 1 Sample.database)).
Proof.
  apply (start_evaluation_blocks_evaluate_file Sample.eva Sample.t0 1
           Sample.database Sample.pending_file eq_refl eq_refl).
Defined.

(** *** Sorting by creation time *)

Lemma insert_by_created_In (f x : File.t) (l : list File.t) :
  In x (insert_by_created f l) <-> x = f \/ In x l.
Proof.
  induction l as [|g l IH]; simpl; [intuition|].
  destruct (datetime.ltb (File.created_at f) (File.created_at g)); simpl;
    [intuition | rewrite IH; intuition].
Qed.

Lemma insert_by_created_length (f : File.t) (l : list File.t) :
  List.length (insert_by_created f l) = S (List.length l).
Proof.
  induction l as [|g l IH]; simpl; [reflexivity|].
  destruct (datetime.ltb (File.created_at f) (File.created_at g)); simpl;
    [reflexivity | now rewrite IH].
Qed.

Lemma order_by_created_spec (l : list File.t) :
  forall acc,
    (forall x, In x (fold_left (fun sorted f => insert_by_created f sorted) l acc)
               <-> In x l \/ In x acc)
    /\ List.length (fold_left (fun sorted f => insert_by_created f sorted) l acc)
       = (List.length l + List.length acc)%nat.
Proof.
  induction l as [|f l IH]; intros acc; simpl.
  - split; [intuition | reflexivity].
  - destruct (IH (insert_by_created f acc)) as [Hin Hlen]. split.
    + intros x. rewrite Hin, insert_by_created_In. intuition.
    + rewrite Hlen, insert_by_created_length. lia.
Qed.

Lemma In_firstn {A : Type} (n : nat) (l : list A) (x : A) :
  In x (firstn n l) -> In x l.
Proof.
  intros H. rewrite <- (firstn_skipn n l). apply in_or_app. now left.
Qed.

Lemma unassigned_files_pending (count : Z) (d : DB.t) (f : File.t) :
  In f (unassigned_files count d) ->
  In f (DB.files d) /\ File.status f = PENDING /\ File.user_id f = None.
Proof.
  unfold unassigned_files, order_by_created. intros H.
  apply In_firstn in H. apply (proj1 (order_by_created_spec _ [])) in H.
  destruct H as [H|[]]. apply filter_In in H. destruct H as [Hin Hp].
  apply andb_true_iff in Hp. destruct Hp as [Hs Hu].
  apply String.eqb_eq in Hs. split; [exact Hin|]. split; [exact Hs|].
  now destruct (File.user_id f).
Qed.

(** The files after assigning a list of selected cases. *)
Lemma assign_all_files (cu : current_user) (utcnow : datetime.t)
    (d0 : DB.t) (selected : list File.t) :
  (forall f, In f selected ->
     In f (DB.files d0) /\ File.status f = PENDING /\ File.user_id f = None) ->
  forall d : DB.t,
    let d' :=
      fold_left
        (fun acc file =>
           DB.update_file
             (FileSet.assignment (Some (User.id cu)) (File.status file) utcnow file)
             acc) selected d in
    (forall f', In f' (DB.files d) ->
       In f' (DB.files d0)
       \/ exists f, In f (DB.files d0) /\ File.status f = PENDING
                    /\ File.user_id f = None
                    /\ f' = FileSet.assignment (Some (User.id cu)) PENDING utcnow f) ->
    (forall f', In f' (DB.files d') ->
       In f' (DB.files d0)
       \/ exists f, In f (DB.files d0) /\ File.status f = PENDING
                    /\ File.user_id f = None
                    /\ f' = FileSet.assignment (Some (User.id cu)) PENDING utcnow f)
    /\ map File.id (DB.files d') = map File.id (DB.files d)
    /\ DB.status_history d' = DB.status_history d
    /\ DB.notifications d' = DB.notifications d
    /\ DB.users d' = DB.users d.
Proof.
  induction selected as [|s selected IH]; intros Hsel d; cbn [fold_left].
  - intros Hd. repeat split. exact Hd.
  - intros Hd.
    destruct (Hsel s (or_introl eq_refl)) as [Hs_in [Hs_st Hs_u]].
    specialize (IH (fun f Hf => Hsel f (or_intror Hf))
                   (DB.update_file
                      (FileSet.assignment (Some (User.id cu)) (File.status s)
                         utcnow s) d)).
    cbv zeta in IH.
    destruct IH as [Hin [Hids [Hh [Hn Hu]]]].
    + intros f' Hf'. unfold DB.update_file in Hf'. simpl in Hf'.
      apply in_map_iff in Hf'. destruct Hf' as [g [Hg Hgin]].
      destruct (File.id g =? File.id s).
      * right. exists s. rewrite Hs_st in Hg. now repeat split.
      * subst f'. now apply Hd.
    + split; [exact Hin|]. split; [now rewrite Hids, DBFacts.update_file_ids|].
      split; [now rewrite Hh|]. split; [now rewrite Hn | now rewrite Hu].
Qed.

(** *** The order of the selection *)

Lemma insert_by_created_sorted (f : File.t) (l : list File.t) :
  StronglySorted
    (fun a b => datetime.leb (File.created_at a) (File.created_at b) = true) l ->
  StronglySorted
    (fun a b => datetime.leb (File.created_at a) (File.created_at b) = true)
    (insert_by_created f l).
Proof.
  induction 1 as [|g l Hl IH Hg]; cbn [insert_by_created].
  - constructor; constructor.
  - destruct (datetime.ltb (File.created_at f) (File.created_at g)) eqn:Hlt.
    + constructor; [now constructor|].
      apply StageTimeFacts.leb_of_ltb in Hlt.
      constructor; [exact Hlt|].
      rewrite Forall_forall in *. intros h Hh.
      apply (StageTimeFacts.leb_trans _ (File.created_at g)); auto.
    + constructor; [exact IH|].
      rewrite Forall_forall in *. intros h Hh.
      apply insert_by_created_In in Hh. destruct Hh as [->|Hh]; auto.
      now apply StageTimeFacts.leb_of_not_ltb.
Qed.

Lemma order_by_created_sorted (l : list File.t) :
  forall acc,
    StronglySorted
      (fun a b => datetime.leb (File.created_at a) (File.created_at b) = true)
      acc ->
    StronglySorted
      (fun a b => datetime.leb (File.created_at a) (File.created_at b) = true)
      (fold_left (fun sorted f => insert_by_created f sorted) l acc).
Proof.
  induction l as [|f l IH]; intros acc H; cbn [fold_left]; [exact H|].
  apply IH. now apply insert_by_created_sorted.
Qed.

Lemma sorted_app_le {A : Type} (R : A -> A -> Prop) (l1 l2 : list A) :
  StronglySorted R (l1 ++ l2)%list ->
  forall x y, In x l1 -> In y l2 -> R x y.
Proof.
  induction l1 as [|a l1 IH]; intros H x y Hx Hy; [destruct Hx|].
  cbn [app] in H. inversion H as [|? ? Hs Hf]; subst.
  destruct Hx as [->|Hx]; [|now apply IH].
  rewrite Forall_forall in Hf. apply Hf. apply in_or_app. now right.
Qed.

(** No pending case without owner that is left out is older than a
    selected one. *)
Lemma unassigned_files_oldest (count : Z) (d : DB.t) (s f : File.t) :
  In s (unassigned_files count d) ->
  In f (DB.files d) -> File.status f = PENDING -> File.user_id f = None ->
  ~ In f (unassigned_files count d) ->
  datetime.ltb (File.created_at f) (File.created_at s) = false.
Proof.
  unfold unassigned_files. intros Hs Hf Hst Hu Hnot.
  set (pending :=
         order_by_created
           (filter (fun f => (File.status f =? PENDING)%string
                             && match File.user_id f with
                                | None => true
                                | Some _ => false
                                end) (DB.files d))) in *.
  assert (Hin : In f pending).
  { unfold pending, order_by_created.
    apply (proj1 (order_by_created_spec _ [])). left.
    apply filter_In. split; [exact Hf|].
    now rewrite Hst, Hu, String.eqb_refl. }
  rewrite <- (firstn_skipn (Z.to_nat count) pending) in Hin.
  apply in_app_or in Hin. destruct Hin as [Hin|Hin]; [now elim Hnot|].
  apply StageTimeFacts.not_ltb_of_leb.
  apply (sorted_app_le
           (fun a b => datetime.leb (File.created_at a) (File.created_at b) = true)
           (firstn (Z.to_nat count) pending)
           (skipn (Z.to_nat count) pending)); [|exact Hs | exact Hin].
  rewrite firstn_skipn. unfold pending, order_by_created.
  apply order_by_created_sorted. constructor.
Qed.

(** *** The table after the loop *)

Lemma NoDup_map_eq {A B : Type} (g : A -> B) (l : list A) (x y : A) :
  NoDup (map g l) -> In x l -> In y l -> g x = g y -> x = y.
Proof.
  induction l as [|a l IH]; intros Hnd Hx Hy E; [destruct Hx|].
  cbn [map] in Hnd. inversion Hnd as [|? ? Hna Hl]; subst.
  destruct Hx as [->|Hx], Hy as [->|Hy]; auto.
  - elim Hna. rewrite E. now apply in_map.
  - elim Hna. rewrite <- E. now apply in_map.
Qed.

Lemma assign_fold_files (cu : current_user) (utcnow : datetime.t)
    (selected : list File.t) :
  forall d : DB.t,
    DB.files
      (fold_left
         (fun acc file =>
            DB.update_file
              (FileSet.assignment (Some (User.id cu)) (File.status file)
                 utcnow file) acc)
         selected d)
    = map
        (fun g =>
           fold_left
             (fun acc s =>
                if File.id acc =? File.id s
                then FileSet.assignment (Some (User.id cu)) (File.status s)
                       utcnow s
                else acc)
             selected g)
        (DB.files d).
Proof.
  induction selected as [|s selected IH]; intros d; cbn [fold_left].
  - now rewrite map_id.
  - rewrite IH. unfold DB.update_file at 1. cbn [DB.files DB.with_files].
    rewrite map_map. reflexivity.
Qed.

Lemma assign_fold_row (cu : current_user) (utcnow : datetime.t) (g : File.t)
    (selected : list File.t) :
  (forall s, In s selected -> File.id s = File.id g -> s = g) ->
  fold_left
    (fun acc s =>
       if File.id acc =? File.id s
       then FileSet.assignment (Some (User.id cu)) (File.status s) utcnow s
       else acc)
    selected g
  = (if existsb (fun s => File.id s =? File.id g) selected
     then FileSet.assignment (Some (User.id cu)) (File.status g) utcnow g
     else g)
  /\ fold_left
       (fun acc s =>
          if File.id acc =? File.id s
          then FileSet.assignment (Some (User.id cu)) (File.status s) utcnow s
          else acc)
       selected (FileSet.assignment (Some (User.id cu)) (File.status g) utcnow g)
     = FileSet.assignment (Some (User.id cu)) (File.status g) utcnow g.
Proof.
  induction selected as [|s selected IH]; intros Hsel; [split; reflexivity|].
  destruct IH as [IH1 IH2]; [intros t Ht; apply Hsel; now right|].
  cbn [fold_left existsb]. cbn [File.id FileSet.assignment].
  rewrite (Z.eqb_sym (File.id s) (File.id g)).
  destruct (Z.eqb_spec (File.id g) (File.id s)) as [E|E].
  - rewrite (Hsel s (or_introl eq_refl) (eq_sym E)). cbn [orb].
    split; exact IH2.
  - cbn [orb]. split; [exact IH1 | exact IH2].
Qed.

(** Batch assignment.  A count outside 1..10 changes nothing.  In every
    case the table of cases keeps its keys, and each case afterwards is a
    case from before or a pending case without owner that now belongs to
    the acting user with its status still pending; users, notifications
    and the status history are unchanged.  For a count in 1..10 the number
    of selected cases is the smaller of the count and the number of
    pending cases without owner; with distinct primary keys the table of
    cases afterwards is the table before in which exactly the selected
    cases have the acting user as owner; and no pending case without owner
    that is left out was created before a selected one. *)
Theorem batch_assign_files_claims_pending
    (cu : current_user) (utcnow : datetime.t) (count : Z) (d : DB.t) :
  let out := batch_assign_files cu utcnow count d in
  ((count < 1 \/ 10 < count) -> db out = d)
  /\ map File.id (DB.files (db out)) = map File.id (DB.files d)
  /\ DB.status_history (db out) = DB.status_history d
  /\ DB.notifications (db out) = DB.notifications d
  /\ DB.users (db out) = DB.users d
  /\ (forall f', In f' (DB.files (db out)) ->
        In f' (DB.files d)
        \/ exists f, In f (DB.files d) /\ File.status f = PENDING
                     /\ File.user_id f = None
                     /\ f' = FileSet.assignment (Some (User.id cu)) PENDING utcnow f)
  /\ (1 <= count <= 10 ->
      Z.of_nat (List.length (unassigned_files count d))
      = Z.min count
          (Z.of_nat (List.length
             (filter (fun f => (File.status f =? PENDING)%string
                               && match File.user_id f with
                                  | None => true
                                  | Some _ => false
                                  end) (DB.files d)))))
  /\ (1 <= count <= 10 ->
      NoDup (map File.id (DB.files d)) ->
      DB.files (db out)
      = map
          (fun f =>
             if existsb (fun s => File.id s =? File.id f)
                  (unassigned_files count d)
             then FileSet.assignment (Some (User.id cu)) PENDING utcnow f
             else f)
          (DB.files d))
  /\ (forall s f,
        In s (unassigned_files count d) ->
        In f (DB.files d) -> File.status f = PENDING -> File.user_id f = None ->
        ~ In f (unassigned_files count d) ->
        datetime.ltb (File.created_at f) (File.created_at s) = false).
Proof.
  cbv zeta.
  assert (Hlast : forall s f,
             In s (unassigned_files count d) ->
             In f (DB.files d) -> File.status f = PENDING ->
             File.user_id f = None ->
             ~ In f (unassigned_files count d) ->
             datetime.ltb (File.created_at f) (File.created_at s) = false)
    by (intros s f; apply unassigned_files_oldest).
  unfold batch_assign_files.
  destruct ((count <? 1) || (10 <? count)) eqn:Hrange.
  - cbn [db]. repeat split; try reflexivity; try exact Hlast.
    + intros f' Hf'. now left.
    + intros Hc. apply orb_true_iff in Hrange.
      destruct Hrange as [H|H]; apply Z.ltb_lt in H; lia.
    + intros Hc. apply orb_true_iff in Hrange.
      destruct Hrange as [H|H]; apply Z.ltb_lt in H; lia.
  - assert (Hc : 1 <= count <= 10).
    { apply orb_false_iff in Hrange. destruct Hrange as [H1 H2].
      apply Z.ltb_ge in H1, H2. lia. }
    assert (Hlen : Z.of_nat (List.length (unassigned_files count d))
                   = Z.min count
                       (Z.of_nat (List.length
                          (filter (fun f => (File.status f =? PENDING)%string
                                            && match File.user_id f with
                                               | None => true
                                               | Some _ => false
                                               end) (DB.files d))))).
    { unfold unassigned_files, order_by_created.
      rewrite length_firstn, (proj2 (order_by_created_spec _ [])). simpl. lia. }
    pose proof (assign_all_files cu utcnow d (unassigned_files count d)
                  (unassigned_files_pending count d) d) as Hall.
    cbv zeta in Hall.
    specialize (Hall (fun f' Hf' => or_introl Hf')).
    destruct Hall as [Hin [Hids [Hh [Hn Hu]]]].
    assert (Hfiles :
              NoDup (map File.id (DB.files d)) ->
              DB.files
                (fold_left
                   (fun acc file =>
                      DB.update_file
                        (FileSet.assignment (Some (User.id cu))
                           (File.status file) utcnow file) acc)
                   (unassigned_files count d) d)
              = map
                  (fun f =>
                     if existsb (fun s => File.id s =? File.id f)
                          (unassigned_files count d)
                     then FileSet.assignment (Some (User.id cu)) PENDING utcnow f
                     else f)
                  (DB.files d)).
    { intros Hnd. rewrite assign_fold_files. apply map_ext_in.
      intros g Hg.
      assert (Hsame : forall s, In s (unassigned_files count d) ->
                                File.id s = File.id g -> s = g).
      { intros s Hs E.
        apply (NoDup_map_eq File.id (DB.files d)); auto.
        now apply unassigned_files_pending in Hs. }
      rewrite (proj1 (assign_fold_row cu utcnow g _ Hsame)).
      destruct (existsb _ _) eqn:Hex; [|reflexivity].
      apply existsb_exists in Hex. destruct Hex as [s [Hs E]].
      apply Z.eqb_eq in E. rewrite (Hsame s Hs E) in Hs.
      apply unassigned_files_pending in Hs. destruct Hs as [_ [Hst _]].
      now rewrite Hst. }
    destruct (unassigned_files count d) as [|s selected] eqn:Hsel.
    + cbn [db]. repeat split; try reflexivity; try (intros; lia);
        try exact Hlast.
      * intros f' Hf'. now left.
      * intros _ _. cbn [existsb]. now rewrite map_id.
    + cbn [db]. split; [intros; lia|]. repeat split; try assumption.
      * intros _. exact Hlen.
      * intros _. exact Hfiles.
Qed.

(** The theorem at the queue of the sample, for a count of 2: the cases
    created on 1 and 2 October go to the acting evaluator, the case
    created on 3 October and the evaluated case stay as they are. *)
Lemma batch_assign_files_claims_pending_witness :
  DB.files (db (batch_assign_files Sample.eva Sample.t0 2 Sample.queue))
  = [ Sample.waiting 11 "VOC-2025-011" (Sample.day 3);
      Sample.ready_file;
      FileSet.assignment (Some 1) PENDING Sample.t0
        (Sample.waiting 12 "VOC-2025-012" (Sample.day 1));
      FileSet.assignment (Some 1) PENDING Sample.t0
        (Sample.waiting 13 "VOC-2025-013" (Sample.day 2)) ].
Proof.
  refine (eq_trans
            (proj1 (proj2 (proj2 (proj2 (proj2 (proj2 (proj2 (proj2
               (batch_assign_files_claims_pending Sample.eva Sample.t0 2
                  Sample.queue)))))))) _ _) _).
  - lia.
  - cbn. repeat (constructor; [cbn; intuition discriminate|]). constructor.
  - vm_compute. reflexivity.
Defined.

End EvaluatorQueueFacts.

(** ** [utils/kpi.py] and [utils/scheduler.py]: overdue and recalled *)
Module OverdueFacts.
Import TemporalKPIMore.

Lemma date_ltb_leb (a b : date.t) : date_ltb a b = true -> date_leb a b = true.
Proof.
  unfold date_ltb, date_leb, lex_ltb, lex_leb.
  destruct (lex_compare (date.key a) (date.key b)); congruence.
Qed.

(** Every case the KPI report lists as overdue is a case the recall scan
    of the same day selects; a case due today that is not Finalized is
    selected by the scan but is not yet listed as overdue. *)
Theorem overdue_files_are_recalled (today : date.t) (d : DB.t) :
  (forall f, In f (get_current_overdue_files today d) ->
             In f (filter (Scheduler.to_recall today) (DB.files d)))
  /\ (forall f, In f (DB.files d) ->
                File.recall_date f = Some today ->
                File.status f <> "Finalized" ->
                In f (filter (Scheduler.to_recall today) (DB.files d))
                /\ ~ In f (get_current_overdue_files today d)).
Proof.
  unfold get_current_overdue_files, Scheduler.to_recall. split.
  - intros f Hf. apply filter_In in Hf. destruct Hf as [Hin Hp].
    apply filter_In. split; [exact Hin|].
    apply andb_true_iff in Hp. destruct Hp as [Hr Hs]. rewrite Hs.
    destruct (File.recall_date f) as [r|]; [|discriminate].
    now rewrite (date_ltb_leb _ _ Hr).
  - intros f Hin Hr Hs. apply String.eqb_neq in Hs. split.
    + apply filter_In. split; [exact Hin|]. rewrite Hr, Hs.
      unfold date_leb, lex_leb. now rewrite StageTimeFacts.lex_compare_refl.
    + intros Hf. apply filter_In in Hf. destruct Hf as [_ Hp].
      rewrite Hr in Hp. unfold date_ltb, lex_ltb in Hp.
      now rewrite StageTimeFacts.lex_compare_refl in Hp.
Qed.

(** The theorem at the sample: the overdue case of omar. *)
Lemma overdue_files_are_recalled_witness :
  In Sample.overdue_file
    (filter (Scheduler.to_recall Sample.today) (DB.files Sample.database)).
Proof.
  apply (proj1 (overdue_files_are_recalled Sample.today Sample.database)).
  vm_compute. left. reflexivity.
Defined.

End OverdueFacts.

(** ** [utils/validation.py]: the recall date on a leap day *)
Module ValidatorDatesFacts.
Import ValidatorDates.

Lemma leap_year_before (y : Z) : date.is_leap y = true -> date.is_leap (y - 1) = false.
Proof.
  unfold date.is_leap. intros H.
  apply andb_true_iff in H. destruct H as [H4 _]. apply Z.eqb_eq in H4.
  destruct (Z.eqb_spec ((y - 1) mod 4) 0) as [E|_]; [|reflexivity].
  exfalso.
  pose proof (Z.div_mod y 4 ltac:(lia)) as D1.
  pose proof (Z.div_mod (y - 1) 4 ltac:(lia)) as D2.
  lia.
Qed.

(** On 29 February the validator cannot compute "one year ago": for every
    recall date it ends in the [ValueError] of [date.replace] instead of
    accepting the date or raising its own validation error; an absent
    recall date is still accepted. *)
Theorem validate_recall_date_fails_on_leap_day (today : date.t) :
  date.valid today = true ->
  date.month today = 2 ->
  date.day today = 29 ->
  validate_recall_date today None = Ok None
  /\ forall r : date.t,
       validate_recall_date today (Some r)
       = ValueError "day is out of range for month".
Proof.
  intros Hvalid Hm Hd. split; [reflexivity|]. intros r.
  unfold validate_recall_date, replace_year.
  assert (Hleap : date.is_leap (date.year today) = true).
  { unfold date.valid, date.days_in_month in Hvalid.
    rewrite Hm, Hd in Hvalid. simpl in Hvalid.
    destruct (date.is_leap (date.year today)); [reflexivity|].
    simpl in Hvalid. rewrite !andb_false_r in Hvalid. discriminate. }
  assert (Hbad : date.valid (date.make (date.year today - 1) (date.month today)
                               (date.day today)) = false).
  { unfold date.valid, date.days_in_month. cbn [date.year date.month date.day].
    rewrite Hm, Hd, (leap_year_before _ Hleap). simpl.
    now rewrite !andb_false_r. }
  now rewrite Hbad.
Qed.

(** The theorem on 29 February 2024. *)
Lemma validate_recall_date_fails_on_leap_day_witness :
  validate_recall_date (date.make 2024 2 29) (Some (date.make 2024 3 15))
  = ValueError "day is out of range for month".
Proof.
  apply (proj2 (validate_recall_date_fails_on_leap_day (date.make 2024 2 29)
                  eq_refl eq_refl eq_refl)).
Defined.

End ValidatorDatesFacts.

(** ** [routes/invoice.py] and [utils/upload.py]: the extension filters *)
Module ExtensionFacts.

(** A payment proof whose name passes the check of the invoice form has
    an extension that the attachment manager allows as well. *)
Theorem payment_proof_extension_is_allowed (pf : Request.upload) :
  Invoice.payment_file_errors (Some pf) = [] ->
  UploadFilter.allowed_file (Request.filename pf) = true.
Proof.
  unfold Invoice.payment_file_errors, UploadFilter.allowed_file.
  destruct (Request.filename pf =? "")%string; [discriminate|].
  pose proof (TextFacts.rsplit_dot_lower (Request.filename pf)) as H.
  destruct (OsPath.rsplit_dot (Py.lower (Request.filename pf))) as [[a' e']|];
    [|discriminate].
  destruct H as [a [e [Hr Hlow]]]. rewrite Hr.
  destruct (Py.str_in e' Invoice.allowed_extensions) eqn:Hin; [|discriminate].
  intros _. apply PyFacts.str_in_In in Hin.
  assert (Hascii : Text.is_ascii e' = true).
  { unfold Invoice.allowed_extensions in Hin. cbn [In] in Hin.
    destruct Hin as [<-|[<-|[<-|[<-|[<-|[<-|[]]]]]]]; reflexivity. }
  rewrite (Hlow Hascii). apply PyFacts.str_in_In.
  unfold Invoice.allowed_extensions in Hin.
  unfold UploadFilter.ALLOWED_EXTENSIONS. cbn [In] in *.
  intuition.
Qed.

(** The theorem at the proof file of the sample request. *)
Lemma payment_proof_extension_is_allowed_witness :
  UploadFilter.allowed_file "preuve.PDF" = true.
Proof.
  apply (payment_proof_extension_is_allowed (Request.mkUpload "preuve.PDF")).
  reflexivity.
Defined.

End ExtensionFacts.

(** ** [routes/user.py]: the completion shortcut *)
Module UserCompletionFacts.
Import UserCompletion.

(** Marking an existing case "to complete".  When the acting user is
    neither the owner nor an admin, or the description is blank after
    trimming, the request is refused and the database is unchanged.
    Otherwise the case gets status 'à compléter' whatever its status was,
    the trimmed description and the completion timestamp are stored, and the
    status history grows by one row from the old status to 'à compléter'. *)
Theorem set_completion_requires_description
    (cu : current_user) (utcnow : datetime.t) (req : Request.t) (file_id : Z)
    (d : DB.t) (file : File.t) :
  DB.get_file file_id d = Some file ->
  let out := set_completion cu utcnow req file_id d in
  let description := Py.strip (Request.form_get "completion_description" req) in
  let permitted :=
    opt_id_eqb (File.user_id file) (User.id cu) || User.is_admin cu in
  ((permitted = false \/ description = "") ->
     db out = d /\ exists message, flashes out = [(message, "danger")])
  /\ ((permitted = true /\ description <> "") ->
        exists file',
          DB.get_file file_id (db out) = Some file'
          /\ File.status file' = "à compléter"
          /\ File.completion_description file' = Some description
          /\ File.completion_date file' = Some utcnow
          /\ File.user_id file' = File.user_id file
          /\ DB.status_history (db out)
             = (DB.status_history d
                ++ [StatusHistory.make
                      (DB.next_id (map StatusHistory.id (DB.status_history d)))
                      file_id (Some (File.status file)) "à compléter" utcnow
                      (Some (User.id cu))])%list).
Proof.
  intros Hget out description permitted.
  pose proof (DBFacts.get_file_id _ _ _ Hget) as Hid.
  subst out. unfold set_completion. rewrite Hget. cbv zeta.
  fold description.
  assert (Hguard : negb (opt_id_eqb (File.user_id file) (User.id cu))
                   && negb (User.is_admin cu) = negb permitted).
  { subst permitted. now rewrite negb_orb. }
  rewrite Hguard. split.
  - intros [Hp|Hdesc].
    + rewrite Hp. simpl. split; [reflexivity | eexists; reflexivity].
    + destruct permitted; simpl.
      * rewrite Hdesc. simpl. split; [reflexivity | eexists; reflexivity].
      * split; [reflexivity | eexists; reflexivity].
  - intros [Hp Hdesc]. rewrite Hp. simpl.
    assert (Ht : Py.truthy description = true).
    { unfold Py.truthy. apply String.eqb_neq in Hdesc. now rewrite Hdesc. }
    rewrite Ht. simpl.
    eexists. split.
    + apply (DBFacts.get_file_update_file file); [exact Hget | exact Hid].
    + repeat split. now rewrite Hid.
Qed.

(** The theorem at the sample: omar sends his overdue case back for
    completion. *)
Lemma set_completion_requires_description_witness :
  exists file',
    DB.get_file 4
      (db (set_completion Sample.omar Sample.t0
             (Request.make "POST" [("completion_description", " facture manquante ")] [])
             4 Sample.database)) = Some file'
    /\ File.status file' = "à compléter"
    /\ File.completion_description file' = Some "facture manquante"
    /\ File.completion_date file' = Some Sample.t0
    /\ File.user_id file' = Some 4
    /\ DB.status_history
         (db (set_completion Sample.omar Sample.t0
                (Request.make "POST"
                   [("completion_description", " facture manquante ")] [])
                4 Sample.database))
       = [StatusHistory.make 1 4 (Some "en cours de traitement") "à compléter"
            Sample.t0 (Some 4)].
Proof.
  apply (proj2 (set_completion_requires_description Sample.omar Sample.t0
                  (Request.make "POST"
                     [("completion_description", " facture manquante ")] [])
                  4 Sample.database Sample.overdue_file eq_refl)).
  split; [reflexivity | discriminate].
Defined.

End UserCompletionFacts.

(** ** [utils/scheduler.py]: what a scan creates *)
Module ScanFacts.
Import Scheduler.
Import Invariants.

Lemma add_admins_new (utcnow : datetime.t) (message : string) (file_id : Z)
    (admins : list User.t) :
  forall d : DB.t,
  exists more,
    DB.notifications
      (fold_left
         (fun acc admin =>
            DB.add_notification utcnow message (User.id admin) (Some file_id)
              "recall" acc) admins d)
    = (DB.notifications d ++ more)%list
    /\ Forall
         (fun n =>
            Notification.notification_type n = "recall"
            /\ Notification.created_at n = utcnow
            /\ Notification.read_status n = false
            /\ Notification.file_id n = Some file_id
            /\ exists a, In a admins /\ Notification.user_id n = User.id a)
         more.
Proof.
  induction admins as [|a admins IH]; intros d; cbn [fold_left].
  - exists []. split; [now rewrite app_nil_r | constructor].
  - destruct (IH (DB.add_notification utcnow message (User.id a) (Some file_id)
                    "recall" d)) as [more [Hn Hall]].
    eexists. split.
    + rewrite Hn. cbn [DB.notifications DB.add_notification DB.with_notifications].
      rewrite <- app_assoc. reflexivity.
    + constructor.
      * cbn. repeat split. exists a. split; [now left | reflexivity].
      * eapply Forall_impl; [|exact Hall].
        intros n [H1 [H2 [H3 [H4 [b [Hb Hu]]]]]]. repeat split; try assumption.
        exists b. split; [now right | exact Hu].
Qed.

Lemma recall_one_new (today : date.t) (utcnow : datetime.t)
    (admins : list User.t) (d : DB.t) (outbox : list mail) (f : File.t) :
  exists more,
    DB.notifications (fst (recall_one today utcnow admins (d, outbox) f))
    = (DB.notifications d ++ more)%list
    /\ Forall (recall_for utcnow admins d f) more.
Proof.
  unfold recall_one.
  destruct (find (sent_today today f) (DB.notifications d));
    [exists []; split; [simpl; now rewrite app_nil_r | constructor]|].
  destruct (DB.owner f d) as [user|] eqn:Howner;
    [|exists []; split; [simpl; now rewrite app_nil_r | constructor]].
  cbn [fst].
  destruct (add_admins_new utcnow (admin_message user f) (File.id f) admins
              (DB.add_notification utcnow (owner_message f) (User.id user)
                 (Some (File.id f)) "recall" d)) as [more [Hn Hall]].
  eexists. split.
  - rewrite Hn. cbn [DB.notifications DB.add_notification DB.with_notifications].
    rewrite <- app_assoc. reflexivity.
  - constructor.
    + unfold recall_for. cbn. repeat split.
      exists user. split; [exact Howner | now left].
    + eapply Forall_impl; [|exact Hall].
      intros n [H1 [H2 [H3 [H4 [a [Ha Hu]]]]]].
      unfold recall_for. repeat split; try assumption.
      exists user. split; [exact Howner|]. right. now exists a.
Qed.

Lemma owner_same_users (f : File.t) (d d' : DB.t) :
  DB.users d' = DB.users d -> DB.owner f d' = DB.owner f d.
Proof. unfold DB.owner, DB.get_user. now intros ->. Qed.

Lemma scan_new (today : date.t) (utcnow : datetime.t) (admins : list User.t)
    (d0 : DB.t) (l : list File.t) :
  forall st : state,
    DB.users (fst st) = DB.users d0 ->
    exists more,
      DB.notifications (fst (fold_left (recall_one today utcnow admins) l st))
      = (DB.notifications (fst st) ++ more)%list
      /\ Forall (fun n => exists f, In f l /\ recall_for utcnow admins d0 f n) more.
Proof.
  induction l as [|f l IH]; intros [d outbox] Hu; cbn [fold_left fst].
  - exists []. split; [now rewrite app_nil_r | constructor].
  - destruct (recall_one_new today utcnow admins d outbox f) as [m1 [Hn1 H1]].
    destruct (SchedulerFacts.recall_one_frame today utcnow admins d outbox f)
      as [Hu1 _]. cbv zeta in Hu1.
    destruct (IH (recall_one today utcnow admins (d, outbox) f)) as [m2 [Hn2 H2]].
    { rewrite Hu1. exact Hu. }
    exists (m1 ++ m2)%list. split.
    + rewrite Hn2, Hn1. now rewrite app_assoc.
    + apply Forall_app. split.
      * eapply Forall_impl; [|exact H1].
        intros n Hn. exists f. split; [now left|].
        destruct Hn as [A [B [C [D [o [Ho Hor]]]]]].
        repeat split; try assumption. exists o. split; [|exact Hor].
        rewrite <- Ho. symmetry. apply owner_same_users. exact Hu.
      * eapply Forall_impl; [|exact H2].
        intros n [g [Hg Hn]]. exists g. split; [now right | exact Hn].
Qed.

(** A recall scan leaves users and cases as they are and only appends
    notifications; each of them is an unread recall notification stamped
    with the time of the run, for a case whose recall date is not after
    today, which is not Finalized and which has an owner, and it is
    addressed to that owner or to an admin. *)
Theorem check_and_send_recalls_creates_recalls (today : date.t)
    (utcnow : datetime.t) (d : DB.t) :
  let d' := fst (check_and_send_recalls today utcnow d) in
  DB.users d' = DB.users d
  /\ DB.files d' = DB.files d
  /\ exists created,
       DB.notifications d' = (DB.notifications d ++ created)%list
       /\ Forall
            (fun n =>
               exists f,
                 In f (DB.files d)
                 /\ to_recall today f = true
                 /\ recall_for utcnow (DB.users_with_role "admin" d) d f n)
            created.
Proof.
  cbv zeta. unfold check_and_send_recalls.
  destruct (filter (to_recall today) (DB.files d)) as [|f l] eqn:Hl.
  - simpl. repeat split. exists []. split; [now rewrite app_nil_r | constructor].
  - rewrite <- Hl.
    destruct (SchedulerFacts.scan_frame today utcnow
                (DB.users_with_role "admin" d)
                (filter (to_recall today) (DB.files d)) (d, []))
      as [Hu [Hf _]].
    destruct (scan_new today utcnow (DB.users_with_role "admin" d) d
                (filter (to_recall today) (DB.files d)) (d, []) eq_refl)
      as [more [Hn Hall]].
    split; [exact Hu|]. split; [exact Hf|].
    exists more. split; [exact Hn|].
    eapply Forall_impl; [|exact Hall].
    intros n [g [Hg Hrec]]. apply filter_In in Hg. destruct Hg as [Hin Hto].
    exists g. split; [exact Hin|]. split; [exact Hto | exact Hrec].
Qed.

End ScanFacts.

(** ** What the handlers refuse *)
Module RefusalFacts.

(** An evaluation that is not acceptable changes nothing and shows the
    form again with one error message: a decision that is not one of the
    three, a 'soumis' decision with an empty amount, an amount that is not
    a number, or a negative amount. *)
Theorem evaluate_file_rejects_bad_input
    (py_float : string -> option float) (str_float : float -> string)
    (cu : current_user) (utcnow : datetime.t) (req : Request.t) (file_id : Z)
    (d : DB.t) (file : File.t) :
  DB.get_file file_id d = Some file ->
  File.status file = PENDING ->
  File.user_id file = Some (User.id cu) ->
  Request.method req = "POST" ->
  let decision := Py.strip (Request.form_get "decision" req) in
  let amount := Py.strip (Request.form_get "montant_facture" req) in
  let out := Evaluator.evaluate_file py_float str_float cu utcnow req file_id d in
  (~ In decision ["soumis"; "non_soumis"; "dispense"]
   \/ (decision = "soumis"
       /\ (amount = ""
           \/ py_float amount = None
           \/ exists m, py_float amount = Some m /\ PrimFloat.ltb m 0%float = true))) ->
  db out = d
  /\ resp out = Render "evaluator/evaluate_form.html"
  /\ exists message, flashes out = [(message, "danger")].
Proof.
  intros Hget Hst Hown Hpost decision amount out Hbad.
  subst out. unfold Evaluator.evaluate_file.
  rewrite Hget, Hst, Hown, Hpost. unfold opt_id_eqb. rewrite Z.eqb_refl.
  cbv zeta. fold decision amount.
  change (negb (PENDING =? PENDING)%string) with false.
  change (negb true) with false.
  change ("POST" =? "POST")%string with true. cbv iota.
  destruct Hbad as [Hnot | [Hd Hamount]].
  - assert (Hin : Py.str_in decision ["soumis"; "non_soumis"; "dispense"] = false).
    { destruct (Py.str_in decision _) eqn:E; [|reflexivity].
      apply PyFacts.str_in_In in E. contradiction. }
    rewrite Hin, orb_true_r. repeat split. eexists. reflexivity.
  - rewrite Hd. cbn [negb Py.truthy Py.str_in existsb String.eqb Ascii.eqb
                     Bool.eqb orb andb].
    destruct Hamount as [He | [Hn | [m [Hm Hneg]]]].
    + rewrite He. cbn. repeat split. eexists. reflexivity.
    + destruct (Py.truthy amount); cbn [negb];
        [|repeat split; eexists; reflexivity].
      unfold Evaluator.parse_montant. cbn [String.eqb Ascii.eqb Bool.eqb].
      rewrite Hn. repeat split. eexists. reflexivity.
    + destruct (Py.truthy amount); cbn [negb];
        [|repeat split; eexists; reflexivity].
      unfold Evaluator.parse_montant. cbn [String.eqb Ascii.eqb Bool.eqb].
      rewrite Hm, Hneg. repeat split. eexists. reflexivity.
Qed.

(** The theorem at the sample: eva submits 'soumis' with the amount -5. *)
Lemma evaluate_file_rejects_bad_input_witness :
  db (Evaluator.evaluate_file Evaluator.decimal_float PyFloat.format_1f
        Sample.eva Sample.t0
        (Request.make "POST" [("decision", "soumis"); ("montant_facture", "-5")] [])
        1 Sample.database) = Sample.database.
Proof.
  apply (evaluate_file_rejects_bad_input Evaluator.decimal_float
           PyFloat.format_1f Sample.eva Sample.t0
           (Request.make "POST" [("decision", "soumis"); ("montant_facture", "-5")] [])
           1 Sample.database Sample.pending_file eq_refl eq_refl eq_refl eq_refl).
  right. split; [reflexivity|]. right. right.
  exists (-5)%float. split; reflexivity.
Defined.

(** Invoicing is refused without any change when the case is not 'ready
    to invoice', and a POST whose fields fail the validation changes nothing
    and flashes one message per error; the guard for a case that is already
    invoiced can never fire after the first one has passed. *)
Theorem process_invoice_refuses_without_change
    (secure_filename : string -> string) (cu : current_user)
    (now utcnow : datetime.t) (save_ok : bool) (req : Request.t) (file_id : Z)
    (d : DB.t) (file : File.t) :
  DB.get_file file_id d = Some file ->
  let out :=
    Invoice.process_invoice secure_filename cu now utcnow save_ok req file_id d in
  let errors :=
    Invoice.validate (Py.strip (Request.form_get "mar_number" req))
      (Py.strip (Request.form_get "proforma_number" req))
      (Request.files_get "payment_justification" req) in
  (File.can_be_invoiced file = true -> File.is_invoiced file = false)
  /\ (File.status file <> "ready to invoice" ->
        db out = d /\ resp out = Redirect "invoice.dashboard")
  /\ (File.status file = "ready to invoice" ->
        Request.method req = "POST" ->
        errors <> [] ->
        db out = d
        /\ resp out = Render "invoice/process_form.html"
        /\ flashes out = map (fun e => (e, "danger")) errors).
Proof.
  intros Hget out errors. subst out. unfold Invoice.process_invoice.
  rewrite Hget. unfold File.can_be_invoiced, File.is_invoiced.
  split; [|split].
  - intros H. apply String.eqb_eq in H. now rewrite H.
  - intros Hs. apply String.eqb_neq in Hs. rewrite Hs. now split.
  - intros Hs Hpost Herr. rewrite Hs, Hpost. cbn [String.eqb Ascii.eqb Bool.eqb negb andb].
    cbv zeta. fold errors.
    destruct errors as [|e errors']; [congruence|].
    destruct (Request.files_get "payment_justification" req); now repeat split.
Qed.

(** The theorem at the sample: an invoice form without a proof file, and
    with a MAR number of two characters. *)
Lemma process_invoice_refuses_without_change_witness :
  db (Invoice.process_invoice (fun s => s) Sample.fatima Sample.t0 Sample.t0 true
        (Request.make "POST" [("mar_number", "éé"); ("proforma_number", "pf001")] [])
        2 Sample.database) = Sample.database.
Proof.
  apply (proj2 (proj2 (process_invoice_refuses_without_change (fun s => s)
                         Sample.fatima Sample.t0 Sample.t0 true
                         (Request.make "POST"
                            [("mar_number", "éé"); ("proforma_number", "pf001")] [])
                         2 Sample.database Sample.ready_file eq_refl))
           eq_refl eq_refl).
  discriminate.
Defined.

(** An upload whose header row lacks one of the six required columns
    creates nothing, whatever the rows hold. *)
Theorem upload_excel_needs_required_columns (utcnow : datetime.t)
    (sheet : list (list Affecteur.cell)) (d : DB.t)
    (headers : list (option string)) (col : string) :
  Affecteur.read_headers (hd [] sheet) = Some headers ->
  In col Affecteur.required_columns ->
  Affecteur.header_in col headers = false ->
  db (Affecteur.upload_excel utcnow sheet d) = d
  /\ resp (Affecteur.upload_excel utcnow sheet d) = Render "affecteur/upload_form.html".
Proof.
  intros Hh Hcol Hmiss. unfold Affecteur.upload_excel. cbv zeta. rewrite Hh.
  destruct (filter (fun c => negb (Affecteur.header_in c headers))
              Affecteur.required_columns) as [|m ms] eqn:Hf.
  - assert (Hin : In col (filter (fun c => negb (Affecteur.header_in c headers))
                            Affecteur.required_columns)).
    { apply filter_In. split; [exact Hcol | now rewrite Hmiss]. }
    rewrite Hf in Hin. destruct Hin.
  - now split.
Qed.

(** The theorem at a worksheet without the route column. *)
Lemma upload_excel_needs_required_columns_witness :
  db (Affecteur.upload_excel Sample.t0
        [map Affecteur.CStr ["File_Number"; " receipt_date"; "importer";
                             "exporter"; "country"]]
        Sample.database) = Sample.database.
Proof.
  apply (upload_excel_needs_required_columns Sample.t0
           [map Affecteur.CStr ["File_Number"; " receipt_date"; "importer";
                                "exporter"; "country"]]
           Sample.database
           [Some "file_number"; Some "receipt_date"; Some "importer";
            Some "exporter"; Some "country"] "route");
    [reflexivity | simpl; intuition | reflexivity].
Defined.

End RefusalFacts.

(** ** [utils/kpi.py]: the bottleneck stages *)
Module BottleneckFacts.
Import TemporalKPI TemporalKPIMore.

Lemma insert_desc_In (x y : string * float) (l : list (string * float)) :
  In y (insert_desc x l) <-> y = x \/ In y l.
Proof.
  induction l as [|z l IH]; simpl; [intuition|].
  destruct (PrimFloat.ltb (snd z) (snd x)); simpl;
    [intuition | rewrite IH; intuition].
Qed.

Lemma insert_desc_length (x : string * float) (l : list (string * float)) :
  List.length (insert_desc x l) = S (List.length l).
Proof.
  induction l as [|z l IH]; simpl; [reflexivity|].
  destruct (PrimFloat.ltb (snd z) (snd x)); simpl; [reflexivity | now rewrite IH].
Qed.

Lemma sorted_desc_spec (l : list (string * float)) :
  forall acc,
    (forall y, In y (fold_left (fun sorted x => insert_desc x sorted) l acc)
               <-> In y l \/ In y acc)
    /\ List.length (fold_left (fun sorted x => insert_desc x sorted) l acc)
       = (List.length l + List.length acc)%nat.
Proof.
  induction l as [|x l IH]; intros acc; simpl.
  - split; [intuition | reflexivity].
  - destruct (IH (insert_desc x acc)) as [Hin Hlen]. split.
    + intros y. rewrite Hin, insert_desc_In. intuition.
    + rewrite Hlen, insert_desc_length. lia.
Qed.

Lemma valid_times_In (hist : list StatusHistory.t) (s : string) (v : float) :
  In (s, v) (valid_times (get_average_time_by_stage hist))
  <-> In s stages /\ stage_time s hist = Some v.
Proof.
  unfold valid_times, get_average_time_by_stage. rewrite in_flat_map. split.
  - intros [[k o] [Hin Hv]]. apply in_map_iff in Hin.
    destruct Hin as [stage [Heq Hstage]]. injection Heq as <- <-.
    simpl in Hv. destruct (stage_time stage hist) as [w|] eqn:Hw; [|destruct Hv].
    destruct Hv as [Hv|[]]. injection Hv as <- <-. now split.
  - intros [Hs Hv]. exists (s, Some v). split.
    + apply in_map_iff. exists s. now rewrite Hv.
    + simpl. now left.
Qed.

(** The bottleneck list has at most three items; each is a stage of the
    KPI list together with its average time, which is present; and the list
    is empty exactly when no stage has an average time. *)
Theorem get_bottleneck_stages_top_three (hist : list StatusHistory.t) :
  (List.length (get_bottleneck_stages hist) <= 3)%nat
  /\ (forall s v, In (s, v) (get_bottleneck_stages hist) ->
                  In s stages /\ stage_time s hist = Some v)
  /\ (get_bottleneck_stages hist = []
      <-> forall s, In s stages -> stage_time s hist = None).
Proof.
  unfold get_bottleneck_stages.
  destruct (valid_times (get_average_time_by_stage hist)) as [|x items] eqn:Hv.
  - split; [simpl; lia|]. split; [intros s v []|].
    split; [|reflexivity]. intros _ s Hs.
    destruct (stage_time s hist) as [v|] eqn:Hst; [|reflexivity].
    assert (Hin : In (s, v) (valid_times (get_average_time_by_stage hist)))
      by (apply valid_times_In; now split).
    rewrite Hv in Hin. destruct Hin.
  - rewrite <- Hv. split; [apply firstn_le_length|]. split.
    + intros s v Hin. apply EvaluatorQueueFacts.In_firstn in Hin.
      unfold sorted_desc in Hin.
      apply (proj1 (sorted_desc_spec _ [])) in Hin.
      destruct Hin as [Hin|[]]. now apply valid_times_In.
    + split.
      * intros Hempty. exfalso.
        apply (f_equal (@List.length _)) in Hempty.
        rewrite length_firstn in Hempty. unfold sorted_desc in Hempty.
        rewrite (proj2 (sorted_desc_spec _ [])), Hv in Hempty.
        simpl in Hempty. lia.
      * intros Hnone. exfalso. destruct x as [s v].
        assert (Hin : In (s, v) (valid_times (get_average_time_by_stage hist)))
          by (rewrite Hv; now left).
        apply valid_times_In in Hin. destruct Hin as [Hs Hst].
        rewrite (Hnone s Hs) in Hst. discriminate.
Qed.

End BottleneckFacts.
